(** * dns_resolver: the resolver core checked against its specification

    A shallow embedding of the cache (DNSCache.cpp), the cache persistor
    (DNSCachePersistor.cpp), the metrics accumulator (DNSMetrics.cpp), the
    event manager (DNSEvent.cpp), the configuration validator
    (DNSConfigValidator.cpp) and the resolver facade (DNSResolver.cpp),
    followed by the properties the specification states about them.

    Conventions.
    - C++ integers are [Z]; counters that the source increments are wrapped
      to their width where the source does arithmetic on them.
    - [std::unordered_map] is a [gmap]; its (unspecified) iteration order is
      the order of [map_to_list].
    - every read of [system_clock::now()] inside one call of a modelled
      member function yields the same instant, passed as the argument [now].
    - [double] values are rationals [Q]; the quotient that the hit-rate
      gauge stores is rounded as binary64 rounds it (see [Binary64]); the
      three places where the source multiplies a size by a floating constant
      and truncates are written with integer arithmetic (see
      [DNSCache.cleanup]). *)

From Stdlib Require Import ZArith QArith Qabs Lia Ascii.
From stdpp Require Import base gmap strings list fin_maps sorting.

Local Open Scope Z_scope.

(** ** Machine integers *)

Definition wrap64 (z : Z) : Z := z mod 2 ^ 64.
Definition wrap32 (z : Z) : Z := z mod 2 ^ 32.

(** ** Division in [double]

    The quotient of two integers that a [double] holds exactly (below
    [2^53] in magnitude), as IEEE 754 binary64 division gives it: rounded to
    the nearest number with a 53-bit significand, to the one with an even
    significand when two are equally near.  Such a quotient lies between
    [2^-53] and [2^53], where binary64 neither overflows nor has subnormal
    numbers. *)
Module Binary64.

Definition precision : Z := 53.

(** [floor (log2 (n / d))], for positive [n] and [d]. *)
Definition ilog2 (n d : Z) : Z :=
  let k := Z.log2 n - Z.log2 d in
  if (if 0 <=? k then d * 2 ^ k <=? n else d <=? n * 2 ^ (- k)) then k else k - 1.

(** The integer nearest to [n / d], the even one of two equally near. *)
Definition nearest_even (n d : Z) : Z :=
  let q := n / d in
  match 2 * (n mod d) ?= d with
  | Lt => q
  | Gt => q + 1
  | Eq => if Z.even q then q else q + 1
  end.

(** [x / y] for [0 <= x] and [0 < y]: the significand is the quotient
    scaled into [2^52, 2^53) and rounded. *)
Definition div (x y : Z) : Q :=
  if x =? 0 then 0%Q
  else
    let scale := precision - 1 - ilog2 x y in
    Qred (Qmake (nearest_even (x * 2 ^ scale) y) (Z.to_pos (2 ^ scale))).

End Binary64.

(** ** std::chrono

    A [system_clock::time_point] and a [system_clock::duration] are counts of
    clock ticks.  The tick period is implementation-defined; the source
    converts [std::chrono::milliseconds] and [std::chrono::seconds] to
    [system_clock::duration] implicitly, which only compiles when a
    millisecond is a whole number of ticks: [tpm] is that number
    (1000000 with libstdc++, 1000 with libc++, 10000 with MSVC). *)
Module Chrono.

Definition time_point := Z.

Definition ticks_per_second (tpm : positive) : Z := 1000 * Z.pos tpm.

(** [std::chrono::seconds(s)] converted to clock ticks. *)
Definition seconds (tpm : positive) (s : Z) : Z := s * ticks_per_second tpm.

(** [std::chrono::milliseconds(ms)] converted to clock ticks. *)
Definition milliseconds (tpm : positive) (ms : Z) : Z := ms * Z.pos tpm.

(** [duration_cast<seconds>(d).count()]: truncation toward zero. *)
Definition to_seconds (tpm : positive) (d : Z) : Z :=
  Z.quot d (ticks_per_second tpm).

(** [duration_cast<milliseconds>(d).count()]. *)
Definition to_milliseconds (tpm : positive) (d : Z) : Z :=
  Z.quot d (Z.pos tpm).

(** [system_clock::from_time_t(s)]. *)
Definition from_time_t (tpm : positive) (s : Z) : time_point := seconds tpm s.

End Chrono.

(** ** DNSCache.h: struct DNSRecord *)
Module DNSRecord.

Record t := mk {
  hostname : string;
  ip_addresses : list string;
  expire_time : Chrono.time_point;
  is_valid : bool
}.

(** [DNSRecord{}]: every member value-initialised. *)
Definition default : t := mk EmptyString [] 0 false.

Definition set_is_valid (b : bool) (r : t) : t :=
  mk (hostname r) (ip_addresses r) (expire_time r) b.

End DNSRecord.

(** ** DNSCache.cpp *)
Module DNSCache.

Record t := mk {
  cache_ : gmap string DNSRecord.t;
  ttl_ : Z;          (* std::chrono::seconds *)
  max_size_ : Z;     (* size_t *)
  hits_ : Z;         (* std::atomic<size_t> *)
  misses_ : Z        (* std::atomic<size_t> *)
}.

Definition with_cache (m : gmap string DNSRecord.t) (c : t) : t :=
  mk m (ttl_ c) (max_size_ c) (hits_ c) (misses_ c).

(** The test [now >= expire_time || !is_valid] of [get] and [cleanup]. *)
Definition stale (now : Z) (r : DNSRecord.t) : bool :=
  (now >=? DNSRecord.expire_time r) || negb (DNSRecord.is_valid r).

(** First loop of [cleanup]: erase every stale entry. *)
Definition purge (now : Z) (m : gmap string DNSRecord.t) : gmap string DNSRecord.t :=
  filter (λ kv, stale now kv.2 = false) m.

Definition expire_times (m : gmap string DNSRecord.t) : list (string * Z) :=
  (λ kv, (kv.1, DNSRecord.expire_time kv.2)) <$> map_to_list m.

Definition erase_keys (ks : list string) (m : gmap string DNSRecord.t)
  : gmap string DNSRecord.t :=
  foldl (λ acc k, delete k acc) m ks.

(** The comparator handed to [std::ranges::sort] in [cleanup]. *)
Definition expires_before (a b : string * Z) : Prop := a.2 < b.2.

#[global] Instance expires_before_dec : RelDecision expires_before.
Proof. intros a b. unfold expires_before. apply _. Defined.

(** [cleanup()].  [cache_.size() > max_size_ * 0.9] compares in [double];
    for sizes below 2^50 it holds exactly when [10 * size > 9 * max_size_].
    [static_cast<size_t>(cache_.size() * 0.2)] is [size / 5] for the same
    sizes (the double nearest to 0.2 exceeds 0.2 by a factor 1 + 2^-54, too
    little to carry a product to the next integer).  [std::ranges::sort]
    leaves the order of equal expiry times unspecified; [merge_sort] fixes
    one such order. *)
Definition cleanup_map (now max_size : Z) (m : gmap string DNSRecord.t)
  : gmap string DNSRecord.t :=
  let m1 := purge now m in
  if 10 * Z.of_nat (size m1) >? 9 * max_size then
    let sorted := merge_sort expires_before (expire_times m1) in
    let records_to_remove := Z.to_nat (Z.of_nat (size m1) / 5) in
    erase_keys (take records_to_remove (sorted.*1)) m1
  else m1.

Definition cleanup (now : Z) (c : t) : t :=
  with_cache (cleanup_map now (max_size_ c) (cache_ c)) c.

(** [DNSCache(ttl)]: [max_size_] is always 10000; [cleanup()] runs on the
    empty map. *)
Definition new (now : Z) (ttl : Z) : t :=
  cleanup now (mk ∅ ttl 10000 0 0).

(** [std::ranges::min_element] with the comparator of [update]: the first
    element, in iteration order, with the least [expire_time]. *)
Fixpoint min_element_from (best : string * DNSRecord.t)
  (l : list (string * DNSRecord.t)) : string * DNSRecord.t :=
  match l with
  | [] => best
  | x :: l' =>
      if DNSRecord.expire_time x.2 <? DNSRecord.expire_time best.2
      then min_element_from x l'
      else min_element_from best l'
  end.

Definition min_element (l : list (string * DNSRecord.t))
  : option (string * DNSRecord.t) :=
  match l with
  | [] => None
  | x :: l' => Some (min_element_from x l')
  end.

(** The eviction step of [update], run when [cache_.size() >= max_size_]. *)
Definition evict_one (m : gmap string DNSRecord.t) : gmap string DNSRecord.t :=
  match min_element (map_to_list m) with
  | Some oldest => delete oldest.1 m
  | None =>
      match map_to_list m with
      | first :: _ => delete first.1 m
      | [] => m
      end
  end.

(** [update(hostname, ips)]. *)
Definition update (tpm : positive) (now : Z) (hostname : string)
  (ips : list string) (c : t) : t :=
  let m1 := cleanup_map now (max_size_ c) (cache_ c) in
  let m2 := if Z.of_nat (size m1) >=? max_size_ c then evict_one m1 else m1 in
  let record := DNSRecord.mk EmptyString ips (now + Chrono.seconds tpm (ttl_ c)) true in
  with_cache (<[hostname := record]> m2) c.

(** [get(hostname, ips)]: [Some ips] when the source returns [true] after
    assigning the out-parameter, [None] when it returns [false] and leaves
    the out-parameter alone. *)
Definition get (tpm : positive) (now : Z) (hostname : string) (c : t)
  : option (list string) * t :=
  match cache_ c !! hostname with
  | None =>
      (None, mk (cache_ c) (ttl_ c) (max_size_ c) (hits_ c) (wrap64 (misses_ c + 1)))
  | Some record =>
      if stale now record then
        (None, mk (delete hostname (cache_ c)) (ttl_ c) (max_size_ c)
                  (hits_ c) (wrap64 (misses_ c + 1)))
      else
        let remaining := Chrono.to_seconds tpm (DNSRecord.expire_time record - now) in
        (* static_cast<int64_t>(ttl_.count() * 0.2): the product is taken in
           double and truncated toward zero, which is [ttl_ quot 5] for
           |ttl_| < 2^50 *)
        let record' :=
          if remaining <? Z.quot (ttl_ c) 5
          then DNSRecord.set_is_valid false record
          else record in
        (Some (DNSRecord.ip_addresses record),
         mk (<[hostname := record']> (cache_ c)) (ttl_ c) (max_size_ c)
            (wrap64 (hits_ c + 1)) (misses_ c))
  end.

Definition remove (hostname : string) (c : t) : t :=
  with_cache (delete hostname (cache_ c)) c.

Definition clear (c : t) : t :=
  mk ∅ (ttl_ c) (max_size_ c) 0 0.

(** [forEach(fn)]: the visitor threads an accumulator. *)
Definition forEach {A : Type} (fn : string → DNSRecord.t → A → A) (c : t) (acc : A) : A :=
  foldl (λ a kv, fn kv.1 kv.2 a) acc (map_to_list (cache_ c)).

Definition size (c : t) : Z := Z.of_nat (base.size (cache_ c)).

Definition capacity (c : t) : Z := max_size_ c.

Definition hit_rate (c : t) : Q :=
  let total := wrap64 (hits_ c + misses_ c) in
  if total =? 0 then 0%Q else (inject_Z (hits_ c) / inject_Z total)%Q.

End DNSCache.

(** ** nlohmann::json, as far as the persistor uses it

    Numbers are integers (the persistor writes no floating-point number).
    An object is the list of its members; [j[key] = v] replaces the member
    or adds it. *)
Module Json.

#[local] Unset Elimination Schemes.

Inductive t :=
| Null
| Bool (b : bool)
| Int (z : Z)
| Str (s : string)
| Arr (items : list t)
| Obj (members : list (string * t)).

#[local] Set Elimination Schemes.

Fixpoint lookup (key : string) (members : list (string * t)) : option t :=
  match members with
  | [] => None
  | (k, v) :: rest => if String.eqb key k then Some v else lookup key rest
  end.

Fixpoint set_member (key : string) (v : t) (members : list (string * t))
  : list (string * t) :=
  match members with
  | [] => [(key, v)]
  | (k, w) :: rest =>
      if String.eqb key k then (k, v) :: rest
      else (k, w) :: set_member key v rest
  end.

(** [j.contains(key)]: false on anything that is not an object. *)
Definition contains (key : string) (j : t) : bool :=
  match j with
  | Obj members => bool_decide (is_Some (lookup key members))
  | _ => false
  end.

(** [j[key]] read after a successful [contains]. *)
Definition at_key (key : string) (j : t) : option t :=
  match j with
  | Obj members => lookup key members
  | _ => None
  end.

(** [j[key] = v]: a null value becomes an object first; any other
    non-object makes the library throw ([None]). *)
Definition set (key : string) (v : t) (j : t) : option t :=
  match j with
  | Null => Some (Obj [(key, v)])
  | Obj members => Some (Obj (set_member key v members))
  | _ => None
  end.

Definition is_array (j : t) : bool :=
  match j with Arr _ => true | _ => false end.

(** Comparison of a value with a string literal. *)
Definition eq_str (j : t) (s : string) : bool :=
  match j with Str s' => String.eqb s' s | _ => false end.

(** The conversions [get<T>()]; [None] when the library throws
    [type_error]. *)
Definition get_string (j : t) : option string :=
  match j with Str s => Some s | _ => None end.

Definition get_bool (j : t) : option bool :=
  match j with Bool b => Some b | _ => None end.

Definition get_int64 (j : t) : option Z :=
  match j with Int z => Some z | _ => None end.

Definition get_string_vector (j : t) : option (list string) :=
  match j with
  | Arr items => mapM get_string items
  | _ => None
  end.

End Json.

(** ** DNSCachePersistor.cpp

    The file holds the text [j.dump(4)] and [load] parses it back; the model
    keeps the JSON value itself.  Strings are taken to be valid UTF-8, so
    that [dump] does not throw. *)
Module DNSCachePersistor.

Definition CACHE_FORMAT_VERSION : string := "1.0".
Definition MAX_CACHE_AGE : Z := 24 * 60 * 60 * 1000.
Definition CACHE_FIELD_NAME_VERSION : string := "version".
Definition CACHE_FIELD_NAME_TIMESTAMP : string := "timestamp".
Definition CACHE_FIELD_NAME_RECORDS : string := "records".
Definition CACHE_RECORDS_FIELD_NAME_HOSTNAME : string := "hostname".
Definition CACHE_RECORDS_FIELD_NAME_IP : string := "ip_addresses".
Definition CACHE_RECORDS_FIELD_NAME_EXPIRE_TIME : string := "expire_time".
Definition CACHE_RECORDS_FIELD_NAME_IS_VALID : string := "is_valid".

(** [DNSUtils::getTime()]. *)
Definition getTime (tpm : positive) (now : Z) : Z := Chrono.to_milliseconds tpm now.

(** Members of an object built by successive assignments to a fresh
    [nlohmann::json j]. *)
Definition object_of (members : list (string * Json.t)) : Json.t :=
  Json.Obj (foldl (λ acc kv, Json.set_member kv.1 kv.2 acc) [] members).

Definition serializeRecord (tpm : positive) (record : DNSRecord.t) : Json.t :=
  object_of
    [ (CACHE_RECORDS_FIELD_NAME_HOSTNAME, Json.Str (DNSRecord.hostname record));
      (CACHE_RECORDS_FIELD_NAME_IP, Json.Arr (Json.Str <$> DNSRecord.ip_addresses record));
      (CACHE_RECORDS_FIELD_NAME_EXPIRE_TIME,
        Json.Int (Chrono.to_seconds tpm (DNSRecord.expire_time record)));
      (CACHE_RECORDS_FIELD_NAME_IS_VALID, Json.Bool (DNSRecord.is_valid record)) ].

(** The visitor of [save]. *)
Definition save_visitor (tpm : positive) (hostname : string) (record : DNSRecord.t)
  (records : list Json.t) : list Json.t :=
  if DNSRecord.is_valid record then
    match Json.set CACHE_RECORDS_FIELD_NAME_HOSTNAME (Json.Str hostname)
            (serializeRecord tpm record) with
    | Some recordJson => records ++ [recordJson]
    | None => records
    end
  else records.

(** The value [save] builds before it opens the file. *)
Definition save_json (tpm : positive) (now : Z) (cache : DNSCache.t) : Json.t :=
  object_of
    [ (CACHE_FIELD_NAME_VERSION, Json.Str CACHE_FORMAT_VERSION);
      (CACHE_FIELD_NAME_TIMESTAMP, Json.Int (getTime tpm now));
      (CACHE_FIELD_NAME_RECORDS,
        Json.Arr (DNSCache.forEach (save_visitor tpm) cache [])) ].

(** [save(cache, filename)]: the result and the new content of the file
    ([None]: the file could not be opened and is left as it was). *)
Definition save (tpm : positive) (now : Z) (cache : DNSCache.t) (file_opens : bool)
  : bool * option Json.t :=
  if file_opens then (true, Some (save_json tpm now cache)) else (false, None).

(** [deserializeRecord(j)]; [None] when a conversion throws. *)
Definition deserializeRecord (tpm : positive) (j : Json.t) : option DNSRecord.t :=
  if negb (Json.contains CACHE_RECORDS_FIELD_NAME_HOSTNAME j)
     || negb (Json.contains CACHE_RECORDS_FIELD_NAME_IP j)
     || negb (Json.contains CACHE_RECORDS_FIELD_NAME_EXPIRE_TIME j)
     || negb (Json.contains CACHE_RECORDS_FIELD_NAME_IS_VALID j)
  then Some DNSRecord.default
  else
    hostname ← Json.at_key CACHE_RECORDS_FIELD_NAME_HOSTNAME j ≫= Json.get_string;
    ips ← Json.at_key CACHE_RECORDS_FIELD_NAME_IP j ≫= Json.get_string_vector;
    expire ← Json.at_key CACHE_RECORDS_FIELD_NAME_EXPIRE_TIME j ≫= Json.get_int64;
    valid ← Json.at_key CACHE_RECORDS_FIELD_NAME_IS_VALID j ≫= Json.get_bool;
    Some (DNSRecord.mk hostname ips (Chrono.from_time_t tpm expire) valid).

(** The loop of [load] over the records; an exception leaves the loop with
    the updates made so far and makes [load] return [false]. *)
Fixpoint load_records (tpm : positive) (now : Z) (records : list Json.t)
  (cache : DNSCache.t) : bool * DNSCache.t :=
  match records with
  | [] => (true, cache)
  | recordJson :: rest =>
      match deserializeRecord tpm recordJson with
      | None => (false, cache)
      | Some record =>
          let cache' :=
            if DNSRecord.is_valid record && (DNSRecord.expire_time record >? now)
            then DNSCache.update tpm now (DNSRecord.hostname record)
                   (DNSRecord.ip_addresses record) cache
            else cache in
          load_records tpm now rest cache'
      end
  end.

(** [load(cache, filename)]; [file = None] when the file cannot be opened
    or is not JSON text.  [(now - cache_time).count()] is a count of clock
    ticks and is compared with [MAX_CACHE_AGE] as it stands. *)
Definition load (tpm : positive) (now : Z) (file : option Json.t) (cache : DNSCache.t)
  : bool * DNSCache.t :=
  match file with
  | None => (false, cache)
  | Some cache_data =>
      if negb (Json.contains CACHE_FIELD_NAME_VERSION cache_data)
         || negb (from_option (λ v, Json.eq_str v CACHE_FORMAT_VERSION) false
                    (Json.at_key CACHE_FIELD_NAME_VERSION cache_data))
      then (false, cache)
      else if negb (Json.contains CACHE_FIELD_NAME_TIMESTAMP cache_data)
      then (false, cache)
      else
        match Json.at_key CACHE_FIELD_NAME_TIMESTAMP cache_data ≫= Json.get_int64 with
        | None => (false, cache)
        | Some timestamp =>
            let cache_time := Chrono.milliseconds tpm timestamp in
            if now - cache_time >? MAX_CACHE_AGE then (false, cache)
            else
              match Json.at_key CACHE_FIELD_NAME_RECORDS cache_data with
              | Some (Json.Arr records) => load_records tpm now records cache
              | _ => (false, cache)
              end
        end
  end.

(** [isValidCache(filename)]: the header checks alone.  A timestamp that
    does not convert to an integer makes the library throw, which the
    function turns into [false]. *)
Definition isValidCache (tpm : positive) (now : Z) (file : option Json.t) : bool :=
  match file with
  | None => false
  | Some cache_data =>
      if negb (Json.contains CACHE_FIELD_NAME_VERSION cache_data)
         || negb (Json.contains CACHE_FIELD_NAME_TIMESTAMP cache_data)
         || negb (Json.contains CACHE_FIELD_NAME_RECORDS cache_data)
      then false
      else if negb (from_option (λ v, Json.eq_str v CACHE_FORMAT_VERSION) false
                      (Json.at_key CACHE_FIELD_NAME_VERSION cache_data))
      then false
      else
        match Json.at_key CACHE_FIELD_NAME_TIMESTAMP cache_data ≫= Json.get_int64 with
        | None => false
        | Some timestamp =>
            negb (now - Chrono.milliseconds tpm timestamp >? MAX_CACHE_AGE)
        end
  end.

End DNSCachePersistor.

(** ** Outcome of a member function that may throw *)
Inductive thrown :=
| invalid_argument (what : string)
| ConfigValidationError (what : string).

(** ** DNSMetrics.cpp

    A [prometheus::Counter] holds a [double] that only ever grows by one; it
    is a non-negative integer here.  The histogram keeps its observations.
    The registry and the exposer are reduced to the address the exposer was
    last started on. *)
Module Stats.

Record t := mk {
  total_queries : Z;
  successful_queries : Z;
  failed_queries : Z;
  cache_hits : Z;
  cache_misses : Z;
  cache_hit_rate : Q;
  avg_query_time_ms : Q;
  error_counts : gmap string Z;
  server_latencies : gmap string Q;
  total_retries : Z;
  retry_attempts : gmap string (list Z)
}.

End Stats.

Module DNSMetrics.

Definition MAX_SAMPLES : nat := 1000.
Definition MAX_RETRY_HISTORY : nat := 100.

(** The message an alert callback receives, before formatting. *)
Inductive alert :=
| HighLatency (hostname : string) (duration_ms : Z)
| HighErrorRate (error_rate : Q)
| HighServerLatency (server : string) (latency_ms : Z).

Record t := mk {
  total_queries_ : Z;
  successful_queries_ : Z;
  failed_queries_ : Z;
  cache_hits_ : Z;
  cache_misses_ : Z;
  query_duration_ : list Z;
  cache_hit_rate_ : Q;
  total_retries_ : Z;
  exposer_ : option string;
  error_counts_ : gmap string Z;
  server_latencies_ : gmap string (list Z);
  retry_attempts_ : gmap string (list Z);
  error_rate_threshold_ : Q;
  latency_threshold_ : Z;          (* std::chrono::milliseconds *)
  alert_callbacks_ : nat            (* how many callbacks are registered *)
}.

(** [DNSMetrics()]. *)
Definition new : t :=
  mk 0 0 0 0 0 [] 0%Q 0 None ∅ ∅ ∅ 0%Q 0 0.

Definition set_counters (tq sq fq : Z) (durations : list Z) (m : t) : t :=
  mk tq sq fq (cache_hits_ m) (cache_misses_ m) durations (cache_hit_rate_ m)
     (total_retries_ m) (exposer_ m) (error_counts_ m) (server_latencies_ m)
     (retry_attempts_ m) (error_rate_threshold_ m) (latency_threshold_ m)
     (alert_callbacks_ m).

Definition set_cache_counters (hits misses : Z) (rate : Q) (m : t) : t :=
  mk (total_queries_ m) (successful_queries_ m) (failed_queries_ m) hits misses
     (query_duration_ m) rate (total_retries_ m) (exposer_ m) (error_counts_ m)
     (server_latencies_ m) (retry_attempts_ m) (error_rate_threshold_ m)
     (latency_threshold_ m) (alert_callbacks_ m).

Definition set_thresholds (error_rate : Q) (latency : Z) (m : t) : t :=
  mk (total_queries_ m) (successful_queries_ m) (failed_queries_ m)
     (cache_hits_ m) (cache_misses_ m) (query_duration_ m) (cache_hit_rate_ m)
     (total_retries_ m) (exposer_ m) (error_counts_ m) (server_latencies_ m)
     (retry_attempts_ m) error_rate latency (alert_callbacks_ m).

Definition set_maps (retries : Z) (errors : gmap string Z)
  (latencies retry_hist : gmap string (list Z)) (m : t) : t :=
  mk (total_queries_ m) (successful_queries_ m) (failed_queries_ m)
     (cache_hits_ m) (cache_misses_ m) (query_duration_ m) (cache_hit_rate_ m)
     retries (exposer_ m) errors latencies retry_hist
     (error_rate_threshold_ m) (latency_threshold_ m) (alert_callbacks_ m).

Definition set_exposer (e : option string) (m : t) : t :=
  mk (total_queries_ m) (successful_queries_ m) (failed_queries_ m)
     (cache_hits_ m) (cache_misses_ m) (query_duration_ m) (cache_hit_rate_ m)
     (total_retries_ m) e (error_counts_ m) (server_latencies_ m)
     (retry_attempts_ m) (error_rate_threshold_ m) (latency_threshold_ m)
     (alert_callbacks_ m).

Definition set_alert_callbacks (n : nat) (m : t) : t :=
  mk (total_queries_ m) (successful_queries_ m) (failed_queries_ m)
     (cache_hits_ m) (cache_misses_ m) (query_duration_ m) (cache_hit_rate_ m)
     (total_retries_ m) (exposer_ m) (error_counts_ m) (server_latencies_ m)
     (retry_attempts_ m) (error_rate_threshold_ m) (latency_threshold_ m) n.

(** One alert handed to every registered callback, in order. *)
Definition broadcast (a : alert) (m : t) : list (nat * alert) :=
  (λ i, (i, a)) <$> seq 0 (alert_callbacks_ m).

(** [startPrometheusExporter(address)]; [binds] tells whether the exposer
    could be constructed (a failure is caught and logged). *)
Definition startPrometheusExporter (binds : bool) (address : string) (m : t) : t :=
  if binds then set_exposer (Some address) m else m.

(** [recordQuery(hostname, duration, success)]: the new state and the
    alerts delivered. *)
Definition recordQuery (hostname : string) (duration : Z) (success : bool) (m : t)
  : t * list (nat * alert) :=
  let m1 :=
    set_counters (total_queries_ m + 1)
      (if success then successful_queries_ m + 1 else successful_queries_ m)
      (if success then failed_queries_ m else failed_queries_ m + 1)
      (query_duration_ m ++ [duration]) m in
  let latency_alerts :=
    if duration >? latency_threshold_ m1
    then broadcast (HighLatency hostname duration) m1 else [] in
  let total := successful_queries_ m1 + failed_queries_ m1 in
  let rate_alerts :=
    if total >? 0 then
      let error_rate := (inject_Z (failed_queries_ m1) / inject_Z total)%Q in
      if Qlt_le_dec (error_rate_threshold_ m1) error_rate
      then broadcast (HighErrorRate error_rate) m1 else []
    else [] in
  (m1, latency_alerts ++ rate_alerts).

(** [updateCacheHitRate()]: the gauge is set to the quotient of two
    [double]s, the counter values. *)
Definition updateCacheHitRate (m : t) : t :=
  let total := cache_hits_ m + cache_misses_ m in
  if total >? 0
  then set_cache_counters (cache_hits_ m) (cache_misses_ m)
         (Binary64.div (cache_hits_ m) total) m
  else m.

Definition recordCacheHit (hostname : string) (m : t) : t :=
  updateCacheHitRate
    (set_cache_counters (cache_hits_ m + 1) (cache_misses_ m) (cache_hit_rate_ m) m).

Definition recordCacheMiss (hostname : string) (m : t) : t :=
  updateCacheHitRate
    (set_cache_counters (cache_hits_ m) (cache_misses_ m + 1) (cache_hit_rate_ m) m).

(** Keeps the last [bound] elements of a history. *)
Definition keep_last {A : Type} (bound : nat) (l : list A) : list A :=
  if decide (bound < length l)%nat then drop (length l - bound) l else l.

Definition recordServerLatency (server : string) (latency : Z) (m : t)
  : t * list (nat * alert) :=
  let samples := keep_last MAX_SAMPLES (default [] (server_latencies_ m !! server) ++ [latency]) in
  let m1 := set_maps (total_retries_ m) (error_counts_ m)
              (<[server := samples]> (server_latencies_ m)) (retry_attempts_ m) m in
  (m1, if latency >? latency_threshold_ m1
       then broadcast (HighServerLatency server latency) m1 else []).

Definition recordError (type detail : string) (m : t) : t :=
  set_maps (total_retries_ m)
    (<[type := wrap64 (default 0 (error_counts_ m !! type) + 1)]> (error_counts_ m))
    (server_latencies_ m) (retry_attempts_ m) m.

Definition recordRetry (hostname : string) (attempt : Z) (m : t) : t :=
  let history :=
    keep_last MAX_RETRY_HISTORY (default [] (retry_attempts_ m !! hostname) ++ [attempt]) in
  set_maps (total_retries_ m + 1) (error_counts_ m) (server_latencies_ m)
    (<[hostname := history]> (retry_attempts_ m)) m.

Definition mean (samples : list Z) : Q :=
  Qdiv (inject_Z (foldr Z.add 0 samples)) (inject_Z (Z.of_nat (length samples))).

(** [getStats()].  [static_cast<int64_t>(stats.cache_hits / total)] divides
    in [double] and truncates; with [0 <= cache_hits <= total] the result is
    the integer quotient. *)
Definition getStats (m : t) : Stats.t :=
  let total := cache_hits_ m + cache_misses_ m in
  Stats.mk (total_queries_ m) (successful_queries_ m) (failed_queries_ m)
    (cache_hits_ m) (cache_misses_ m)
    (if total >? 0 then inject_Z (Z.quot (cache_hits_ m) total) else 0%Q)
    0%Q
    (error_counts_ m)
    (mean <$> filter (λ kv, kv.2 ≠ []) (server_latencies_ m))
    (total_retries_ m)
    (retry_attempts_ m).

Definition resetStats (m : t) : t :=
  set_maps (total_retries_ m) ∅ ∅ (retry_attempts_ m) m.

(** [setAlertThresholds(error_rate_threshold, latency_threshold)]: what it
    throws, if anything, and the state it leaves. *)
Definition setAlertThresholds (error_rate_threshold : Q) (latency_threshold : Z) (m : t)
  : option thrown * t :=
  if Qlt_le_dec error_rate_threshold 0 then
    (Some (invalid_argument "Error rate threshold must be between 0 and 1"), m)
  else if Qlt_le_dec 1 error_rate_threshold then
    (Some (invalid_argument "Error rate threshold must be between 0 and 1"), m)
  else
    let m1 := set_thresholds error_rate_threshold (latency_threshold_ m) m in
    if latency_threshold <=? 0 then
      (Some (invalid_argument "Latency threshold must be positive"), m1)
    else
      (None, set_thresholds (error_rate_threshold_ m1) latency_threshold m1).

Definition registerAlertCallback (m : t) : t :=
  set_alert_callbacks (S (alert_callbacks_ m)) m.

Definition clearAlertCallbacks (m : t) : t :=
  set_alert_callbacks 0%nat m.

End DNSMetrics.

(** ** DNSEvent.h, DNSEvent.cpp *)
Module DNSAddressEvent.

Record t := mk {
  hostname : string;
  old_addresses : list string;
  new_addresses : list string;
  timestamp : Chrono.time_point;
  source : string;
  ttl : option Z;           (* uint32_t; [None] while never assigned *)
  record_type : string;
  is_authoritative : bool
}.

End DNSAddressEvent.

Module DNSEventManager.

(** What a subscriber does with an event: it returns ([None]) or throws an
    exception derived from [std::exception] ([Some what]), the only kind
    [notifyAddressChanged] catches.  A subscriber that throws an object of
    another type is not covered: that exception would leave
    [notifyAddressChanged], and [process_result] with it. *)
Definition DNSEventCallback := DNSAddressEvent.t → option string.

(** A [DnsEventListener] object. *)
Record DnsEventListener := mkListener {
  getName : string;
  isEnabled : bool;
  onAddressChanged : DNSEventCallback
}.

Record t := mk {
  listeners_ : gmap string DnsEventListener;
  callbacks_ : gmap string DNSEventCallback;
  paused_ : bool;
  event_queue_ : list DNSAddressEvent.t;
  filters_ : gmap string (DNSAddressEvent.t → bool)
}.

Inductive subscriber_kind := Listener | Callback.

(** One invocation of a subscriber by [notifyAddressChanged]. *)
Record delivery := mkDelivery {
  to_kind : subscriber_kind;
  to_name : string;
  delivered : DNSAddressEvent.t;
  caught : option string      (* the exception caught and logged, if any *)
}.


Definition registerListener (listener : DnsEventListener) (mgr : t) : t :=
  mk (<[getName listener := listener]> (listeners_ mgr)) (callbacks_ mgr)
     (paused_ mgr) (event_queue_ mgr) (filters_ mgr).

Definition unregisterListener (listener_name : string) (mgr : t) : t :=
  mk (delete listener_name (listeners_ mgr)) (callbacks_ mgr)
     (paused_ mgr) (event_queue_ mgr) (filters_ mgr).

Definition addCallback (name : string) (callback : DNSEventCallback) (mgr : t) : t :=
  mk (listeners_ mgr) (<[name := callback]> (callbacks_ mgr))
     (paused_ mgr) (event_queue_ mgr) (filters_ mgr).

Definition removeCallback (name : string) (mgr : t) : t :=
  mk (listeners_ mgr) (delete name (callbacks_ mgr))
     (paused_ mgr) (event_queue_ mgr) (filters_ mgr).

(** [notifyAddressChanged(event)]: the subscribers invoked, in order.  The
    manager itself is not modified.  ([pauseEvents], [resumeEvents],
    [clearEventQueue], [addEventFilter], [removeEventFilter],
    [enableListener], [disableListener], [processEventQueue] and
    [shouldProcessEvent] are declared in DNSEvent.h and defined nowhere.) *)
Definition notifyAddressChanged (event : DNSAddressEvent.t) (mgr : t) : list delivery :=
  ((λ kv : string * DnsEventListener,
      mkDelivery Listener kv.1 event (onAddressChanged kv.2 event))
     <$> map_to_list (listeners_ mgr))
  ++
  ((λ kv : string * DNSEventCallback,
      mkDelivery Callback kv.1 event (kv.2 event))
     <$> map_to_list (callbacks_ mgr)).

Definition getListenerCount (mgr : t) : Z :=
  Z.of_nat (size (listeners_ mgr)) + Z.of_nat (size (callbacks_ mgr)).

End DNSEventManager.

(** ** DNSConfig.h *)
Module DNSServerConfig.

Record t := mk {
  address : string;
  port : Z;          (* uint16_t *)
  weight : Z;        (* uint32_t *)
  timeout_ms : Z;    (* uint32_t *)
  enabled : bool
}.

End DNSServerConfig.

Module CacheConfig.

Record t := mk {
  enabled : bool;
  ttl : Z;           (* std::chrono::seconds *)
  max_size : Z;      (* size_t *)
  persistent : bool;
  cache_file : string
}.

End CacheConfig.

Module RetryConfig.

Record t := mk {
  max_attempts : Z;      (* uint32_t *)
  base_delay_ms : Z;     (* uint32_t *)
  max_delay_ms : Z       (* uint32_t *)
}.

End RetryConfig.

Module MetricsConfig.

Record t := mk {
  enabled : bool;
  metrics_file : string;
  report_interval_sec : Z;   (* uint32_t *)
  prometheus_address : string
}.

End MetricsConfig.

Module DNSResolverConfig.

Record t := mk {
  servers : list DNSServerConfig.t;
  cache : CacheConfig.t;
  retry : RetryConfig.t;
  metrics : MetricsConfig.t;
  query_timeout_ms : Z;           (* uint32_t *)
  max_concurrent_queries : Z;     (* uint32_t *)
  ipv6_enabled : bool
}.

(** ** DNSConfig.cpp: the members of [DNSResolverConfig]

    A member that may throw returns what it throws, if anything, and the
    object it leaves. *)

Definition set_servers (l : list DNSServerConfig.t) (cfg : t) : t :=
  mk l (cache cfg) (retry cfg) (metrics cfg) (query_timeout_ms cfg)
     (max_concurrent_queries cfg) (ipv6_enabled cfg).

(** [DNSResolverConfig()]. *)
Definition default : t :=
  mk [DNSServerConfig.mk "114.114.114.114" 53 1 2000 true]
     (CacheConfig.mk true 300 10000 false EmptyString)
     (RetryConfig.mk 3 100 1000)
     (MetricsConfig.mk true EmptyString 60 "0.0.0.0:9091")
     5000 100 true.

Definition has_address (address : string) (server : DNSServerConfig.t) : bool :=
  String.eqb (DNSServerConfig.address server) address.

(** [addServer(server)]. *)
Definition addServer (server : DNSServerConfig.t) (cfg : t) : option thrown * t :=
  if existsb (has_address (DNSServerConfig.address server)) (servers cfg) then
    (Some (ConfigValidationError
             ("Server with address " +:+ DNSServerConfig.address server
              +:+ " already exists")), cfg)
  else (None, set_servers (servers cfg ++ [server]) cfg).

Definition enable (server : DNSServerConfig.t) : DNSServerConfig.t :=
  DNSServerConfig.mk (DNSServerConfig.address server) (DNSServerConfig.port server)
    (DNSServerConfig.weight server) (DNSServerConfig.timeout_ms server) true.

(** [removeServer(address)]: the erase-remove of every server with that
    address, then the repair that keeps one server enabled. *)
Definition removeServer (address : string) (cfg : t) : t :=
  let kept := List.filter (λ server, negb (has_address address server)) (servers cfg) in
  let has_enabled := existsb DNSServerConfig.enabled kept in
  set_servers
    (match kept with
     | first :: rest => if has_enabled then kept else enable first :: rest
     | [] => kept
     end) cfg.

(** The loop of [updateServer]: the list with the first server of that
    address replaced, or [None] when there is none. *)
Fixpoint replace_first (server : DNSServerConfig.t) (l : list DNSServerConfig.t)
  : option (list DNSServerConfig.t) :=
  match l with
  | [] => None
  | existing :: rest =>
      if has_address (DNSServerConfig.address server) existing
      then Some (server :: rest)
      else match replace_first server rest with
           | Some rest' => Some (existing :: rest')
           | None => None
           end
  end.

(** [updateServer(server)]. *)
Definition updateServer (server : DNSServerConfig.t) (cfg : t) : option thrown * t :=
  match replace_first server (servers cfg) with
  | Some l => (None, set_servers l cfg)
  | None => addServer server cfg
  end.

(** The loop of [setServers]: the first address met a second time. *)
Fixpoint first_duplicate (addresses : gset string) (l : list DNSServerConfig.t)
  : option string :=
  match l with
  | [] => None
  | server :: rest =>
      if bool_decide (DNSServerConfig.address server ∈ addresses)
      then Some (DNSServerConfig.address server)
      else first_duplicate ({[DNSServerConfig.address server]} ∪ addresses) rest
  end.

(** [setServers(servers)]. *)
Definition setServers (l : list DNSServerConfig.t) (cfg : t) : option thrown * t :=
  match first_duplicate ∅ l with
  | Some address =>
      (Some (ConfigValidationError ("Duplicate server address: " +:+ address)), cfg)
  | None =>
      match l with
      | _ :: _ =>
          if existsb DNSServerConfig.enabled l then (None, set_servers l cfg)
          else (Some (ConfigValidationError "At least one server must be enabled"), cfg)
      | [] => (None, set_servers l cfg)
      end
  end.

(** [setCacheConfig(cache)]. *)
Definition setCacheConfig (c : CacheConfig.t) (cfg : t) : option thrown * t :=
  if (CacheConfig.ttl c <? 1) || (CacheConfig.ttl c >? 86400) then
    (Some (ConfigValidationError "Cache TTL must be between 1 and 86400 seconds"), cfg)
  else if (CacheConfig.max_size c <? 100) || (CacheConfig.max_size c >? 1000000) then
    (Some (ConfigValidationError "Cache max size must be between 100 and 1000000 entries"),
     cfg)
  else
    (None, mk (servers cfg) c (retry cfg) (metrics cfg) (query_timeout_ms cfg)
              (max_concurrent_queries cfg) (ipv6_enabled cfg)).

(** [setRetryConfig(retry)]. *)
Definition setRetryConfig (rc : RetryConfig.t) (cfg : t) : option thrown * t :=
  if (RetryConfig.max_attempts rc <? 1) || (RetryConfig.max_attempts rc >? 10) then
    (Some (ConfigValidationError "Max retry attempts must be between 1 and 10"), cfg)
  else if (RetryConfig.base_delay_ms rc <? 50) || (RetryConfig.base_delay_ms rc >? 1000) then
    (Some (ConfigValidationError "Base retry delay must be between 50ms and 1000ms"), cfg)
  else if (RetryConfig.max_delay_ms rc <? RetryConfig.base_delay_ms rc)
          || (RetryConfig.max_delay_ms rc >? 10000) then
    (Some (ConfigValidationError "Max retry delay must be between base delay and 10000ms"),
     cfg)
  else
    (None, mk (servers cfg) (cache cfg) rc (metrics cfg) (query_timeout_ms cfg)
              (max_concurrent_queries cfg) (ipv6_enabled cfg)).

(** [setMetricsConfig(metrics)]. *)
Definition setMetricsConfig (mc : MetricsConfig.t) (cfg : t) : option thrown * t :=
  if MetricsConfig.enabled mc && (MetricsConfig.report_interval_sec mc <? 1) then
    (Some (ConfigValidationError "Metrics report interval must be at least 1 second"), cfg)
  else
    (None, mk (servers cfg) (cache cfg) (retry cfg) mc (query_timeout_ms cfg)
              (max_concurrent_queries cfg) (ipv6_enabled cfg)).

(** [setQueryTimeout(timeout_ms)]. *)
Definition setQueryTimeout (timeout_ms : Z) (cfg : t) : option thrown * t :=
  if (timeout_ms <? 100) || (timeout_ms >? 30000) then
    (Some (ConfigValidationError "Query timeout must be between 100ms and 30000ms"), cfg)
  else
    (None, mk (servers cfg) (cache cfg) (retry cfg) (metrics cfg) timeout_ms
              (max_concurrent_queries cfg) (ipv6_enabled cfg)).

(** [setMaxConcurrentQueries(max_queries)]. *)
Definition setMaxConcurrentQueries (max_queries : Z) (cfg : t) : option thrown * t :=
  if (max_queries <? 1) || (max_queries >? 10000) then
    (Some (ConfigValidationError "Max concurrent queries must be between 1 and 10000"), cfg)
  else
    (None, mk (servers cfg) (cache cfg) (retry cfg) (metrics cfg) (query_timeout_ms cfg)
              max_queries (ipv6_enabled cfg)).

(** [setIPv6Enabled(enabled)]. *)
Definition setIPv6Enabled (enabled : bool) (cfg : t) : t :=
  mk (servers cfg) (cache cfg) (retry cfg) (metrics cfg) (query_timeout_ms cfg)
     (max_concurrent_queries cfg) enabled.

(** [update(other)] and [clone()]. *)
Definition update (other : t) (cfg : t) : t :=
  mk (servers other) (cache other) (retry other) (metrics other)
     (query_timeout_ms other) (max_concurrent_queries other) (ipv6_enabled other).

Definition clone (cfg : t) : t := update cfg default.

End DNSResolverConfig.

(** ** DNSConfig.cpp: [DNSResolverConfigBuilder] *)
Module DNSResolverConfigBuilder.

Record t := mk {
  servers_ : list DNSServerConfig.t;
  cache_ : CacheConfig.t;
  retry_ : RetryConfig.t;
  metrics_ : MetricsConfig.t;
  query_timeout_ms_ : Z;
  max_concurrent_queries_ : Z;
  ipv6_enabled_ : bool
}.

(** [DNSResolverConfigBuilder()]. *)
Definition new : t :=
  mk [] (CacheConfig.mk true 300 10000 false EmptyString)
     (RetryConfig.mk 3 100 1000)
     (MetricsConfig.mk true EmptyString 60 "0.0.0.0:9091")
     5000 100 true.

(** One step of [build]: run a setter unless an earlier one threw. *)
Definition and_then (step : DNSResolverConfig.t → option thrown * DNSResolverConfig.t)
  (so_far : option thrown * DNSResolverConfig.t) : option thrown * DNSResolverConfig.t :=
  match so_far with
  | (Some e, cfg) => (Some e, cfg)
  | (None, cfg) => step cfg
  end.

(** [build()]: the configuration, or the validation error rethrown with
    its prefix. *)
Definition build (b : t) : thrown + DNSResolverConfig.t :=
  let steps :=
    and_then (λ cfg, (None, DNSResolverConfig.setIPv6Enabled (ipv6_enabled_ b) cfg))
      (and_then (DNSResolverConfig.setMaxConcurrentQueries (max_concurrent_queries_ b))
         (and_then (DNSResolverConfig.setQueryTimeout (query_timeout_ms_ b))
            (and_then (DNSResolverConfig.setMetricsConfig (metrics_ b))
               (and_then (DNSResolverConfig.setRetryConfig (retry_ b))
                  (and_then (DNSResolverConfig.setCacheConfig (cache_ b))
                     (DNSResolverConfig.setServers (servers_ b)
                        DNSResolverConfig.default)))))) in
  match steps with
  | (Some (ConfigValidationError what), _) =>
      inl (ConfigValidationError
             ("Configuration validation failed during build: " +:+ what))
  | (Some e, _) => inl e
  | (None, cfg) => inr cfg
  end.

End DNSResolverConfigBuilder.

(** ** What the validator and the facade ask of the operating system and
    of the c-ares and prometheus libraries *)
Module Env.

Record t := mk {
  (** [inet_pton(AF_INET, ip) == 1 || inet_pton(AF_INET6, ip) == 1] *)
  inet_pton_ok : string → bool;
  (** for a path: its parent is not empty, exists and is a directory *)
  parent_is_directory : string → bool;
  (** [std::filesystem::exists(parent_path)] *)
  parent_exists : string → bool;
  (** [create_directories(parent_path)] does not throw *)
  create_directories_ok : string → bool;
  (** [std::filesystem::is_directory(parent_path)], after the attempt to
      create it *)
  parent_is_directory_after : string → bool;
  (** an [std::ofstream] on the path in append mode opens *)
  can_append : string → bool;
  (** [std::stoi]; [None] when it throws *)
  stoi : string → option Z;
  (** [ares_init_options]: its status, the channel it stores on success,
      and whether a failed call stores a null channel *)
  ares_init_options_status : Z;
  ares_fresh_channel : nat;
  ares_failed_init_stores_null : bool;
  (** [ares_set_servers_ports_csv(channel, csv)] *)
  ares_set_servers_ports_csv_status : string → Z;
  (** [ares_strerror(status)] *)
  ares_strerror : Z → string;
  (** the prometheus exposer can listen on the address *)
  exposer_binds : string → bool;
  (** the JSON value a file holds; [None] when it cannot be opened or parsed *)
  read_json_file : string → option Json.t
}.

End Env.

(** ** DNSConfigValidator.cpp

    Each check returns [Some e] where the source throws [e]. *)
Module DNSConfigValidator.

Definition isValidIpAddress (env : Env.t) (ip : string) : bool :=
  Env.inet_pton_ok env ip.

(** [path.find_first_of(invalid_chars) != npos], the invalid characters
    being the seven listed here (the fourth is the double quote). *)
Definition invalid_char (c : Ascii.ascii) : bool :=
  bool_decide (c ∈ [ "<"%char; ">"%char; ":"%char; "034"%char;
                     "|"%char; "?"%char; "*"%char ]).

Fixpoint has_invalid_char (path : string) : bool :=
  match path with
  | EmptyString => false
  | String c rest => invalid_char c || has_invalid_char rest
  end.

Definition isValidPath (env : Env.t) (path : string) : bool :=
  if String.eqb path EmptyString || (4096 <? Z.of_nat (String.length path)) then false
  else if has_invalid_char path then false
  else if negb (bool_decide (String.get 0 path = Some "/"%char)) then false
  else Env.parent_is_directory env path.

Definition validateServer (env : Env.t) (server : DNSServerConfig.t) : option thrown :=
  if negb (isValidIpAddress env (DNSServerConfig.address server)) then
    Some (ConfigValidationError "Invalid server IP address")
  else if (DNSServerConfig.port server =? 0) || (DNSServerConfig.port server >? 65535) then
    Some (ConfigValidationError "Invalid server port")
  else if (DNSServerConfig.timeout_ms server <? 100)
          || (DNSServerConfig.timeout_ms server >? 10000) then
    Some (ConfigValidationError "Invalid timeout for server")
  else if (DNSServerConfig.weight server <? 1) || (DNSServerConfig.weight server >? 100) then
    Some (ConfigValidationError "Invalid weight for server")
  else None.

(** The loop of [validateServers]: the first error, if any. *)
Fixpoint validateServerList (env : Env.t) (servers : list DNSServerConfig.t)
  : option thrown :=
  match servers with
  | [] => None
  | server :: rest =>
      match validateServer env server with
      | Some e => Some e
      | None => validateServerList env rest
      end
  end.

Definition validateServers (env : Env.t) (servers : list DNSServerConfig.t)
  : option thrown :=
  match servers with
  | [] => Some (ConfigValidationError "At least one DNS server must be configured")
  | _ =>
      match validateServerList env servers with
      | Some e => Some e
      | None =>
          if existsb DNSServerConfig.enabled servers then None
          else Some (ConfigValidationError "At least one server must be enabled")
      end
  end.

Definition validateCache (env : Env.t) (cache : CacheConfig.t) : option thrown :=
  if CacheConfig.enabled cache then
    if (CacheConfig.ttl cache <? 1) || (CacheConfig.ttl cache >? 86400) then
      Some (ConfigValidationError "Cache TTL must be between 1 and 86400 seconds")
    else if (CacheConfig.max_size cache <? 100) || (CacheConfig.max_size cache >? 1000000) then
      Some (ConfigValidationError "Cache max size must be between 100 and 1000000 entries")
    else if CacheConfig.persistent cache && negb (String.eqb (CacheConfig.cache_file cache) EmptyString) then
      let file := CacheConfig.cache_file cache in
      if negb (isValidPath env file) then
        Some (ConfigValidationError "Invalid cache file path")
      else if negb (Env.parent_exists env file) && negb (Env.create_directories_ok env file) then
        Some (ConfigValidationError "Cannot create cache directory")
      else if negb (Env.parent_is_directory_after env file) then
        Some (ConfigValidationError "Cache parent path is not a directory")
      else if negb (Env.can_append env file) then
        Some (ConfigValidationError "Cache file access error")
      else None
    else None
  else None.

(** The doubling loop of [validateRetry], [attempts_left] iterations at
    most; the products stay below 2^32 because the loop stops above
    [max_delay_ms]. *)
Fixpoint max_possible_delay (attempts_left : nat) (delay max_delay_ms : Z) : Z :=
  match attempts_left with
  | O => delay
  | S n =>
      let doubled := wrap32 (delay * 2) in
      if doubled >? max_delay_ms then max_delay_ms
      else max_possible_delay n doubled max_delay_ms
  end.

Definition validateRetry (retry : RetryConfig.t) : option thrown :=
  if (RetryConfig.max_attempts retry <? 1) || (RetryConfig.max_attempts retry >? 10) then
    Some (ConfigValidationError "Max retry attempts must be between 1 and 10")
  else if (RetryConfig.base_delay_ms retry <? 50) || (RetryConfig.base_delay_ms retry >? 1000) then
    Some (ConfigValidationError "Base retry delay must be between 50ms and 1000ms")
  else if (RetryConfig.max_delay_ms retry <? RetryConfig.base_delay_ms retry)
          || (RetryConfig.max_delay_ms retry >? 10000) then
    Some (ConfigValidationError "Max retry delay must be between base delay and 10000ms")
  else if max_possible_delay (Z.to_nat (RetryConfig.max_attempts retry - 1))
            (RetryConfig.base_delay_ms retry) (RetryConfig.max_delay_ms retry)
          >? RetryConfig.max_delay_ms retry then
    Some (ConfigValidationError "Retry delay progression exceeds max delay")
  else None.

(** [s.find(':')] and the two [substr] calls of [validateMetrics]. *)
Fixpoint split_at_colon (s : string) : option (string * string) :=
  match s with
  | EmptyString => None
  | String c rest =>
      if Ascii.eqb c ":"%char then Some (EmptyString, rest)
      else match split_at_colon rest with
           | Some (host, port_str) => Some (String c host, port_str)
           | None => None
           end
  end.

Definition validateMetrics (env : Env.t) (metrics : MetricsConfig.t) : option thrown :=
  if MetricsConfig.enabled metrics then
    if (MetricsConfig.report_interval_sec metrics <? 1)
       || (MetricsConfig.report_interval_sec metrics >? 3600) then
      Some (ConfigValidationError "Metrics report interval must be between 1 and 3600 seconds")
    else if negb (String.eqb (MetricsConfig.metrics_file metrics) EmptyString)
            && negb (isValidPath env (MetricsConfig.metrics_file metrics)) then
      Some (ConfigValidationError "Invalid metrics file path")
    else
      match split_at_colon (MetricsConfig.prometheus_address metrics) with
      | None => Some (ConfigValidationError "Invalid Prometheus address format")
      | Some (_, port_str) =>
          match Env.stoi env port_str with
          | None => Some (ConfigValidationError "Invalid Prometheus port")
          | Some port =>
              if (port <? 1) || (port >? 65535)
              then Some (ConfigValidationError "Invalid Prometheus port")
              else None
          end
      end
  else None.

(** Sum of the weights of the enabled servers. *)
Definition total_weight (servers : list DNSServerConfig.t) : Z :=
  foldl (λ acc server,
           if DNSServerConfig.enabled server then acc + DNSServerConfig.weight server
           else acc) 0 servers.

(** The duplicate check: the first address already seen. *)
Fixpoint has_duplicate_address (seen : gset string) (servers : list DNSServerConfig.t)
  : bool :=
  match servers with
  | [] => false
  | server :: rest =>
      if bool_decide (DNSServerConfig.address server ∈ seen) then true
      else has_duplicate_address ({[DNSServerConfig.address server]} ∪ seen) rest
  end.

Definition validate (env : Env.t) (config : DNSResolverConfig.t) : option thrown :=
  match validateServers env (DNSResolverConfig.servers config) with
  | Some e => Some e
  | None =>
  match validateCache env (DNSResolverConfig.cache config) with
  | Some e => Some e
  | None =>
  match validateRetry (DNSResolverConfig.retry config) with
  | Some e => Some e
  | None =>
  match validateMetrics env (DNSResolverConfig.metrics config) with
  | Some e => Some e
  | None =>
      if (DNSResolverConfig.query_timeout_ms config <? 100)
         || (DNSResolverConfig.query_timeout_ms config >? 30000) then
        Some (ConfigValidationError "Query timeout must be between 100ms and 30000ms")
      else if (DNSResolverConfig.max_concurrent_queries config <? 1)
              || (DNSResolverConfig.max_concurrent_queries config >? 10000) then
        Some (ConfigValidationError "Max concurrent queries must be between 1 and 10000")
      else if total_weight (DNSResolverConfig.servers config) <=? 0 then
        Some (ConfigValidationError "Total weight of enabled servers must be positive")
      else if has_duplicate_address ∅ (DNSResolverConfig.servers config) then
        Some (ConfigValidationError "Duplicate server address")
      else None
  end end end end.

End DNSConfigValidator.

(** ** c-ares: the status codes of ares.h and the data handed to the
    address-info callback *)
Module Ares.

Definition ARES_SUCCESS : Z := 0.
Definition ARES_ENODATA : Z := 1.
Definition ARES_ESERVFAIL : Z := 3.
Definition ARES_ENOTFOUND : Z := 4.
Definition ARES_ETIMEOUT : Z := 12.
Definition ARES_ENOTINITIALIZED : Z := 21.

Inductive family := AF_INET | AF_INET6 | AF_OTHER.

(** One [ares_addrinfo_node]: its family and what [inet_ntop] makes of its
    address ([None] when [inet_ntop] returns null). *)
Record addrinfo_node := mkNode {
  ai_family : family;
  ntop : option string
}.

(** A channel: the identity [ares_init_options] gave it and the server
    list set on it. *)
Record channel := mkChannel {
  channel_id : nat;
  channel_servers : option string
}.

End Ares.

(** ** DNSResolver.h, DNSResolver.cpp *)
Module ResolveResult.

Record t := mk {
  hostname : string;
  ip_addresses : list string;
  status : Z;
  resolution_time : Z      (* std::chrono::milliseconds *)
}.

End ResolveResult.

Module QueryContext.

(** The promise, the buffer and the back-reference carry no data that
    [process_result] reads. *)
Record t := mk {
  hostname : string;
  start_time : Z           (* steady_clock::time_point, in ticks *)
}.

End QueryContext.

Module DNSResolver.

(** The members of the facade, and [retry_count], the [static uint32_t]
    local to [process_result], which outlives every call. *)
Record t := mk {
  channel_ : option Ares.channel;
  initialized_ : bool;
  cache_ : option DNSCache.t;
  metrics_ : DNSMetrics.t;
  config_ : option DNSResolverConfig.t;
  dns_server_list_ : list string;
  retry_count : Z
}.

(** [DNSResolver()], in a process where [process_result] has not run. *)
Definition new : t :=
  mk None false None DNSMetrics.new None [] 0.

Definition set_channel (ch : option Ares.channel) (r : t) : t :=
  mk ch (initialized_ r) (cache_ r) (metrics_ r) (config_ r)
     (dns_server_list_ r) (retry_count r).

Definition set_cache (c : option DNSCache.t) (r : t) : t :=
  mk (channel_ r) (initialized_ r) c (metrics_ r) (config_ r)
     (dns_server_list_ r) (retry_count r).

Definition set_metrics (m : DNSMetrics.t) (r : t) : t :=
  mk (channel_ r) (initialized_ r) (cache_ r) m (config_ r)
     (dns_server_list_ r) (retry_count r).

Definition set_config (cfg : option DNSResolverConfig.t) (r : t) : t :=
  mk (channel_ r) (initialized_ r) (cache_ r) (metrics_ r) cfg
     (dns_server_list_ r) (retry_count r).

Definition set_retry_count (n : Z) (r : t) : t :=
  mk (channel_ r) (initialized_ r) (cache_ r) (metrics_ r) (config_ r)
     (dns_server_list_ r) n.

(** The comma-separated list [init] builds from a non-empty vector. *)
Fixpoint servers_csv (first : string) (rest : list string) : string :=
  match rest with
  | [] => first
  | s :: rest' => first +:+ "," +:+ servers_csv s rest'
  end.

(** [init(dns_servers, cache_ttl)]. *)
Definition init (env : Env.t) (now : Z) (dns_servers : list string)
  (cache_ttl : Z) (r : t) : bool * t :=
  if negb (Env.ares_init_options_status env =? Ares.ARES_SUCCESS) then
    (false, if Env.ares_failed_init_stores_null env then set_channel None r else r)
  else
    let r1 := set_channel (Some (Ares.mkChannel (Env.ares_fresh_channel env) None)) r in
    match dns_servers with
    | [] =>
        (true, mk (channel_ r1) true (Some (DNSCache.new now cache_ttl)) (metrics_ r1)
                  (config_ r1) (dns_server_list_ r1) (retry_count r1))
    | first :: rest =>
        let csv := servers_csv first rest in
        let r2 := mk (channel_ r1) (initialized_ r1) (cache_ r1) (metrics_ r1)
                     (config_ r1) dns_servers (retry_count r1) in
        if negb (Env.ares_set_servers_ports_csv_status env csv =? Ares.ARES_SUCCESS) then
          (false, r2)
        else
          (true, mk (Some (Ares.mkChannel (Env.ares_fresh_channel env) (Some csv))) true
                    (Some (DNSCache.new now cache_ttl)) (metrics_ r2) (config_ r2)
                    (dns_server_list_ r2) (retry_count r2))
    end.

(** [load_cache(filename)]. *)
Definition load_cache (tpm : positive) (env : Env.t) (now : Z) (filename : string) (r : t)
  : bool * t :=
  match cache_ r with
  | None => (false, r)
  | Some cache =>
      let '(ok, cache') :=
        DNSCachePersistor.load tpm now (Env.read_json_file env filename) cache in
      (ok, set_cache (Some cache') r)
  end.

(** [save_cache(filename)]: the result and the new content of the file. *)
Definition save_cache (tpm : positive) (now : Z) (file_opens : bool) (r : t)
  : bool * option Json.t :=
  match cache_ r with
  | None => (false, None)
  | Some cache => DNSCachePersistor.save tpm now cache file_opens
  end.

(** [loadConfig(config)].  Past a successful [init] nothing throws: the
    exporter and the persistor catch what they raise. *)
Definition loadConfig (tpm : positive) (env : Env.t) (now : Z)
  (config : DNSResolverConfig.t) (r : t) : bool * t :=
  match DNSConfigValidator.validate env config with
  | Some _ => (false, r)
  | None =>
      let active_servers :=
        DNSServerConfig.address <$>
          List.filter DNSServerConfig.enabled (DNSResolverConfig.servers config) in
      let '(ok, r1) :=
        init env now active_servers
          (CacheConfig.ttl (DNSResolverConfig.cache config)) r in
      if negb ok then (false, r1)
      else
        let metrics_cfg := DNSResolverConfig.metrics config in
        let r2 :=
          if MetricsConfig.enabled metrics_cfg then
            set_metrics
              (DNSMetrics.startPrometheusExporter
                 (Env.exposer_binds env (MetricsConfig.prometheus_address metrics_cfg))
                 (MetricsConfig.prometheus_address metrics_cfg) (metrics_ r1)) r1
          else r1 in
        let cache_cfg := DNSResolverConfig.cache config in
        let r3 :=
          if CacheConfig.enabled cache_cfg && CacheConfig.persistent cache_cfg
          then (load_cache tpm env now (CacheConfig.cache_file cache_cfg) r2).2
          else r2 in
        (true, set_config (Some config) r3)
  end.

(** The loop of [process_result] over the nodes of a result. *)
Fixpoint collect_addresses (nodes : list Ares.addrinfo_node) : list string :=
  match nodes with
  | [] => []
  | node :: rest =>
      match Ares.ai_family node with
      | Ares.AF_OTHER => collect_addresses rest
      | _ =>
          match Ares.ntop node with
          | Some ip => ip :: collect_addresses rest
          | None => collect_addresses rest
          end
      end
  end.

(** [notifyAddressChange]: the event handed to the event manager. *)
Definition make_event (now : Z) (hostname : string) (old_addresses new_addresses : list string)
  (source : string) (r : t) : DNSAddressEvent.t :=
  DNSAddressEvent.mk hostname old_addresses new_addresses now source
    (match config_ r with
     | Some cfg => Some (wrap32 (CacheConfig.ttl (DNSResolverConfig.cache cfg)))
     | None => None
     end)
    "A" false.

(** How a call of [process_result] ends. *)
Inductive completion :=
| Fulfilled (result : ResolveResult.t)   (* promise.set_value(result) *)
| Requeried (attempt : Z) (delay_ms : Z). (* slept, then queried again *)

Record processed := mkProcessed {
  outcome : completion;
  emitted : list DNSAddressEvent.t;                (* calls of notifyAddressChange *)
  deliveries : list DNSEventManager.delivery;      (* what the manager did with them *)
  alerts : list (nat * DNSMetrics.alert);
  after : t
}.

(** The retry delay: [base_delay_ms * (1 << (retry_count - 1))] in
    [uint32_t], capped by [max_delay_ms].  (A shift by 32 or more is
    undefined in the source; a validated configuration stays below 10.) *)
Definition retry_delay (retry : RetryConfig.t) (retry_count : Z) : Z :=
  Z.min (wrap32 (RetryConfig.base_delay_ms retry * wrap32 (Z.shiftl 1 (retry_count - 1))))
        (RetryConfig.max_delay_ms retry).

(** [process_result(context, status, result)]; [result = None] is the null
    pointer.  [None] when [cache_] is null, which the source dereferences
    ([resolve] never submits a query in that state). *)
Definition process_result (tpm : positive) (env : Env.t) (now steady_now : Z)
  (mgr : DNSEventManager.t) (context : QueryContext.t) (status : Z)
  (result : option (list Ares.addrinfo_node)) (r : t) : option processed :=
  match cache_ r with
  | None => None
  | Some cache =>
      let hostname := QueryContext.hostname context in
      let duration :=
        Chrono.to_milliseconds tpm (steady_now - QueryContext.start_time context) in
      let '(found, cache1) := DNSCache.get tpm now hostname cache in
      let old_addresses := default [] found in
      let finish (ips : list string) (events : list DNSAddressEvent.t) (r' : t) :=
        let '(metrics', alerts) :=
          DNSMetrics.recordQuery hostname duration (status =? Ares.ARES_SUCCESS)
            (metrics_ r') in
        Some (mkProcessed
                (Fulfilled (ResolveResult.mk hostname ips status duration))
                events
                (events ≫= (λ ev, DNSEventManager.notifyAddressChanged ev mgr))
                alerts
                (set_metrics metrics' r')) in
      match (if status =? Ares.ARES_SUCCESS then result else None) with
      | Some nodes =>
          let ips := collect_addresses nodes in
          match ips with
          | [] => finish ips [] (set_cache (Some cache1) r)
          | _ =>
              let cache2 := DNSCache.update tpm now hostname ips cache1 in
              let events :=
                if decide (old_addresses ≠ ips)
                then [make_event now hostname old_addresses ips "query" r]
                else [] in
              finish ips events (set_cache (Some cache2) r)
          end
      | None =>
          let r1 :=
            set_metrics
              (DNSMetrics.recordError "resolution_failure" (Env.ares_strerror env status)
                 (metrics_ r))
              (set_cache (Some cache1) r) in
          match config_ r1 with
          | Some cfg =>
              if negb (status =? Ares.ARES_ENODATA) && negb (status =? Ares.ARES_ENOTFOUND) then
                if retry_count r1 <? RetryConfig.max_attempts (DNSResolverConfig.retry cfg) then
                  let n := wrap32 (retry_count r1 + 1) in
                  let r2 :=
                    set_retry_count n
                      (set_metrics (DNSMetrics.recordRetry hostname n (metrics_ r1)) r1) in
                  Some (mkProcessed
                          (Requeried n (retry_delay (DNSResolverConfig.retry cfg) n))
                          [] [] [] r2)
                else finish [] [] (set_retry_count 0 r1)
              else finish [] [] r1
          | None => finish [] [] r1
          end
      end
  end.

(** What [resolve] hands back: a future already fulfilled, or one that a
    later [process_result] on the new context fulfils. *)
Inductive resolved :=
| Ready (result : ResolveResult.t)
| Pending (context : QueryContext.t).

(** [resolve(hostname)]. *)
Definition resolve (tpm : positive) (now steady_now : Z) (hostname : string) (r : t)
  : resolved * t :=
  if negb (initialized_ r) then
    (Ready (ResolveResult.mk hostname [] Ares.ARES_ENOTINITIALIZED 0), r)
  else
    match cache_ r with
    | None =>
        (* [initialized_] without a cache: [init] never leaves that state *)
        (Ready (ResolveResult.mk hostname [] Ares.ARES_ENOTINITIALIZED 0), r)
    | Some cache =>
        match DNSCache.get tpm now hostname cache with
        | (Some cached_ips, cache') =>
            (Ready (ResolveResult.mk hostname cached_ips Ares.ARES_SUCCESS 0),
             set_metrics (DNSMetrics.recordCacheHit hostname (metrics_ r))
               (set_cache (Some cache') r))
        | (None, cache') =>
            (Pending (QueryContext.mk hostname steady_now),
             set_metrics (DNSMetrics.recordCacheMiss hostname (metrics_ r))
               (set_cache (Some cache') r))
        end
    end.

Definition clear_cache (r : t) : t :=
  match cache_ r with
  | Some cache => set_cache (Some (DNSCache.clear cache)) r
  | None => r
  end.

Definition getStats (r : t) : Stats.t := DNSMetrics.getStats (metrics_ r).






End DNSResolver.

(** ** Concrete inputs used by the examples below *)
Module Sample.

(** libstdc++: the system clock ticks in nanoseconds. *)
Definition tpm : positive := 1000000.

(** A benign environment: every check passes, every library call succeeds,
    no cache file exists. *)
Definition env : Env.t :=
  Env.mk (λ _, true) (λ _, true) (λ _, true) (λ _, true) (λ _, true) (λ _, true)
    (λ _, Some 9090) Ares.ARES_SUCCESS 1%nat false (λ _, Ares.ARES_SUCCESS)
    (λ _, "error") (λ _, true) (λ _, None).

(** The same environment, except that c-ares refuses the server list. *)
Definition env_servers_refused : Env.t :=
  Env.mk (λ _, true) (λ _, true) (λ _, true) (λ _, true) (λ _, true) (λ _, true)
    (λ _, Some 9090) Ares.ARES_SUCCESS 2%nat false (λ _, 15)
    (λ _, "error") (λ _, true) (λ _, None).

Definition config : DNSResolverConfig.t :=
  DNSResolverConfig.mk
    [DNSServerConfig.mk "192.0.2.53" 53 1 2000 true]
    (CacheConfig.mk true 300 10000 false EmptyString)
    (RetryConfig.mk 2 50 1000)
    (MetricsConfig.mk false EmptyString 60 "0.0.0.0:9090")
    5000 100 true.

(** A second snapshot, with another server and another TTL. *)
Definition config2 : DNSResolverConfig.t :=
  DNSResolverConfig.mk
    [DNSServerConfig.mk "192.0.2.54" 53 1 2000 true]
    (CacheConfig.mk true 600 10000 false EmptyString)
    (RetryConfig.mk 3 50 1000)
    (MetricsConfig.mk false EmptyString 60 "0.0.0.0:9090")
    5000 100 true.

(** A resolver after [loadConfig(config)] at time 0. *)
Definition resolver : DNSResolver.t :=
  (DNSResolver.loadConfig tpm env 0 config DNSResolver.new).2.

(** An event manager with no subscriber. *)
Definition quiet : DNSEventManager.t := DNSEventManager.mk ∅ ∅ false [] ∅.

Definition node (ip : string) : Ares.addrinfo_node :=
  Ares.mkNode Ares.AF_INET (Some ip).

(** One second, in ticks. *)
Definition sec : Z := Chrono.seconds tpm 1.

(** [process_result] on a resolver that has a cache. *)
Definition process (now : Z) (hostname : string) (status : Z)
  (result : option (list Ares.addrinfo_node)) (r : DNSResolver.t) : DNSResolver.processed :=
  default (DNSResolver.mkProcessed (DNSResolver.Requeried 0 0) [] [] [] r)
    (DNSResolver.process_result tpm env now now quiet (QueryContext.mk hostname 0)
       status result r).

(** The resolver once foo.test has resolved to 10.0.0.1, 10.0.0.2. *)
Definition primed : DNSResolver.t :=
  DNSResolver.after
    (process (1 * sec) "foo.test" Ares.ARES_SUCCESS
       (Some [node "10.0.0.1"; node "10.0.0.2"]) resolver).

End Sample.

(** ** The laws of the specification, in its own words

    Each definition states one law as the specification words it; the
    properties below compare it with what the code does. *)
Module Spec.

(** Change-event law: on completion an event is emitted iff the multiset of
    the previously cached addresses differs from the multiset of the new
    ones and the new list is not empty. *)
Definition change_event_law (tpm : positive) (env : Env.t) (now steady_now : Z)
  (mgr : DNSEventManager.t) (context : QueryContext.t) (status : Z)
  (result : option (list Ares.addrinfo_node)) (r : DNSResolver.t) : Prop :=
  ∀ cache p res,
    DNSResolver.cache_ r = Some cache →
    DNSResolver.process_result tpm env now steady_now mgr context status result r = Some p →
    DNSResolver.outcome p = DNSResolver.Fulfilled res →
    let old := default [] (DNSCache.get tpm now (QueryContext.hostname context) cache).1 in
    let new := ResolveResult.ip_addresses res in
    DNSResolver.emitted p ≠ [] ↔ ¬ (old ≡ₚ new) ∧ new ≠ [].

(** What a sequence of [get(h)] calls at the times [ts] observes: the
    answer of each call and the [valid] flag of the record after it. *)
Fixpoint gets (tpm : positive) (h : string) (ts : list Z) (c : DNSCache.t)
  : list (option (list string) * option bool) :=
  match ts with
  | [] => []
  | t :: ts' =>
      let '(answer, c') := DNSCache.get tpm t h c in
      (answer, DNSRecord.is_valid <$> DNSCache.cache_ c' !! h) :: gets tpm h ts' c'
  end.

(** [t0 + 0.8 * T <= t < t0 + T], in clock ticks. *)
Definition in_last_fifth (tpm : positive) (t0 T t : Z) : Prop :=
  4 * Chrono.seconds tpm T <= 5 * (t - t0) ∧ t < t0 + Chrono.seconds tpm T.

(** Soft-refresh law: after [update(h, A)] at [t0], every [get(h)] in the
    last fifth of the TTL returns [A] and leaves the flag cleared. *)
Definition soft_refresh_law (tpm : positive) (c0 : DNSCache.t) (h : string)
  (A : list string) (t0 : Z) (ts : list Z) : Prop :=
  Forall (in_last_fifth tpm t0 (DNSCache.ttl_ c0)) ts →
  Forall (λ seen, seen = (Some A, Some false))
         (gets tpm h ts (DNSCache.update tpm t0 h A c0)).

(** Round-trip law: saving [c] at [ts] and loading the file into [target]
    at [tl] gives back every record that was valid and unexpired when
    saved, with its addresses and, within one second, its expiry. *)
Definition roundtrip_law (tpm : positive) (c : DNSCache.t) (ts tl : Z)
  (target : DNSCache.t) : Prop :=
  ∀ h r,
    DNSCache.cache_ c !! h = Some r →
    DNSRecord.is_valid r = true →
    ts < DNSRecord.expire_time r →
    ∃ r',
      DNSCache.cache_
        (DNSCachePersistor.load tpm tl (Some (DNSCachePersistor.save_json tpm ts c)) target).2
        !! h = Some r'
      ∧ DNSRecord.ip_addresses r' = DNSRecord.ip_addresses r
      ∧ Z.abs (DNSRecord.expire_time r' - DNSRecord.expire_time r)
        <= Chrono.ticks_per_second tpm.

(** Atomic apply: a failed [loadConfig] leaves the resolver as it was. *)
Definition atomic_apply_law (tpm : positive) (env : Env.t) (now : Z)
  (config : DNSResolverConfig.t) (r : DNSResolver.t) : Prop :=
  (DNSResolver.loadConfig tpm env now config r).1 = false →
  (DNSResolver.loadConfig tpm env now config r).2 = r.

End Spec.

(** ** Sequences of cache operations *)
Module CacheOps.

Inductive op :=
| Update (now : Z) (hostname : string) (ips : list string)
| Get (now : Z) (hostname : string)
| Remove (hostname : string)
| Clear
| Load (now : Z) (file : option Json.t).

Definition run_op (tpm : positive) (c : DNSCache.t) (o : op) : DNSCache.t :=
  match o with
  | Update now hostname ips => DNSCache.update tpm now hostname ips c
  | Get now hostname => (DNSCache.get tpm now hostname c).2
  | Remove hostname => DNSCache.remove hostname c
  | Clear => DNSCache.clear c
  | Load now file => (DNSCachePersistor.load tpm now file c).2
  end.

Definition run (tpm : positive) (ops : list op) (c : DNSCache.t) : DNSCache.t :=
  foldl (run_op tpm) c ops.

(** The JSON object [save] writes for one cache entry. *)
Definition record_json (tpm : positive) (kv : string * DNSRecord.t) : Json.t :=
  Json.Obj
    [ ("hostname", Json.Str kv.1);
      ("ip_addresses", Json.Arr (Json.Str <$> DNSRecord.ip_addresses kv.2));
      ("expire_time", Json.Int (Chrono.to_seconds tpm (DNSRecord.expire_time kv.2)));
      ("is_valid", Json.Bool (DNSRecord.is_valid kv.2)) ].

(** What [load] does with one saved entry. *)
Definition reload (tpm : positive) (now : Z) (c : DNSCache.t) (kv : string * DNSRecord.t)
  : DNSCache.t :=
  if DNSRecord.is_valid kv.2
     && (Chrono.from_time_t tpm (Chrono.to_seconds tpm (DNSRecord.expire_time kv.2)) >? now)
  then DNSCache.update tpm now kv.1 (DNSRecord.ip_addresses kv.2) c
  else c.

(** The invariant of the cache: at most [max_size_] entries, and room for
    one. *)
Definition bounded (c : DNSCache.t) : Prop :=
  DNSCache.size c <= DNSCache.max_size_ c ∧ 1 <= DNSCache.max_size_ c.

End CacheOps.

(** ** Sequences of metrics recordings *)
Module MetricsOps.

Inductive recording :=
| Query (hostname : string) (duration : Z) (success : bool)
| CacheHit (hostname : string)
| CacheMiss (hostname : string)
| ServerLatency (server : string) (latency : Z)
| Error (type detail : string)
| Retry (hostname : string) (attempt : Z)
| Reset.

Definition record (m : DNSMetrics.t) (e : recording) : DNSMetrics.t :=
  match e with
  | Query h d ok => (DNSMetrics.recordQuery h d ok m).1
  | CacheHit h => DNSMetrics.recordCacheHit h m
  | CacheMiss h => DNSMetrics.recordCacheMiss h m
  | ServerLatency s l => (DNSMetrics.recordServerLatency s l m).1
  | Error t d => DNSMetrics.recordError t d m
  | Retry h a => DNSMetrics.recordRetry h a m
  | Reset => DNSMetrics.resetStats m
  end.

Definition run (es : list recording) (m : DNSMetrics.t) : DNSMetrics.t :=
  foldl record m es.

Definition is_success (e : recording) : bool :=
  match e with Query _ _ true => true | _ => false end.

Definition is_failure (e : recording) : bool :=
  match e with Query _ _ false => true | _ => false end.

Definition is_hit (e : recording) : bool :=
  match e with CacheHit _ => true | _ => false end.

Definition is_miss (e : recording) : bool :=
  match e with CacheMiss _ => true | _ => false end.

Definition is_retry (e : recording) : bool :=
  match e with Retry _ _ => true | _ => false end.

(** How many recordings of a kind a sequence holds. *)
Definition count (kind : recording → bool) (es : list recording) : Z :=
  Z.of_nat (length (List.filter kind es)).

End MetricsOps.

(** ** Managers the code can build

    The calls of [DNSEventManager] that change it, applied in sequence to
    the singleton.  Nothing else writes its members: [addEventFilter],
    [removeEventFilter], [pauseEvents], [resumeEvents] and the other
    functions that DNSEvent.h declares beside these have no definition. *)
Module EventOps.

Inductive call :=
| RegisterListener (listener : DNSEventManager.DnsEventListener)
| UnregisterListener (listener_name : string)
| AddCallback (name : string) (callback : DNSEventManager.DNSEventCallback)
| RemoveCallback (name : string).

Definition run_call (mgr : DNSEventManager.t) (c : call) : DNSEventManager.t :=
  match c with
  | RegisterListener listener => DNSEventManager.registerListener listener mgr
  | UnregisterListener listener_name => DNSEventManager.unregisterListener listener_name mgr
  | AddCallback name callback => DNSEventManager.addCallback name callback mgr
  | RemoveCallback name => DNSEventManager.removeCallback name mgr
  end.

Definition run (calls : list call) (mgr : DNSEventManager.t) : DNSEventManager.t :=
  foldl run_call mgr calls.



End EventOps.

(** * Properties *)

(** Case analysis on every [match] the goal scrutinises. *)
Ltac destruct_matches :=
  repeat match goal with
    | |- context [match ?x with _ => _ end] => destruct x
    end.

(** ** Cache counters *)

Lemma wrap64_small (z : Z) : 0 <= z < 2 ^ 64 → wrap64 z = z.
Proof. intros H. unfold wrap64. by apply Z.mod_small. Qed.

(** [hit_rate()] is the exact quotient of the counters. *)
Lemma DNSCache_hit_rate_quotient (c : DNSCache.t) :
  0 <= DNSCache.hits_ c → 0 <= DNSCache.misses_ c →
  DNSCache.hits_ c + DNSCache.misses_ c < 2 ^ 64 →
  DNSCache.hit_rate c =
    if DNSCache.hits_ c + DNSCache.misses_ c =? 0 then 0%Q
    else Qdiv (inject_Z (DNSCache.hits_ c))
              (inject_Z (DNSCache.hits_ c + DNSCache.misses_ c)).
Proof.
  intros Hh Hm Hlt. unfold DNSCache.hit_rate.
  rewrite wrap64_small by lia. reflexivity.
Qed.

(** The snapshot's rate is 0 as soon as there is one miss. *)
Lemma getStats_hit_rate_zero (m : DNSMetrics.t) :
  0 <= DNSMetrics.cache_hits_ m → 0 < DNSMetrics.cache_misses_ m →
  Stats.cache_hit_rate (DNSMetrics.getStats m) = 0%Q.
Proof.
  intros Hh Hm. unfold DNSMetrics.getStats; simpl.
  destruct (Z.gtb_spec (DNSMetrics.cache_hits_ m + DNSMetrics.cache_misses_ m) 0); [|lia].
  rewrite Z.quot_small by lia. reflexivity.
Qed.

(** C10: [clear()] empties the cache and zeroes both counters, so that
    [size()] and [hit_rate()] are 0 right after it whatever the counters
    were; [remove(host)] leaves both counters as they are. *)
Theorem clear_resets_entries_and_counters (c : DNSCache.t) (host : string) :
  DNSCache.cache_ (DNSCache.clear c) = ∅
  ∧ DNSCache.size (DNSCache.clear c) = 0
  ∧ DNSCache.hits_ (DNSCache.clear c) = 0
  ∧ DNSCache.misses_ (DNSCache.clear c) = 0
  ∧ DNSCache.hit_rate (DNSCache.clear c) = 0%Q
  ∧ DNSCache.hits_ (DNSCache.remove host c) = DNSCache.hits_ c
  ∧ DNSCache.misses_ (DNSCache.remove host c) = DNSCache.misses_ c.
Proof.
  repeat split; try reflexivity.
Qed.

(** C9: with an error-rate threshold inside [0,1] and a latency threshold
    that is not positive, [setAlertThresholds] throws [invalid_argument]
    after it has stored the new error-rate threshold; the latency threshold
    and everything else keep their previous values. *)
Theorem setAlertThresholds_throws_after_partial_update
  (error_rate_threshold : Q) (latency_threshold : Z) (m : DNSMetrics.t) :
  (0 <= error_rate_threshold)%Q → (error_rate_threshold <= 1)%Q →
  latency_threshold <= 0 →
  ∃ what m',
    DNSMetrics.setAlertThresholds error_rate_threshold latency_threshold m
      = (Some (invalid_argument what), m')
    ∧ DNSMetrics.error_rate_threshold_ m' = error_rate_threshold
    ∧ DNSMetrics.latency_threshold_ m' = DNSMetrics.latency_threshold_ m
    ∧ m' = DNSMetrics.set_thresholds error_rate_threshold (DNSMetrics.latency_threshold_ m) m.
Proof.
  intros H0 H1 Hl. unfold DNSMetrics.setAlertThresholds.
  destruct (Qlt_le_dec error_rate_threshold 0) as [Hlt|_].
  { exfalso. apply (Qlt_not_le _ _ Hlt H0). }
  destruct (Qlt_le_dec 1 error_rate_threshold) as [Hgt|_].
  { exfalso. apply (Qlt_not_le _ _ Hgt H1). }
  destruct (Z.leb_spec latency_threshold 0); [|lia].
  eexists _, _. repeat split.
Qed.

Lemma setAlertThresholds_throws_after_partial_update_witness :
  ∃ what m',
    DNSMetrics.setAlertThresholds (1 # 2) 0 DNSMetrics.new
      = (Some (invalid_argument what), m')
    ∧ DNSMetrics.error_rate_threshold_ m' = (1 # 2)%Q
    ∧ DNSMetrics.latency_threshold_ m' = DNSMetrics.latency_threshold_ DNSMetrics.new
    ∧ m' = DNSMetrics.set_thresholds (1 # 2)
             (DNSMetrics.latency_threshold_ DNSMetrics.new) DNSMetrics.new.
Proof.
  apply (setAlertThresholds_throws_after_partial_update (1 # 2) 0 DNSMetrics.new).
  - vm_compute. discriminate.
  - vm_compute. discriminate.
  - lia.
Defined.

(** C4: after one cache hit and one cache miss the cache's [hit_rate()]
    and the metrics gauge both hold 1/2, but the [cache_hit_rate] field of
    the snapshot returned by [getStats] is 0: the quotient is truncated to
    an integer before it is stored. *)
Theorem getStats_cache_hit_rate_is_truncated :
  let c := DNSCache.mk ∅ 300 10000 1 1 in
  let m := DNSMetrics.recordCacheMiss "b.test"
             (DNSMetrics.recordCacheHit "a.test" DNSMetrics.new) in
  DNSCache.hit_rate c = (1 # 2)%Q
  ∧ DNSMetrics.cache_hit_rate_ m = (1 # 2)%Q
  ∧ Stats.cache_hits (DNSMetrics.getStats m) = 1
  ∧ Stats.cache_misses (DNSMetrics.getStats m) = 1
  ∧ Stats.cache_hit_rate (DNSMetrics.getStats m) = 0%Q.
Proof.
  repeat split; vm_compute; reflexivity.
Qed.

(** ** Event filters *)




(** ** Retry counter *)

(** C3: the retry counter is one counter for all queries.  With
    [max_attempts = 2], two retries spent on a.test (which then succeeds)
    leave the counter at 2; the first failure of a query for b.test then
    gets no retry at all, while the same failure on a resolver that has not
    retried anything is retried after 50 ms. *)
Theorem retry_counter_is_shared_across_hostnames :
  let a1 := Sample.process (1 * Sample.sec) "a.test" Ares.ARES_ESERVFAIL None Sample.resolver in
  let a2 := Sample.process (2 * Sample.sec) "a.test" Ares.ARES_ESERVFAIL None
              (DNSResolver.after a1) in
  let a3 := Sample.process (3 * Sample.sec) "a.test" Ares.ARES_SUCCESS
              (Some [Sample.node "192.0.2.2"]) (DNSResolver.after a2) in
  let b := QueryContext.mk "b.test" 0 in
  DNSResolver.outcome a1 = DNSResolver.Requeried 1 50
  ∧ DNSResolver.outcome a2 = DNSResolver.Requeried 2 100
  ∧ DNSResolver.outcome a3
    = DNSResolver.Fulfilled (ResolveResult.mk "a.test" ["192.0.2.2"] Ares.ARES_SUCCESS 3000)
  ∧ DNSResolver.retry_count (DNSResolver.after a3) = 2
  ∧ DNSResolver.outcome
      <$> DNSResolver.process_result Sample.tpm Sample.env (4 * Sample.sec) (4 * Sample.sec)
            Sample.quiet b Ares.ARES_ETIMEOUT None (DNSResolver.after a3)
    = Some (DNSResolver.Fulfilled (ResolveResult.mk "b.test" [] Ares.ARES_ETIMEOUT 4000))
  ∧ DNSResolver.outcome
      <$> DNSResolver.process_result Sample.tpm Sample.env (4 * Sample.sec) (4 * Sample.sec)
            Sample.quiet b Ares.ARES_ETIMEOUT None Sample.resolver
    = Some (DNSResolver.Requeried 1 50).
Proof.
  repeat split; vm_compute; reflexivity.
Qed.

(** ** Change events *)

Lemma collect_addresses_cases (nodes : list Ares.addrinfo_node) :
  DNSResolver.collect_addresses nodes = []
  ∨ ∃ ip ips, DNSResolver.collect_addresses nodes = ip :: ips.
Proof. destruct (DNSResolver.collect_addresses nodes); eauto. Qed.

Lemma recordQuery_pair (h : string) (d : Z) (ok : bool) (m : DNSMetrics.t) :
  DNSMetrics.recordQuery h d ok m
  = ((DNSMetrics.recordQuery h d ok m).1, (DNSMetrics.recordQuery h d ok m).2).
Proof. by destruct (DNSMetrics.recordQuery h d ok m). Qed.

(** C1 (as the code has it): on completion an event is emitted iff the
    sequence of previously cached addresses, as [get] returned it (empty on
    a miss), differs from the sequence of new addresses and the new list is
    not empty; the event carries both sequences. *)
Theorem change_event_iff_sequences_differ (tpm : positive) (env : Env.t)
  (now steady_now : Z) (mgr : DNSEventManager.t) (context : QueryContext.t)
  (status : Z) (result : option (list Ares.addrinfo_node)) (r : DNSResolver.t)
  (cache : DNSCache.t) (p : DNSResolver.processed) (res : ResolveResult.t) :
  DNSResolver.cache_ r = Some cache →
  DNSResolver.process_result tpm env now steady_now mgr context status result r = Some p →
  DNSResolver.outcome p = DNSResolver.Fulfilled res →
  let hostname := QueryContext.hostname context in
  let old := default [] (DNSCache.get tpm now hostname cache).1 in
  let new := ResolveResult.ip_addresses res in
  (DNSResolver.emitted p ≠ [] ↔ old ≠ new ∧ new ≠ [])
  ∧ DNSResolver.emitted p
    = if decide (old ≠ new ∧ new ≠ [])
      then [DNSResolver.make_event now hostname old new "query" r]
      else [].
Proof.
  intros Hcache Hp Hout hostname old new.
  assert (Hem : DNSResolver.emitted p
    = if decide (old ≠ new ∧ new ≠ [])
      then [DNSResolver.make_event now hostname old new "query" r]
      else []).
  { subst old new hostname. revert Hp. unfold DNSResolver.process_result.
    rewrite Hcache.
    destruct (DNSCache.get tpm now (QueryContext.hostname context) cache)
      as [found cache1]. cbn [fst snd].
    destruct (if status =? Ares.ARES_SUCCESS then result else None) as [nodes|].
    - destruct (collect_addresses_cases nodes) as [Hnil|(ip & ips & Hcons)].
      + rewrite Hnil, recordQuery_pair. intros [= <-].
        simpl in Hout. injection Hout as <-. simpl.
        destruct (decide _) as [[_ Hne]|_]; [by destruct Hne|done].
      + rewrite Hcons, recordQuery_pair. intros [= <-].
        simpl in Hout. injection Hout as <-. simpl.
        destruct (decide (default [] found ≠ ip :: ips)) as [Hd|Hd];
          destruct (decide _) as [Hc|Hc]; try done.
        * destruct Hc. by split.
        * by destruct Hc as [Hc _].
    - destruct (DNSResolver.config_ _) as [cfg|];
        [destruct (negb _ && negb _); [destruct (_ <? _)|]|];
        try rewrite recordQuery_pair; intros [= <-]; simpl in Hout;
        try discriminate; injection Hout as <-; simpl;
        (destruct (decide _) as [[_ Hne]|_]; [by destruct Hne|done]). }
  split; [|exact Hem].
  rewrite Hem. destruct (decide _) as [Hc|Hc]; split; try done.
Qed.

(** C1, as stated, fails: with 10.0.0.1, 10.0.0.2 cached for foo.test, a
    result 10.0.0.2, 10.0.0.1 (the same multiset) emits an event. *)
Lemma change_event_on_reordered_addresses :
  ¬ Spec.change_event_law Sample.tpm Sample.env (2 * Sample.sec) (2 * Sample.sec)
      Sample.quiet (QueryContext.mk "foo.test" 0) Ares.ARES_SUCCESS
      (Some [Sample.node "10.0.0.2"; Sample.node "10.0.0.1"]) Sample.primed.
Proof.
  intros Hlaw.
  edestruct Hlaw as [Hemit _]; [vm_compute; reflexivity..|].
  destruct Hemit as [Hdiff _]; [vm_compute; discriminate|].
  apply Hdiff. vm_compute. apply perm_swap.
Qed.

Lemma change_event_iff_sequences_differ_witness :
  ∃ cache p res,
    DNSResolver.cache_ Sample.primed = Some cache
    ∧ DNSResolver.process_result Sample.tpm Sample.env (2 * Sample.sec) (2 * Sample.sec)
        Sample.quiet (QueryContext.mk "foo.test" 0) Ares.ARES_SUCCESS
        (Some [Sample.node "10.0.0.2"; Sample.node "10.0.0.1"]) Sample.primed = Some p
    ∧ DNSResolver.outcome p = DNSResolver.Fulfilled res
    ∧ DNSResolver.emitted p
      = [DNSResolver.make_event (2 * Sample.sec) "foo.test" ["10.0.0.1"; "10.0.0.2"]
           ["10.0.0.2"; "10.0.0.1"] "query" Sample.primed].
Proof.
  edestruct (change_event_iff_sequences_differ Sample.tpm Sample.env (2 * Sample.sec)
               (2 * Sample.sec) Sample.quiet (QueryContext.mk "foo.test" 0) Ares.ARES_SUCCESS
               (Some [Sample.node "10.0.0.2"; Sample.node "10.0.0.1"]) Sample.primed)
    as [_ Hem]; [vm_compute; reflexivity..|].
  eexists _, _, _.
  split; [vm_compute; reflexivity|]. split; [vm_compute; reflexivity|].
  split; [vm_compute; reflexivity|].
  etransitivity; [exact Hem|vm_compute; reflexivity].
Defined.

(** ** Soft refresh *)

Lemma ticks_per_second_pos (tpm : positive) : 0 < Chrono.ticks_per_second tpm.
Proof. unfold Chrono.ticks_per_second. lia. Qed.

(** Whole seconds left of a positive duration. *)
Lemma to_seconds_lt (tpm : positive) (d k : Z) :
  0 <= d → (Chrono.to_seconds tpm d <? k) = (d <? Chrono.seconds tpm k).
Proof.
  intros Hd. unfold Chrono.to_seconds, Chrono.seconds.
  pose proof (ticks_per_second_pos tpm) as Hpos.
  rewrite Z.quot_div_nonneg by lia.
  destruct (Z.ltb_spec (d `div` Chrono.ticks_per_second tpm) k) as [H|H];
    destruct (Z.ltb_spec d (k * Chrono.ticks_per_second tpm)) as [H'|H']; try reflexivity.
  - pose proof (Z.div_le_lower_bound d (Chrono.ticks_per_second tpm) k Hpos). lia.
  - pose proof (Z.div_lt_upper_bound d (Chrono.ticks_per_second tpm) k Hpos). lia.
Qed.

(** [update] always stores the record it was given. *)
Lemma update_lookup (tpm : positive) (now : Z) (h : string) (A : list string)
  (c : DNSCache.t) :
  DNSCache.cache_ (DNSCache.update tpm now h A c) !! h
  = Some (DNSRecord.mk EmptyString A (now + Chrono.seconds tpm (DNSCache.ttl_ c)) true).
Proof. unfold DNSCache.update. simpl. apply lookup_insert_eq. Qed.

(** C2 (as the code has it): after [update(h, A)] at [t0] under ttl [T],
    the first [get(h)] at a time [t] before expiry at which fewer than
    [T / 5] whole seconds remain returns [A] and clears the record's valid
    flag; a later [get(h)] on the record so marked, at whatever time, is a
    miss and erases the record. *)
Theorem soft_refresh_marks_once (tpm : positive) (c0 : DNSCache.t) (h : string)
  (A : list string) (t0 t t' : Z) :
  let T := DNSCache.ttl_ c0 in
  let expire := t0 + Chrono.seconds tpm T in
  let c1 := DNSCache.update tpm t0 h A c0 in
  let c2 := (DNSCache.get tpm t h c1).2 in
  t < expire →
  expire - t < Chrono.seconds tpm (Z.quot T 5) →
  (DNSCache.get tpm t h c1).1 = Some A
  ∧ DNSCache.cache_ c2 !! h = Some (DNSRecord.mk EmptyString A expire false)
  ∧ (DNSCache.get tpm t' h c2).1 = None
  ∧ DNSCache.cache_ (DNSCache.get tpm t' h c2).2 !! h = None.
Proof.
  intros T expire c1 c2 Hlt Hlast.
  assert (Hget : DNSCache.get tpm t h c1
    = (Some A,
       DNSCache.mk (<[h := DNSRecord.mk EmptyString A expire false]> (DNSCache.cache_ c1))
         (DNSCache.ttl_ c1) (DNSCache.max_size_ c1)
         (wrap64 (DNSCache.hits_ c1 + 1)) (DNSCache.misses_ c1))).
  { unfold DNSCache.get. subst c1. rewrite update_lookup. fold T expire.
    unfold DNSCache.stale. cbn [DNSRecord.expire_time DNSRecord.is_valid DNSRecord.ip_addresses].
    destruct (Z.geb_spec t expire) as [?|_]; [lia|]. cbn [negb orb].
    rewrite to_seconds_lt by lia.
    replace (DNSCache.ttl_ (DNSCache.update tpm t0 h A c0)) with T by reflexivity.
    destruct (Z.ltb_spec (expire - t) (Chrono.seconds tpm (T `quot` 5))) as [_|?]; [|lia].
    reflexivity. }
  subst c2. rewrite Hget. cbn [fst snd].
  split; [reflexivity|]. split; [apply lookup_insert_eq|].
  unfold DNSCache.get. cbn [DNSCache.cache_]. rewrite lookup_insert_eq.
  unfold DNSCache.stale. cbn [DNSRecord.is_valid negb]. rewrite orb_true_r.
  cbn [fst snd DNSCache.cache_]. split; [reflexivity|apply lookup_delete_eq].
Qed.

(** C2, as stated, fails: with ttl 300 s, a [get] at 250 s marks the
    record and a second [get] at 260 s, still inside the last fifth of the
    TTL, is a miss. *)
Lemma soft_refresh_second_get_misses :
  ¬ Spec.soft_refresh_law Sample.tpm (DNSCache.new 0 300) "a.test" ["192.0.2.1"] 0
      [250 * Sample.sec; 260 * Sample.sec].
Proof.
  intros Hlaw.
  assert (Hwin : Forall (Spec.in_last_fifth Sample.tpm 0 (DNSCache.ttl_ (DNSCache.new 0 300)))
                   [250 * Sample.sec; 260 * Sample.sec]).
  { repeat constructor; vm_compute; congruence. }
  specialize (Hlaw Hwin).
  apply Forall_cons in Hlaw as [_ Hlaw]. apply Forall_cons in Hlaw as [Hsecond _].
  vm_compute in Hsecond. discriminate.
Qed.

Lemma soft_refresh_marks_once_witness :
  let c1 := DNSCache.update Sample.tpm 0 "a.test" ["192.0.2.1"] (DNSCache.new 0 300) in
  let c2 := (DNSCache.get Sample.tpm (250 * Sample.sec) "a.test" c1).2 in
  (DNSCache.get Sample.tpm (250 * Sample.sec) "a.test" c1).1 = Some ["192.0.2.1"]
  ∧ DNSCache.cache_ c2 !! "a.test"
    = Some (DNSRecord.mk EmptyString ["192.0.2.1"] (0 + Chrono.seconds Sample.tpm 300) false)
  ∧ (DNSCache.get Sample.tpm (260 * Sample.sec) "a.test" c2).1 = None
  ∧ DNSCache.cache_ (DNSCache.get Sample.tpm (260 * Sample.sec) "a.test" c2).2 !! "a.test" = None.
Proof.
  apply (soft_refresh_marks_once Sample.tpm (DNSCache.new 0 300) "a.test" ["192.0.2.1"]
           0 (250 * Sample.sec) (260 * Sample.sec)); vm_compute; reflexivity.
Defined.

(** ** Bounded cache *)

Lemma purge_size (now : Z) (m : gmap string DNSRecord.t) :
  (size (DNSCache.purge now m) <= size m)%nat.
Proof. apply map_size_filter. Qed.

Lemma delete_size (k : string) (m : gmap string DNSRecord.t) :
  (size (delete k m) <= size m)%nat.
Proof. rewrite map_size_delete. destruct (m !! k); simpl; lia. Qed.

Lemma erase_keys_size (ks : list string) (m : gmap string DNSRecord.t) :
  (size (DNSCache.erase_keys ks m) <= size m)%nat.
Proof.
  revert m. induction ks as [|k ks IH]; intros m; simpl; [lia|].
  etransitivity; [apply IH|apply delete_size].
Qed.

Lemma cleanup_map_size (now max_size : Z) (m : gmap string DNSRecord.t) :
  (size (DNSCache.cleanup_map now max_size m) <= size m)%nat.
Proof.
  unfold DNSCache.cleanup_map. pose proof (purge_size now m).
  destruct (_ >? _); [|done].
  etransitivity; [apply erase_keys_size|done].
Qed.

Lemma min_element_from_elem (best : string * DNSRecord.t) (l : list (string * DNSRecord.t)) :
  DNSCache.min_element_from best l ∈ best :: l.
Proof.
  revert best. induction l as [|x l IH]; intros best; simpl.
  - apply list_elem_of_here.
  - destruct (_ <? _).
    + apply list_elem_of_further, IH.
    + specialize (IH best). apply elem_of_cons in IH as [->|IH].
      * apply list_elem_of_here.
      * do 2 apply list_elem_of_further. exact IH.
Qed.

(** Eviction removes exactly one entry of a non-empty map. *)
Lemma evict_one_size (m : gmap string DNSRecord.t) :
  (0 < size m)%nat → size (DNSCache.evict_one m) = pred (size m).
Proof.
  intros Hpos. unfold DNSCache.evict_one, DNSCache.min_element.
  destruct (map_to_list m) as [|x l] eqn:Hl.
  - apply map_to_list_empty_iff in Hl. subst m. rewrite map_size_empty in Hpos. lia.
  - pose proof (min_element_from_elem x l) as Hin. rewrite <- Hl in Hin.
    destruct (DNSCache.min_element_from x l) as [k r].
    apply elem_of_map_to_list in Hin. simpl.
    apply map_size_delete_Some. eauto.
Qed.

Lemma insert_size (k : string) (r : DNSRecord.t) (m : gmap string DNSRecord.t) :
  (size (<[k := r]> m) <= S (size m))%nat.
Proof.
  destruct (m !! k) eqn:Hk.
  - rewrite map_size_insert_Some by eauto. lia.
  - rewrite map_size_insert_None by done. lia.
Qed.

Lemma update_bounded (tpm : positive) (now : Z) (h : string) (A : list string)
  (c : DNSCache.t) :
  CacheOps.bounded c → CacheOps.bounded (DNSCache.update tpm now h A c).
Proof.
  intros [Hsize Hmax]. unfold CacheOps.bounded, DNSCache.size in *.
  unfold DNSCache.update. cbn [DNSCache.with_cache DNSCache.cache_ DNSCache.max_size_].
  split; [|exact Hmax].
  pose proof (cleanup_map_size now (DNSCache.max_size_ c) (DNSCache.cache_ c)) as Hc.
  set (m1 := DNSCache.cleanup_map now (DNSCache.max_size_ c) (DNSCache.cache_ c)) in *.
  destruct (Z.geb_spec (Z.of_nat (size m1)) (DNSCache.max_size_ c)) as [Hfull|Hroom].
  - pose proof (evict_one_size m1 ltac:(lia)) as He.
    pose proof (insert_size h
      (DNSRecord.mk EmptyString A (now + Chrono.seconds tpm (DNSCache.ttl_ c)) true)
      (DNSCache.evict_one m1)). lia.
  - pose proof (insert_size h
      (DNSRecord.mk EmptyString A (now + Chrono.seconds tpm (DNSCache.ttl_ c)) true) m1).
    lia.
Qed.

Lemma get_bounded (tpm : positive) (now : Z) (h : string) (c : DNSCache.t) :
  CacheOps.bounded c → CacheOps.bounded (DNSCache.get tpm now h c).2.
Proof.
  intros [Hsize Hmax]. unfold CacheOps.bounded, DNSCache.size in *. unfold DNSCache.get.
  destruct (DNSCache.cache_ c !! h) as [r|] eqn:Hr; [|done].
  destruct (DNSCache.stale now r); cbn [snd DNSCache.cache_ DNSCache.max_size_].
  - pose proof (delete_size h (DNSCache.cache_ c)). lia.
  - rewrite map_size_insert_Some by eauto. done.
Qed.

Lemma remove_bounded (h : string) (c : DNSCache.t) :
  CacheOps.bounded c → CacheOps.bounded (DNSCache.remove h c).
Proof.
  intros [Hsize Hmax]. unfold CacheOps.bounded, DNSCache.size in *. simpl.
  pose proof (delete_size h (DNSCache.cache_ c)). lia.
Qed.

Lemma clear_bounded (c : DNSCache.t) : CacheOps.bounded c → CacheOps.bounded (DNSCache.clear c).
Proof.
  intros [Hsize Hmax]. unfold CacheOps.bounded, DNSCache.size. simpl.
  rewrite map_size_empty. lia.
Qed.

Lemma load_records_bounded (tpm : positive) (now : Z) (records : list Json.t)
  (c : DNSCache.t) :
  CacheOps.bounded c → CacheOps.bounded (DNSCachePersistor.load_records tpm now records c).2.
Proof.
  revert c. induction records as [|j records IH]; intros c Hc; simpl; [done|].
  destruct (DNSCachePersistor.deserializeRecord tpm j) as [record|]; [|done].
  apply IH. destruct (_ && _); [by apply update_bounded|done].
Qed.

Lemma load_bounded (tpm : positive) (now : Z) (file : option Json.t) (c : DNSCache.t) :
  CacheOps.bounded c → CacheOps.bounded (DNSCachePersistor.load tpm now file c).2.
Proof.
  intros Hc. unfold DNSCachePersistor.load.
  destruct_matches; try done.
  by apply load_records_bounded.
Qed.

Lemma run_bounded (tpm : positive) (ops : list CacheOps.op) (c : DNSCache.t) :
  CacheOps.bounded c → CacheOps.bounded (CacheOps.run tpm ops c).
Proof.
  revert c. induction ops as [|o ops IH]; intros c Hc; [done|].
  unfold CacheOps.run in *. simpl. apply IH.
  destruct o; simpl;
    auto using update_bounded, get_bounded, remove_bounded, clear_bounded, load_bounded.
Qed.

Lemma new_bounded (now ttl : Z) : CacheOps.bounded (DNSCache.new now ttl).
Proof.
  unfold CacheOps.bounded, DNSCache.size, DNSCache.new, DNSCache.cleanup.
  cbn [DNSCache.with_cache DNSCache.cache_ DNSCache.max_size_].
  pose proof (cleanup_map_size now 10000 ∅) as H. rewrite map_size_empty in H. lia.
Qed.

Lemma load_records_max_size (tpm : positive) (now : Z) (records : list Json.t)
  (c : DNSCache.t) :
  DNSCache.max_size_ (DNSCachePersistor.load_records tpm now records c).2
  = DNSCache.max_size_ c.
Proof.
  revert c. induction records as [|j records IH]; intros c; simpl; [done|].
  destruct (DNSCachePersistor.deserializeRecord tpm j) as [record|]; [|done].
  rewrite IH. by destruct (_ && _).
Qed.

Lemma run_op_max_size (tpm : positive) (o : CacheOps.op) (c : DNSCache.t) :
  DNSCache.max_size_ (CacheOps.run_op tpm c o) = DNSCache.max_size_ c.
Proof.
  destruct o; simpl; try done.
  - unfold DNSCache.get.
    destruct (DNSCache.cache_ c !! hostname) as [r|]; [|done].
    by destruct (DNSCache.stale now r).
  - unfold DNSCachePersistor.load.
    destruct_matches; try done.
    apply load_records_max_size.
Qed.

Lemma run_max_size (tpm : positive) (ops : list CacheOps.op) (c : DNSCache.t) :
  DNSCache.max_size_ (CacheOps.run tpm ops c) = DNSCache.max_size_ c.
Proof.
  revert c. induction ops as [|o ops IH]; intros c; [done|].
  unfold CacheOps.run in *. simpl. rewrite IH. apply run_op_max_size.
Qed.

(** C7: whatever operations ran on a cache since its construction, it
    holds at most [max_size_] (10000) entries; and [update(h, A)] on a cache
    within its bound, a full one included, stores the record for [h] and
    stays within the bound. *)
Theorem cache_never_exceeds_max_size (tpm : positive) :
  (∀ (t0 ttl : Z) (ops : list CacheOps.op),
     let c := CacheOps.run tpm ops (DNSCache.new t0 ttl) in
     DNSCache.size c <= DNSCache.capacity c ∧ DNSCache.capacity c = 10000)
  ∧ (∀ (c : DNSCache.t) (now : Z) (h : string) (A : list string),
       DNSCache.size c <= DNSCache.max_size_ c → 1 <= DNSCache.max_size_ c →
       let c' := DNSCache.update tpm now h A c in
       DNSCache.cache_ c' !! h
         = Some (DNSRecord.mk EmptyString A (now + Chrono.seconds tpm (DNSCache.ttl_ c)) true)
       ∧ DNSCache.size c' <= DNSCache.max_size_ c'
       ∧ DNSCache.max_size_ c' = DNSCache.max_size_ c).
Proof.
  split.
  - intros t0 ttl ops c. subst c. unfold DNSCache.capacity.
    split; [apply run_bounded, new_bounded|apply run_max_size].
  - intros c now h A Hsize Hmax c'. subst c'.
    split; [apply update_lookup|].
    split; [|reflexivity].
    by apply update_bounded.
Qed.

Lemma cache_never_exceeds_max_size_witness :
  let full :=
    DNSCache.mk {[ "old.test" := DNSRecord.mk EmptyString ["192.0.2.9"] (100 * Sample.sec) true ]}
      300 1 0 0 in
  let c' := DNSCache.update Sample.tpm 0 "new.test" ["192.0.2.1"] full in
  DNSCache.size full = DNSCache.max_size_ full
  ∧ DNSCache.cache_ c' !! "new.test"
    = Some (DNSRecord.mk EmptyString ["192.0.2.1"] (0 + Chrono.seconds Sample.tpm 300) true)
  ∧ DNSCache.size c' <= DNSCache.max_size_ c'
  ∧ DNSCache.max_size_ c' = DNSCache.max_size_ full.
Proof.
  split; [reflexivity|].
  apply (proj2 (cache_never_exceeds_max_size Sample.tpm)
           (DNSCache.mk
              {[ "old.test" := DNSRecord.mk EmptyString ["192.0.2.9"] (100 * Sample.sec) true ]}
              300 1 0 0)
           0 "new.test" ["192.0.2.1"]); vm_compute; discriminate.
Defined.

(** ** Configuration load *)

(** A failed [init] touches the channel and the server list only. *)
Lemma init_failure_keeps (env : Env.t) (now : Z) (servers : list string) (ttl : Z)
  (r : DNSResolver.t) :
  (DNSResolver.init env now servers ttl r).1 = false →
  let r' := (DNSResolver.init env now servers ttl r).2 in
  DNSResolver.config_ r' = DNSResolver.config_ r
  ∧ DNSResolver.cache_ r' = DNSResolver.cache_ r
  ∧ DNSResolver.initialized_ r' = DNSResolver.initialized_ r
  ∧ DNSResolver.metrics_ r' = DNSResolver.metrics_ r
  ∧ DNSResolver.retry_count r' = DNSResolver.retry_count r.
Proof.
  unfold DNSResolver.init.
  destruct (negb (Env.ares_init_options_status env =? Ares.ARES_SUCCESS)).
  - intros _. cbn [snd]. by destruct (Env.ares_failed_init_stores_null env).
  - destruct servers as [|first rest]; [discriminate|].
    destruct (negb (_ =? _)); [|discriminate].
    intros _. cbn [snd]. done.
Qed.

(** C6 (as the code has it): when [loadConfig(snapshot)] fails, the active
    configuration snapshot, the cache, the initialized flag, the metrics and
    the retry counter are those from before the call; when the failure is a
    validation failure the whole resolver state, the DNS channel included,
    is unchanged. *)
Theorem failed_loadConfig_keeps_snapshot_and_cache (tpm : positive) (env : Env.t)
  (now : Z) (config : DNSResolverConfig.t) (r : DNSResolver.t) :
  (DNSResolver.loadConfig tpm env now config r).1 = false →
  let r' := (DNSResolver.loadConfig tpm env now config r).2 in
  DNSResolver.config_ r' = DNSResolver.config_ r
  ∧ DNSResolver.cache_ r' = DNSResolver.cache_ r
  ∧ DNSResolver.initialized_ r' = DNSResolver.initialized_ r
  ∧ DNSResolver.metrics_ r' = DNSResolver.metrics_ r
  ∧ DNSResolver.retry_count r' = DNSResolver.retry_count r
  ∧ (DNSConfigValidator.validate env config ≠ None → r' = r).
Proof.
  unfold DNSResolver.loadConfig.
  destruct (DNSConfigValidator.validate env config) as [e|].
  - intros _. cbn [snd]. by repeat split.
  - pose proof (init_failure_keeps env now
      (DNSServerConfig.address <$>
         List.filter DNSServerConfig.enabled (DNSResolverConfig.servers config))
      (CacheConfig.ttl (DNSResolverConfig.cache config)) r) as Hinit.
    destruct (DNSResolver.init env now _ _ r) as [ok r1].
    destruct ok; cbn [negb fst snd] in *; [discriminate|].
    intros _. destruct (Hinit eq_refl) as (? & ? & ? & ? & ?).
    by repeat split.
Qed.

(** C6, as stated, fails: a valid snapshot whose server list c-ares
    refuses makes [loadConfig] return false after [init] has already stored
    a new channel and the new server list. *)
Lemma loadConfig_failure_replaces_channel :
  ¬ Spec.atomic_apply_law Sample.tpm Sample.env_servers_refused (10 * Sample.sec)
      Sample.config2 Sample.resolver.
Proof.
  intros Hlaw. specialize (Hlaw eq_refl).
  apply (f_equal DNSResolver.channel_) in Hlaw.
  vm_compute in Hlaw. discriminate.
Qed.

Lemma failed_loadConfig_keeps_snapshot_and_cache_witness :
  let r' := (DNSResolver.loadConfig Sample.tpm Sample.env_servers_refused (10 * Sample.sec)
               Sample.config2 Sample.resolver).2 in
  DNSResolver.config_ r' = DNSResolver.config_ Sample.resolver
  ∧ DNSResolver.cache_ r' = DNSResolver.cache_ Sample.resolver
  ∧ DNSResolver.initialized_ r' = DNSResolver.initialized_ Sample.resolver
  ∧ DNSResolver.metrics_ r' = DNSResolver.metrics_ Sample.resolver
  ∧ DNSResolver.retry_count r' = DNSResolver.retry_count Sample.resolver
  ∧ (DNSConfigValidator.validate Sample.env_servers_refused Sample.config2 ≠ None →
     r' = Sample.resolver).
Proof.
  apply (failed_loadConfig_keeps_snapshot_and_cache Sample.tpm Sample.env_servers_refused
           (10 * Sample.sec) Sample.config2 Sample.resolver).
  vm_compute. reflexivity.
Defined.

(** ** Cache persistence *)

Lemma save_visitor_valid (tpm : positive) (kv : string * DNSRecord.t) (acc : list Json.t) :
  DNSCachePersistor.save_visitor tpm kv.1 kv.2 acc
  = if DNSRecord.is_valid kv.2 then acc ++ [CacheOps.record_json tpm kv] else acc.
Proof.
  unfold DNSCachePersistor.save_visitor. destruct (DNSRecord.is_valid kv.2); reflexivity.
Qed.

Lemma saved_records (tpm : positive) (l : list (string * DNSRecord.t)) (acc : list Json.t) :
  foldl (λ a kv, DNSCachePersistor.save_visitor tpm kv.1 kv.2 a) acc l
  = acc ++ (CacheOps.record_json tpm <$> filter (λ kv, DNSRecord.is_valid kv.2 = true) l).
Proof.
  revert acc. induction l as [|kv l IH]; intros acc; simpl.
  - by rewrite app_nil_r.
  - rewrite IH, save_visitor_valid.
    destruct (DNSRecord.is_valid kv.2) eqn:Hv.
    + rewrite filter_cons_True by done. simpl. by rewrite <- app_assoc.
    + rewrite filter_cons_False by congruence. done.
Qed.

Lemma save_json_shape (tpm : positive) (now : Z) (c : DNSCache.t) :
  DNSCachePersistor.save_json tpm now c
  = Json.Obj
      [ ("version", Json.Str "1.0");
        ("timestamp", Json.Int (DNSCachePersistor.getTime tpm now));
        ("records",
          Json.Arr (CacheOps.record_json tpm
                      <$> filter (λ kv, DNSRecord.is_valid kv.2 = true)
                            (map_to_list (DNSCache.cache_ c)))) ].
Proof.
  unfold DNSCachePersistor.save_json, DNSCache.forEach.
  rewrite saved_records. reflexivity.
Qed.

Lemma get_string_vector_strings (ips : list string) :
  Json.get_string_vector (Json.Arr (Json.Str <$> ips)) = Some ips.
Proof.
  unfold Json.get_string_vector.
  induction ips as [|ip ips IH]; [done|].
  change (mapM Json.get_string (Json.Str <$> ip :: ips))
    with (k ← mapM Json.get_string (Json.Str <$> ips); Some (ip :: k)).
  by rewrite IH.
Qed.

Lemma deserialize_record_json (tpm : positive) (kv : string * DNSRecord.t) :
  DNSCachePersistor.deserializeRecord tpm (CacheOps.record_json tpm kv)
  = Some (DNSRecord.mk kv.1 (DNSRecord.ip_addresses kv.2)
            (Chrono.from_time_t tpm (Chrono.to_seconds tpm (DNSRecord.expire_time kv.2)))
            (DNSRecord.is_valid kv.2)).
Proof.
  unfold DNSCachePersistor.deserializeRecord, CacheOps.record_json.
  change (Json.at_key DNSCachePersistor.CACHE_RECORDS_FIELD_NAME_IP _)
    with (Some (Json.Arr (Json.Str <$> DNSRecord.ip_addresses kv.2))).
  cbn [mbind option_bind].
  rewrite get_string_vector_strings. reflexivity.
Qed.

Lemma load_records_saved (tpm : positive) (now : Z) (l : list (string * DNSRecord.t))
  (c : DNSCache.t) :
  DNSCachePersistor.load_records tpm now (CacheOps.record_json tpm <$> l) c
  = (true, foldl (CacheOps.reload tpm now) c l).
Proof.
  revert c. induction l as [|kv l IH]; intros c; [done|].
  rewrite fmap_cons. cbn [DNSCachePersistor.load_records].
  rewrite deserialize_record_json. cbn [foldl]. apply IH.
Qed.

Lemma load_saved (tpm : positive) (ts tl : Z) (c target : DNSCache.t) :
  DNSCachePersistor.load tpm tl (Some (DNSCachePersistor.save_json tpm ts c)) target
  = if tl - Chrono.milliseconds tpm (DNSCachePersistor.getTime tpm ts)
       >? DNSCachePersistor.MAX_CACHE_AGE
    then (false, target)
    else (true,
          foldl (CacheOps.reload tpm tl) target
            (filter (λ kv, DNSRecord.is_valid kv.2 = true) (map_to_list (DNSCache.cache_ c)))).
Proof.
  rewrite save_json_shape. unfold DNSCachePersistor.load.
  change (negb (Json.contains DNSCachePersistor.CACHE_FIELD_NAME_VERSION _) || _) with false.
  cbv iota.
  change (negb (Json.contains DNSCachePersistor.CACHE_FIELD_NAME_TIMESTAMP _)) with false.
  cbv iota.
  change (Json.at_key DNSCachePersistor.CACHE_FIELD_NAME_TIMESTAMP _ ≫= Json.get_int64)
    with (Some (DNSCachePersistor.getTime tpm ts)).
  cbv iota.
  destruct (_ >? _); [done|].
  change (Json.at_key DNSCachePersistor.CACHE_FIELD_NAME_RECORDS _)
    with (Some (Json.Arr (CacheOps.record_json tpm
                      <$> filter (λ kv, DNSRecord.is_valid kv.2 = true)
                            (map_to_list (DNSCache.cache_ c))))).
  cbv iota. apply load_records_saved.
Qed.

Lemma purge_lookup_Some (now : Z) (m : gmap string DNSRecord.t) (h : string)
  (r : DNSRecord.t) :
  m !! h = Some r → DNSCache.stale now r = false → DNSCache.purge now m !! h = Some r.
Proof.
  intros Hm Hs. unfold DNSCache.purge. apply map_lookup_filter_Some. by split.
Qed.

(** Below nine tenths of the capacity [update] evicts nothing. *)
Lemma update_without_eviction (tpm : positive) (now : Z) (h : string) (A : list string)
  (c : DNSCache.t) :
  10 * (DNSCache.size c + 1) <= 9 * DNSCache.max_size_ c →
  DNSCache.cache_ (DNSCache.update tpm now h A c)
  = <[h := DNSRecord.mk EmptyString A (now + Chrono.seconds tpm (DNSCache.ttl_ c)) true]>
      (DNSCache.purge now (DNSCache.cache_ c)).
Proof.
  unfold DNSCache.size. intros Hroom.
  unfold DNSCache.update, DNSCache.cleanup_map. cbn [DNSCache.with_cache DNSCache.cache_].
  pose proof (purge_size now (DNSCache.cache_ c)) as Hp.
  destruct (Z.gtb_spec (10 * Z.of_nat (size (DNSCache.purge now (DNSCache.cache_ c))))
              (9 * DNSCache.max_size_ c)) as [?|_]; [lia|].
  destruct (Z.geb_spec (Z.of_nat (size (DNSCache.purge now (DNSCache.cache_ c))))
              (DNSCache.max_size_ c)) as [?|_]; [lia|].
  reflexivity.
Qed.

Lemma update_size_without_eviction (tpm : positive) (now : Z) (h : string)
  (A : list string) (c : DNSCache.t) :
  10 * (DNSCache.size c + 1) <= 9 * DNSCache.max_size_ c →
  DNSCache.size (DNSCache.update tpm now h A c) <= DNSCache.size c + 1.
Proof.
  intros Hroom. unfold DNSCache.size at 1.
  rewrite update_without_eviction by done.
  pose proof (purge_size now (DNSCache.cache_ c)).
  pose proof (insert_size h
    (DNSRecord.mk EmptyString A (now + Chrono.seconds tpm (DNSCache.ttl_ c)) true)
    (DNSCache.purge now (DNSCache.cache_ c))).
  unfold DNSCache.size. lia.
Qed.

Lemma reload_fields (tpm : positive) (now : Z) (c : DNSCache.t) (kv : string * DNSRecord.t) :
  DNSCache.ttl_ (CacheOps.reload tpm now c kv) = DNSCache.ttl_ c
  ∧ DNSCache.max_size_ (CacheOps.reload tpm now c kv) = DNSCache.max_size_ c.
Proof. unfold CacheOps.reload. by destruct (_ && _). Qed.

Lemma reload_size (tpm : positive) (now : Z) (c : DNSCache.t) (kv : string * DNSRecord.t) :
  10 * (DNSCache.size c + 1) <= 9 * DNSCache.max_size_ c →
  DNSCache.size (CacheOps.reload tpm now c kv) <= DNSCache.size c + 1.
Proof.
  intros Hroom. unfold CacheOps.reload.
  destruct (_ && _); [by apply update_size_without_eviction|lia].
Qed.

(** An entry that is not stale survives the reloading of other hosts. *)
Lemma reload_all_keeps (tpm : positive) (now : Z) (l : list (string * DNSRecord.t))
  (c : DNSCache.t) (h : string) (r : DNSRecord.t) :
  h ∉ l.*1 →
  DNSCache.cache_ c !! h = Some r →
  DNSCache.stale now r = false →
  10 * (DNSCache.size c + Z.of_nat (length l)) <= 9 * DNSCache.max_size_ c →
  DNSCache.cache_ (foldl (CacheOps.reload tpm now) c l) !! h = Some r.
Proof.
  revert c. induction l as [|kv l IH]; intros c Hnotin Hc Hfresh Hroom; [done|].
  cbn [foldl]. rewrite fmap_cons in Hnotin. apply not_elem_of_cons in Hnotin as [Hne Hnotin].
  rewrite length_cons in Hroom.
  destruct (reload_fields tpm now c kv) as [_ Hmax].
  pose proof (reload_size tpm now c kv ltac:(lia)) as Hsize.
  apply IH; [done| |done|rewrite Hmax; lia].
  unfold CacheOps.reload. destruct (_ && _); [|done].
  rewrite update_without_eviction by lia.
  rewrite lookup_insert_ne by done. by apply purge_lookup_Some.
Qed.

Lemma fresh_record_not_stale (tpm : positive) (now ttl : Z) (A : list string) :
  0 < ttl →
  DNSCache.stale now (DNSRecord.mk EmptyString A (now + Chrono.seconds tpm ttl) true) = false.
Proof.
  intros Httl. unfold DNSCache.stale. cbn [DNSRecord.expire_time DNSRecord.is_valid negb].
  rewrite orb_false_r. unfold Chrono.seconds.
  pose proof (ticks_per_second_pos tpm).
  destruct (Z.geb_spec now (now + ttl * Chrono.ticks_per_second tpm)); [nia|done].
Qed.

(** Every saved entry that is valid and, in whole seconds, not yet expired
    at load time is in the cache after the loop of [load]. *)
Lemma reload_all_loads (tpm : positive) (now : Z) (l : list (string * DNSRecord.t))
  (c : DNSCache.t) (h : string) (r : DNSRecord.t) :
  NoDup l.*1 →
  0 < DNSCache.ttl_ c →
  10 * (DNSCache.size c + Z.of_nat (length l)) <= 9 * DNSCache.max_size_ c →
  (h, r) ∈ l →
  DNSRecord.is_valid r = true →
  now < Chrono.from_time_t tpm (Chrono.to_seconds tpm (DNSRecord.expire_time r)) →
  DNSCache.cache_ (foldl (CacheOps.reload tpm now) c l) !! h
  = Some (DNSRecord.mk EmptyString (DNSRecord.ip_addresses r)
            (now + Chrono.seconds tpm (DNSCache.ttl_ c)) true).
Proof.
  revert c. induction l as [|kv l IH]; intros c Hnodup Httl Hroom Hin Hvalid Hlive.
  { by apply elem_of_nil in Hin. }
  cbn [foldl]. rewrite fmap_cons in Hnodup. apply NoDup_cons in Hnodup as [Hfirst Hnodup].
  rewrite length_cons in Hroom.
  destruct (reload_fields tpm now c kv) as [Httl' Hmax].
  pose proof (reload_size tpm now c kv ltac:(lia)) as Hsize.
  apply elem_of_cons in Hin as [<-|Hin].
  - apply reload_all_keeps; [done| |by apply fresh_record_not_stale|rewrite Hmax; lia].
    unfold CacheOps.reload. cbn [fst snd]. rewrite Hvalid.
    destruct (Z.gtb_spec
      (Chrono.from_time_t tpm (Chrono.to_seconds tpm (DNSRecord.expire_time r))) now);
      [|lia].
    cbn [andb]. apply update_lookup.
  - rewrite <- Httl'. apply IH; try done; [lia|rewrite Hmax; lia].
Qed.

(** C5 (as the code has it): when the file passes the age check of
    [load], the target cache has a positive TTL and the saved and present
    entries together stay within nine tenths of its capacity, loading the
    saved cache succeeds and yields, for each record that was valid when
    saved and whose expiry, in whole seconds, is still ahead at load time, a
    record under the same hostname with the same address sequence, valid,
    and expiring one TTL after the load (not at the saved expiry). *)
Theorem persistence_roundtrip_resets_expiry (tpm : positive) (c : DNSCache.t)
  (ts tl : Z) (target : DNSCache.t) :
  tl - Chrono.milliseconds tpm (DNSCachePersistor.getTime tpm ts)
    <= DNSCachePersistor.MAX_CACHE_AGE →
  0 < DNSCache.ttl_ target →
  10 * (DNSCache.size target + DNSCache.size c) <= 9 * DNSCache.max_size_ target →
  let loaded :=
    DNSCachePersistor.load tpm tl (Some (DNSCachePersistor.save_json tpm ts c)) target in
  loaded.1 = true
  ∧ ∀ h r,
      DNSCache.cache_ c !! h = Some r →
      DNSRecord.is_valid r = true →
      tl < Chrono.from_time_t tpm (Chrono.to_seconds tpm (DNSRecord.expire_time r)) →
      DNSCache.cache_ loaded.2 !! h
      = Some (DNSRecord.mk EmptyString (DNSRecord.ip_addresses r)
                (tl + Chrono.seconds tpm (DNSCache.ttl_ target)) true).
Proof.
  intros Hage Httl Hroom loaded. subst loaded. rewrite load_saved.
  destruct (Z.gtb_spec (tl - Chrono.milliseconds tpm (DNSCachePersistor.getTime tpm ts))
              DNSCachePersistor.MAX_CACHE_AGE) as [?|_]; [lia|].
  cbn [fst snd]. split; [done|].
  intros h r Hc Hvalid Hlive.
  set (l := filter (λ kv, DNSRecord.is_valid kv.2 = true) (map_to_list (DNSCache.cache_ c))).
  assert (Hsub : l `sublist_of` map_to_list (DNSCache.cache_ c)) by apply sublist_filter.
  apply reload_all_loads; try done.
  - apply (sublist_NoDup _ (map_to_list (DNSCache.cache_ c)).*1);
      [apply NoDup_fst_map_to_list|by apply fmap_sublist].
  - apply sublist_length in Hsub. rewrite length_map_to_list in Hsub.
    unfold DNSCache.size in *. lia.
  - apply list_elem_of_filter. split; [done|]. by apply elem_of_map_to_list.
Qed.

(** C5, as stated, fails: a record saved 100 s into a TTL of 300 s and
    loaded back at once expires 400 s after its first insertion, 100 s
    later than the record that was saved. *)
Lemma persistence_reload_changes_expiry :
  ¬ Spec.roundtrip_law Sample.tpm
      (DNSCache.update Sample.tpm 0 "a.test" ["192.0.2.1"] (DNSCache.new 0 300))
      (100 * Sample.sec) (100 * Sample.sec) (DNSCache.new (100 * Sample.sec) 300).
Proof.
  intros Hlaw.
  destruct (Hlaw "a.test"
              (DNSRecord.mk EmptyString ["192.0.2.1"] (300 * Sample.sec) true))
    as (r' & Hr' & _ & Hclose); [vm_compute; reflexivity..|].
  vm_compute in Hr'. injection Hr' as <-.
  vm_compute in Hclose. apply Hclose. reflexivity.
Qed.

Lemma persistence_roundtrip_resets_expiry_witness :
  let c := DNSCache.update Sample.tpm 0 "a.test" ["192.0.2.1"] (DNSCache.new 0 300) in
  let loaded :=
    DNSCachePersistor.load Sample.tpm (100 * Sample.sec)
      (Some (DNSCachePersistor.save_json Sample.tpm (100 * Sample.sec) c))
      (DNSCache.new (100 * Sample.sec) 300) in
  loaded.1 = true
  ∧ DNSCache.cache_ loaded.2 !! "a.test"
    = Some (DNSRecord.mk EmptyString ["192.0.2.1"] (400 * Sample.sec) true).
Proof.
  intros c loaded.
  destruct (persistence_roundtrip_resets_expiry Sample.tpm c (100 * Sample.sec)
              (100 * Sample.sec) (DNSCache.new (100 * Sample.sec) 300))
    as [Hok Hrec].
  - vm_compute. discriminate.
  - vm_compute. reflexivity.
  - vm_compute. discriminate.
  - split; [exact Hok|].
    apply (Hrec "a.test" (DNSRecord.mk EmptyString ["192.0.2.1"] (300 * Sample.sec) true));
      vm_compute; reflexivity.
Defined.

(** * Further properties of the code *)

(** ** DNSCache *)

(** X1: a [get] that follows [update(h, A)] before the expiry, while at
    least a fifth of the TTL (in whole seconds) remains, returns [A], counts
    one hit, counts no miss and leaves the record as [update] stored it. *)
Theorem get_after_update_hits (tpm : positive) (c0 : DNSCache.t) (h : string)
  (A : list string) (t0 t : Z) :
  let T := DNSCache.ttl_ c0 in
  let c1 := DNSCache.update tpm t0 h A c0 in
  t < t0 + Chrono.seconds tpm T →
  Chrono.seconds tpm (Z.quot T 5) <= t0 + Chrono.seconds tpm T - t →
  DNSCache.get tpm t h c1
  = (Some A,
     DNSCache.mk (DNSCache.cache_ c1) (DNSCache.ttl_ c0) (DNSCache.max_size_ c0)
       (wrap64 (DNSCache.hits_ c0 + 1)) (DNSCache.misses_ c0)).
Proof.
  intros T c1 Hlt Hleft.
  unfold DNSCache.get. subst c1. rewrite update_lookup. fold T.
  unfold DNSCache.stale. cbn [DNSRecord.expire_time DNSRecord.is_valid DNSRecord.ip_addresses].
  destruct (Z.geb_spec t (t0 + Chrono.seconds tpm T)) as [?|_]; [lia|]. cbn [negb orb].
  rewrite to_seconds_lt by lia.
  replace (DNSCache.ttl_ (DNSCache.update tpm t0 h A c0)) with T by reflexivity.
  destruct (Z.ltb_spec (t0 + Chrono.seconds tpm T - t) (Chrono.seconds tpm (T `quot` 5)))
    as [?|_]; [lia|].
  rewrite insert_id by apply update_lookup. reflexivity.
Qed.

Lemma get_after_update_hits_witness :
  DNSCache.get Sample.tpm (10 * Sample.sec) "a.test"
    (DNSCache.update Sample.tpm 0 "a.test" ["192.0.2.1"] (DNSCache.new 0 300))
  = (Some ["192.0.2.1"],
     DNSCache.mk
       (DNSCache.cache_
          (DNSCache.update Sample.tpm 0 "a.test" ["192.0.2.1"] (DNSCache.new 0 300)))
       300 10000 (wrap64 (0 + 1)) 0).
Proof.
  apply (get_after_update_hits Sample.tpm (DNSCache.new 0 300) "a.test" ["192.0.2.1"]
           0 (10 * Sample.sec)); vm_compute; [reflexivity|discriminate].
Defined.

(** X2: a [get] at or after the expiry of a record is a miss: it returns
    nothing, erases the record, counts one miss and no hit. *)
Theorem get_expired_erases (tpm : positive) (c : DNSCache.t) (h : string)
  (r : DNSRecord.t) (t : Z) :
  DNSCache.cache_ c !! h = Some r →
  DNSRecord.expire_time r <= t →
  DNSCache.get tpm t h c
  = (None,
     DNSCache.mk (delete h (DNSCache.cache_ c)) (DNSCache.ttl_ c) (DNSCache.max_size_ c)
       (DNSCache.hits_ c) (wrap64 (DNSCache.misses_ c + 1))).
Proof.
  intros Hr Hexp. unfold DNSCache.get. rewrite Hr. unfold DNSCache.stale.
  destruct (Z.geb_spec t (DNSRecord.expire_time r)); [reflexivity|lia].
Qed.

Lemma get_expired_erases_witness :
  DNSCache.get Sample.tpm (300 * Sample.sec) "a.test"
    (DNSCache.update Sample.tpm 0 "a.test" ["192.0.2.1"] (DNSCache.new 0 300))
  = (None,
     DNSCache.mk
       (delete "a.test"
          (DNSCache.cache_
             (DNSCache.update Sample.tpm 0 "a.test" ["192.0.2.1"] (DNSCache.new 0 300))))
       300 10000 0 (wrap64 (0 + 1))).
Proof.
  apply (get_expired_erases Sample.tpm
           (DNSCache.update Sample.tpm 0 "a.test" ["192.0.2.1"] (DNSCache.new 0 300))
           "a.test"
           (DNSRecord.mk EmptyString ["192.0.2.1"] (0 + Chrono.seconds Sample.tpm 300) true)
           (300 * Sample.sec));
    vm_compute; [reflexivity|discriminate].
Defined.

(** X3: a [get] for a hostname the cache does not hold counts one miss and
    changes nothing else; a [remove] of such a hostname changes nothing at
    all. *)
Theorem absent_host_get_and_remove (tpm : positive) (c : DNSCache.t) (h : string) (t : Z) :
  DNSCache.cache_ c !! h = None →
  DNSCache.get tpm t h c
  = (None,
     DNSCache.mk (DNSCache.cache_ c) (DNSCache.ttl_ c) (DNSCache.max_size_ c)
       (DNSCache.hits_ c) (wrap64 (DNSCache.misses_ c + 1)))
  ∧ DNSCache.remove h c = c.
Proof.
  intros Hr. split.
  - unfold DNSCache.get. by rewrite Hr.
  - unfold DNSCache.remove, DNSCache.with_cache. rewrite delete_id by done. by destruct c.
Qed.

Lemma absent_host_get_and_remove_witness :
  DNSCache.get Sample.tpm 0 "nowhere.test" (DNSCache.new 0 300)
  = (None, DNSCache.mk (DNSCache.cache_ (DNSCache.new 0 300)) 300 10000 0 (wrap64 (0 + 1)))
  ∧ DNSCache.remove "nowhere.test" (DNSCache.new 0 300) = DNSCache.new 0 300.
Proof.
  apply (absent_host_get_and_remove Sample.tpm (DNSCache.new 0 300) "nowhere.test" 0).
  vm_compute. reflexivity.
Defined.

Lemma erase_keys_lookup (ks : list string) (m : gmap string DNSRecord.t) (h : string)
  (r : DNSRecord.t) :
  DNSCache.erase_keys ks m !! h = Some r → m !! h = Some r.
Proof.
  revert m. induction ks as [|k ks IH]; intros m; simpl; [done|].
  intros H. apply IH in H. apply lookup_delete_Some in H. tauto.
Qed.

Lemma cleanup_map_lookup (now max_size : Z) (m : gmap string DNSRecord.t) (h : string)
  (r : DNSRecord.t) :
  DNSCache.cleanup_map now max_size m !! h = Some r →
  m !! h = Some r ∧ DNSCache.stale now r = false.
Proof.
  unfold DNSCache.cleanup_map. intros H.
  assert (Hp : DNSCache.purge now m !! h = Some r).
  { destruct (_ >? _); [by apply erase_keys_lookup in H|done]. }
  unfold DNSCache.purge in Hp. by apply map_lookup_filter_Some in Hp.
Qed.

Lemma evict_one_lookup (m : gmap string DNSRecord.t) (h : string) (r : DNSRecord.t) :
  DNSCache.evict_one m !! h = Some r → m !! h = Some r.
Proof.
  unfold DNSCache.evict_one.
  destruct (DNSCache.min_element (map_to_list m)) as [oldest|].
  - intros H. apply lookup_delete_Some in H. tauto.
  - destruct (map_to_list m) as [|first ?]; [done|].
    intros H. apply lookup_delete_Some in H. tauto.
Qed.

(** X4: [update(h, A)] never alters the record of another hostname: every
    other record found afterwards was there before, unchanged, and is
    neither expired nor marked invalid at the time of the update. *)
Theorem update_keeps_only_live_records (tpm : positive) (now : Z) (h : string)
  (A : list string) (c : DNSCache.t) (h' : string) (r : DNSRecord.t) :
  h' ≠ h →
  DNSCache.cache_ (DNSCache.update tpm now h A c) !! h' = Some r →
  DNSCache.cache_ c !! h' = Some r ∧ now < DNSRecord.expire_time r
  ∧ DNSRecord.is_valid r = true.
Proof.
  intros Hne. unfold DNSCache.update. cbn [DNSCache.with_cache DNSCache.cache_].
  rewrite lookup_insert_ne by done. intros H.
  assert (Hc : DNSCache.cleanup_map now (DNSCache.max_size_ c) (DNSCache.cache_ c) !! h'
               = Some r).
  { destruct (_ >=? _); [by apply evict_one_lookup|done]. }
  apply cleanup_map_lookup in Hc as [Hm Hs]. split; [done|].
  unfold DNSCache.stale in Hs. apply orb_false_elim in Hs as [Hge Hv].
  split; [|by destruct (DNSRecord.is_valid r)].
  destruct (Z.geb_spec now (DNSRecord.expire_time r)); [discriminate|lia].
Qed.

Lemma update_keeps_only_live_records_witness :
  let c := DNSCache.update Sample.tpm 0 "a.test" ["192.0.2.1"] (DNSCache.new 0 300) in
  let r := DNSRecord.mk EmptyString ["192.0.2.1"] (300 * Sample.sec) true in
  DNSCache.cache_ c !! "a.test" = Some r ∧ 10 * Sample.sec < DNSRecord.expire_time r
  ∧ DNSRecord.is_valid r = true.
Proof.
  apply (update_keeps_only_live_records Sample.tpm (10 * Sample.sec) "b.test" ["192.0.2.2"]
           (DNSCache.update Sample.tpm 0 "a.test" ["192.0.2.1"] (DNSCache.new 0 300))
           "a.test").
  - discriminate.
  - vm_compute. reflexivity.
Defined.

Lemma min_element_from_least (best : string * DNSRecord.t)
  (l : list (string * DNSRecord.t)) :
  Forall (λ x, DNSRecord.expire_time (DNSCache.min_element_from best l).2
               <= DNSRecord.expire_time x.2) (best :: l).
Proof.
  revert best. induction l as [|y l IH]; intros best; simpl.
  - repeat constructor. lia.
  - destruct (Z.ltb_spec (DNSRecord.expire_time y.2) (DNSRecord.expire_time best.2))
      as [Hlt|Hge].
    + specialize (IH y). apply Forall_cons in IH as [Hy Hl].
      constructor; [lia|]. by constructor.
    + specialize (IH best). apply Forall_cons in IH as [Hb Hl].
      constructor; [done|]. constructor; [lia|done].
Qed.

(** X5: the eviction step of [update] on a non-empty cache erases exactly
    one record, and no record of the cache expires earlier than the one it
    erases. *)
Theorem evict_one_removes_an_earliest (m : gmap string DNSRecord.t) :
  m ≠ ∅ →
  ∃ k r,
    m !! k = Some r
    ∧ DNSCache.evict_one m = delete k m
    ∧ ∀ k' r', m !! k' = Some r' → DNSRecord.expire_time r <= DNSRecord.expire_time r'.
Proof.
  intros Hne. unfold DNSCache.evict_one, DNSCache.min_element.
  destruct (map_to_list m) as [|x l] eqn:Hl.
  { by apply map_to_list_empty_iff in Hl. }
  pose proof (min_element_from_elem x l) as Hin. rewrite <- Hl in Hin.
  pose proof (min_element_from_least x l) as Hleast.
  destruct (DNSCache.min_element_from x l) as [k r].
  apply elem_of_map_to_list in Hin.
  exists k, r. split; [done|]. split; [done|].
  intros k' r' Hk'. rewrite <- Hl in Hleast.
  apply (proj1 (Forall_forall _ _) Hleast (k', r')). by apply elem_of_map_to_list.
Qed.

Lemma evict_one_removes_an_earliest_witness :
  let a := DNSRecord.mk EmptyString ["192.0.2.1"] 9 true in
  let b := DNSRecord.mk EmptyString ["192.0.2.2"] 5 true in
  let m : gmap string DNSRecord.t := {[ "a.test" := a; "b.test" := b ]} in
  (DNSCache.evict_one m !! "a.test" = Some a ∧ DNSCache.evict_one m !! "b.test" = None)
  ∧ ∃ k r,
      m !! k = Some r
      ∧ DNSCache.evict_one m = delete k m
      ∧ ∀ k' r', m !! k' = Some r' → DNSRecord.expire_time r <= DNSRecord.expire_time r'.
Proof.
  intros a b m. split.
  - split; vm_compute; reflexivity.
  - apply (evict_one_removes_an_earliest m). apply insert_non_empty.
Defined.

Lemma erase_keys_size_exact (ks : list string) (m : gmap string DNSRecord.t) :
  NoDup ks → (∀ k, k ∈ ks → is_Some (m !! k)) →
  size (DNSCache.erase_keys ks m) = (size m - length ks)%nat.
Proof.
  revert m. induction ks as [|k ks IH]; intros m Hnd Hin; simpl; [lia|].
  apply NoDup_cons in Hnd as [Hk Hnd].
  rewrite IH; [|done|].
  - rewrite map_size_delete_Some by (apply Hin, list_elem_of_here). lia.
  - intros k' Hk'. rewrite lookup_delete_ne by (intros ->; done).
    by apply Hin, list_elem_of_further.
Qed.

(** X6: when the records that are neither expired nor invalid number more
    than nine tenths of [max_size_], [cleanup] erases a fifth of them
    (rounded down) on top of the stale ones. *)
Theorem cleanup_bulk_eviction_count (now max_size : Z) (m : gmap string DNSRecord.t) :
  let live := DNSCache.purge now m in
  9 * max_size < 10 * Z.of_nat (size live) →
  Z.of_nat (size (DNSCache.cleanup_map now max_size m))
  = Z.of_nat (size live) - Z.of_nat (size live) / 5.
Proof.
  intros live Hover. unfold DNSCache.cleanup_map. fold live.
  destruct (Z.gtb_spec (10 * Z.of_nat (size live)) (9 * max_size)) as [_|?]; [|lia].
  set (n := Z.to_nat (Z.of_nat (size live) / 5)).
  set (keys := (merge_sort DNSCache.expires_before (DNSCache.expire_times live)).*1).
  assert (Hperm : keys ≡ₚ (map_to_list live).*1).
  { unfold keys. rewrite merge_sort_Permutation. unfold DNSCache.expire_times.
    rewrite <- list_fmap_compose. done. }
  assert (Hlen : length keys = size live).
  { rewrite Hperm, length_fmap. apply length_map_to_list. }
  assert (Hn : (n <= size live)%nat).
  { unfold n. pose proof (Z.div_le_upper_bound (Z.of_nat (size live)) 5 (Z.of_nat (size live))).
    pose proof (Z.div_pos (Z.of_nat (size live)) 5). lia. }
  rewrite erase_keys_size_exact.
  - rewrite length_take, Hlen. unfold n in *.
    pose proof (Z.div_pos (Z.of_nat (size live)) 5). lia.
  - apply (sublist_NoDup _ keys); [|apply sublist_take].
    rewrite Hperm. apply NoDup_fst_map_to_list.
  - intros k Hk. apply (subseteq_take n) in Hk. rewrite Hperm in Hk.
    apply list_elem_of_fmap in Hk as ((k' & r) & -> & Hk).
    apply elem_of_map_to_list in Hk. eauto.
Qed.

Lemma cleanup_bulk_eviction_count_witness :
  let m : gmap string DNSRecord.t :=
    list_to_map ((λ h, (h, DNSRecord.mk EmptyString [] 100 true))
                   <$> ["a"; "b"; "c"; "d"; "e"; "f"]) in
  Z.of_nat (size (DNSCache.cleanup_map 0 6 m))
  = Z.of_nat (size (DNSCache.purge 0 m)) - Z.of_nat (size (DNSCache.purge 0 m)) / 5.
Proof.
  apply (cleanup_bulk_eviction_count 0 6
           (list_to_map ((λ h, (h, DNSRecord.mk EmptyString [] 100 true))
                           <$> ["a"; "b"; "c"; "d"; "e"; "f"]))).
  vm_compute. reflexivity.
Defined.



(** ** DNSCachePersistor *)

(** X8: one record written by [save] ([serializeRecord], then the hostname
    member set to the cache key) and read back by [deserializeRecord] keeps
    the hostname, the address sequence and the valid flag; its expiry is
    rounded down to a whole second. *)
Theorem record_round_trip (tpm : positive) (h : string) (r : DNSRecord.t) :
  0 <= DNSRecord.expire_time r →
  ∃ r',
    (Json.set DNSCachePersistor.CACHE_RECORDS_FIELD_NAME_HOSTNAME (Json.Str h)
       (DNSCachePersistor.serializeRecord tpm r)
     ≫= DNSCachePersistor.deserializeRecord tpm) = Some r'
    ∧ DNSRecord.hostname r' = h
    ∧ DNSRecord.ip_addresses r' = DNSRecord.ip_addresses r
    ∧ DNSRecord.is_valid r' = DNSRecord.is_valid r
    ∧ DNSRecord.expire_time r' <= DNSRecord.expire_time r
      < DNSRecord.expire_time r' + Chrono.ticks_per_second tpm.
Proof.
  intros Hnonneg.
  change (Json.set DNSCachePersistor.CACHE_RECORDS_FIELD_NAME_HOSTNAME (Json.Str h)
            (DNSCachePersistor.serializeRecord tpm r))
    with (Some (CacheOps.record_json tpm (h, r))).
  cbn [mbind option_bind]. rewrite deserialize_record_json.
  eexists. split; [reflexivity|]. cbn [DNSRecord.hostname DNSRecord.ip_addresses
    DNSRecord.is_valid DNSRecord.expire_time fst snd].
  repeat split; try reflexivity.
  - unfold Chrono.from_time_t, Chrono.seconds, Chrono.to_seconds.
    pose proof (ticks_per_second_pos tpm) as Hpos.
    rewrite Z.quot_div_nonneg by lia.
    pose proof (Z.mul_div_le (DNSRecord.expire_time r) (Chrono.ticks_per_second tpm) Hpos).
    lia.
  - unfold Chrono.from_time_t, Chrono.seconds, Chrono.to_seconds.
    pose proof (ticks_per_second_pos tpm) as Hpos.
    rewrite Z.quot_div_nonneg by lia.
    pose proof (Z.mul_succ_div_gt (DNSRecord.expire_time r) (Chrono.ticks_per_second tpm) Hpos).
    lia.
Qed.

Lemma record_round_trip_witness :
  ∃ r',
    (Json.set DNSCachePersistor.CACHE_RECORDS_FIELD_NAME_HOSTNAME (Json.Str "a.test")
       (DNSCachePersistor.serializeRecord Sample.tpm
          (DNSRecord.mk EmptyString ["192.0.2.1"] 1500000000 true))
     ≫= DNSCachePersistor.deserializeRecord Sample.tpm) = Some r'
    ∧ DNSRecord.hostname r' = "a.test"
    ∧ DNSRecord.ip_addresses r' = ["192.0.2.1"]
    ∧ DNSRecord.is_valid r' = true
    ∧ DNSRecord.expire_time r' <= 1500000000
      < DNSRecord.expire_time r' + Chrono.ticks_per_second Sample.tpm.
Proof.
  apply (record_round_trip Sample.tpm "a.test"
           (DNSRecord.mk EmptyString ["192.0.2.1"] 1500000000 true)).
  vm_compute. discriminate.
Defined.

(** X9: a record object that lacks one of the four members is skipped by
    [load]: it neither fails the load nor touches the cache. *)
Theorem load_skips_incomplete_record (tpm : positive) (now : Z) (j : Json.t)
  (rest : list Json.t) (c : DNSCache.t) :
  Json.contains DNSCachePersistor.CACHE_RECORDS_FIELD_NAME_HOSTNAME j
  && Json.contains DNSCachePersistor.CACHE_RECORDS_FIELD_NAME_IP j
  && Json.contains DNSCachePersistor.CACHE_RECORDS_FIELD_NAME_EXPIRE_TIME j
  && Json.contains DNSCachePersistor.CACHE_RECORDS_FIELD_NAME_IS_VALID j = false →
  DNSCachePersistor.load_records tpm now (j :: rest) c
  = DNSCachePersistor.load_records tpm now rest c.
Proof.
  intros Hmissing. cbn [DNSCachePersistor.load_records].
  unfold DNSCachePersistor.deserializeRecord.
  destruct (Json.contains DNSCachePersistor.CACHE_RECORDS_FIELD_NAME_HOSTNAME j);
  destruct (Json.contains DNSCachePersistor.CACHE_RECORDS_FIELD_NAME_IP j);
  destruct (Json.contains DNSCachePersistor.CACHE_RECORDS_FIELD_NAME_EXPIRE_TIME j);
  destruct (Json.contains DNSCachePersistor.CACHE_RECORDS_FIELD_NAME_IS_VALID j);
  try discriminate; reflexivity.
Qed.

Lemma load_skips_incomplete_record_witness :
  DNSCachePersistor.load_records Sample.tpm 0
    [Json.Obj [("hostname", Json.Str "a.test"); ("is_valid", Json.Bool true)]]
    (DNSCache.new 0 300)
  = DNSCachePersistor.load_records Sample.tpm 0 [] (DNSCache.new 0 300).
Proof.
  apply (load_skips_incomplete_record Sample.tpm 0
           (Json.Obj [("hostname", Json.Str "a.test"); ("is_valid", Json.Bool true)])
           [] (DNSCache.new 0 300)).
  vm_compute. reflexivity.
Defined.

(** X10: a file that [isValidCache] rejects is rejected by [load] as well,
    and [load] leaves the cache as it was; so every file that [load]
    accepts passes [isValidCache] at that instant. *)
Theorem load_rejects_what_isValidCache_rejects (tpm : positive) (now : Z)
  (file : option Json.t) (c : DNSCache.t) :
  DNSCachePersistor.isValidCache tpm now file = false →
  DNSCachePersistor.load tpm now file c = (false, c).
Proof.
  unfold DNSCachePersistor.isValidCache, DNSCachePersistor.load.
  destruct file as [cache_data|]; [|done].
  destruct (Json.contains DNSCachePersistor.CACHE_FIELD_NAME_VERSION cache_data);
    [|done].
  destruct (negb (from_option _ false _));
    [by destruct (negb _ || negb _ || negb _)|].
  destruct (Json.contains DNSCachePersistor.CACHE_FIELD_NAME_TIMESTAMP cache_data);
    [|done].
  cbn [negb orb].
  destruct (_ ≫= Json.get_int64) as [timestamp|];
    [|by destruct (negb _)].
  destruct (_ >? _); [done|].
  destruct (Json.contains DNSCachePersistor.CACHE_FIELD_NAME_RECORDS cache_data) eqn:Hrec;
    [discriminate|].
  intros _. unfold Json.contains in Hrec. unfold Json.at_key.
  destruct cache_data; try done.
  destruct (Json.lookup DNSCachePersistor.CACHE_FIELD_NAME_RECORDS members); [|done].
  apply bool_decide_eq_false in Hrec. destruct Hrec. eauto.
Qed.

Lemma load_rejects_what_isValidCache_rejects_witness :
  DNSCachePersistor.load Sample.tpm 0
    (Some (Json.Obj [("version", Json.Str "2.0"); ("timestamp", Json.Int 0);
                     ("records", Json.Arr [])]))
    (DNSCache.new 0 300)
  = (false, DNSCache.new 0 300).
Proof.
  apply (load_rejects_what_isValidCache_rejects Sample.tpm 0
           (Some (Json.Obj [("version", Json.Str "2.0"); ("timestamp", Json.Int 0);
                            ("records", Json.Arr [])]))
           (DNSCache.new 0 300)).
  vm_compute. reflexivity.
Defined.

(** ** DNSMetrics *)

Lemma keep_last_spec {A : Type} (bound : nat) (l : list A) :
  (length (DNSMetrics.keep_last bound l) <= max bound 0)%nat
  ∧ DNSMetrics.keep_last bound l `suffix_of` l
  ∧ length (DNSMetrics.keep_last bound l) = min bound (length l).
Proof.
  unfold DNSMetrics.keep_last. destruct (decide (bound < length l)%nat).
  - rewrite length_drop. split; [lia|]. split; [apply suffix_drop|lia].
  - split; [lia|]. split; [done|lia].
Qed.

Lemma suffix_snoc_last {A : Type} (k l : list A) (x : A) :
  k `suffix_of` l ++ [x] → k ≠ [] → last k = Some x.
Proof.
  intros [pre Hpre] Hne.
  induction k as [|y k' _] using rev_ind; [done|].
  rewrite app_assoc in Hpre. apply app_inj_tail in Hpre as [_ ->].
  apply last_snoc.
Qed.

(** X11: after [recordServerLatency(server, latency)] the server's sample
    buffer holds at most 1000 samples, ends with the new sample, and is the
    tail of the previous buffer extended by it; no other server's buffer
    changes. *)
Theorem recordServerLatency_keeps_last_samples (server : string) (latency : Z)
  (m : DNSMetrics.t) :
  let before := default [] (DNSMetrics.server_latencies_ m !! server) in
  let m' := (DNSMetrics.recordServerLatency server latency m).1 in
  ∃ after,
    DNSMetrics.server_latencies_ m' !! server = Some after
    ∧ (length after <= 1000)%nat
    ∧ last after = Some latency
    ∧ after `suffix_of` before ++ [latency]
    ∧ ∀ other, other ≠ server →
        DNSMetrics.server_latencies_ m' !! other = DNSMetrics.server_latencies_ m !! other.
Proof.
  intros before m'. subst m'. unfold DNSMetrics.recordServerLatency.
  cbn [fst DNSMetrics.set_maps DNSMetrics.server_latencies_]. fold before.
  destruct (keep_last_spec DNSMetrics.MAX_SAMPLES (before ++ [latency]))
    as (Hlen & Hsuf & Hmin).
  eexists. split; [apply lookup_insert_eq|].
  split; [exact Hlen|]. split; [|split; [exact Hsuf|]].
  - apply (suffix_snoc_last _ before); [done|].
    intros Hnil. rewrite Hnil, length_app in Hmin. cbn [length] in Hmin.
    unfold DNSMetrics.MAX_SAMPLES in Hmin. lia.
  - intros other Hne. by rewrite lookup_insert_ne.
Qed.

(** X12: [recordRetry(hostname, attempt)] adds one to the retry total and
    keeps, per hostname, the last 100 attempt numbers, the new one last. *)
Theorem recordRetry_keeps_last_attempts (hostname : string) (attempt : Z)
  (m : DNSMetrics.t) :
  let before := default [] (DNSMetrics.retry_attempts_ m !! hostname) in
  let m' := DNSMetrics.recordRetry hostname attempt m in
  DNSMetrics.total_retries_ m' = DNSMetrics.total_retries_ m + 1
  ∧ ∃ after,
      DNSMetrics.retry_attempts_ m' !! hostname = Some after
      ∧ (length after <= 100)%nat
      ∧ last after = Some attempt
      ∧ after `suffix_of` before ++ [attempt].
Proof.
  intros before m'. subst m'. unfold DNSMetrics.recordRetry.
  cbn [DNSMetrics.set_maps DNSMetrics.retry_attempts_ DNSMetrics.total_retries_].
  fold before. split; [done|].
  destruct (keep_last_spec DNSMetrics.MAX_RETRY_HISTORY (before ++ [attempt]))
    as (Hlen & Hsuf & Hmin).
  eexists. split; [apply lookup_insert_eq|].
  split; [exact Hlen|]. split; [|exact Hsuf].
  apply (suffix_snoc_last _ before); [done|].
  intros Hnil. rewrite Hnil, length_app in Hmin. cbn [length] in Hmin.
  unfold DNSMetrics.MAX_RETRY_HISTORY in Hmin. lia.
Qed.

Lemma record_counters (m : DNSMetrics.t) (e : MetricsOps.recording) :
  let m' := MetricsOps.record m e in
  DNSMetrics.successful_queries_ m'
    = DNSMetrics.successful_queries_ m + MetricsOps.count MetricsOps.is_success [e]
  ∧ DNSMetrics.failed_queries_ m'
    = DNSMetrics.failed_queries_ m + MetricsOps.count MetricsOps.is_failure [e]
  ∧ DNSMetrics.total_queries_ m'
    = DNSMetrics.total_queries_ m + MetricsOps.count MetricsOps.is_success [e]
      + MetricsOps.count MetricsOps.is_failure [e]
  ∧ DNSMetrics.cache_hits_ m'
    = DNSMetrics.cache_hits_ m + MetricsOps.count MetricsOps.is_hit [e]
  ∧ DNSMetrics.cache_misses_ m'
    = DNSMetrics.cache_misses_ m + MetricsOps.count MetricsOps.is_miss [e]
  ∧ DNSMetrics.total_retries_ m'
    = DNSMetrics.total_retries_ m + MetricsOps.count MetricsOps.is_retry [e].
Proof.
  destruct e as [h d [|]|h|h|s l|t d|h a|]; unfold MetricsOps.count; simpl;
    unfold DNSMetrics.recordCacheHit, DNSMetrics.recordCacheMiss,
      DNSMetrics.updateCacheHitRate; simpl;
    try destruct (_ >? 0); simpl; repeat split; lia.
Qed.

Lemma count_cons (kind : MetricsOps.recording → bool) (e : MetricsOps.recording)
  (es : list MetricsOps.recording) :
  MetricsOps.count kind (e :: es) = MetricsOps.count kind [e] + MetricsOps.count kind es.
Proof. unfold MetricsOps.count. simpl. destruct (kind e); simpl; lia. Qed.

(** X13: after any sequence of recordings on a fresh metrics object, each
    counter equals the number of recordings of its kind, the query total is
    the sum of the successes and the failures, and [resetStats] resets none
    of them. *)
Theorem counters_count_recordings (es : list MetricsOps.recording) :
  let m := MetricsOps.run es DNSMetrics.new in
  DNSMetrics.successful_queries_ m = MetricsOps.count MetricsOps.is_success es
  ∧ DNSMetrics.failed_queries_ m = MetricsOps.count MetricsOps.is_failure es
  ∧ DNSMetrics.total_queries_ m
    = DNSMetrics.successful_queries_ m + DNSMetrics.failed_queries_ m
  ∧ DNSMetrics.cache_hits_ m = MetricsOps.count MetricsOps.is_hit es
  ∧ DNSMetrics.cache_misses_ m = MetricsOps.count MetricsOps.is_miss es
  ∧ DNSMetrics.total_retries_ m = MetricsOps.count MetricsOps.is_retry es.
Proof.
  assert (Hgen : ∀ m0,
    let m := MetricsOps.run es m0 in
    DNSMetrics.successful_queries_ m
      = DNSMetrics.successful_queries_ m0 + MetricsOps.count MetricsOps.is_success es
    ∧ DNSMetrics.failed_queries_ m
      = DNSMetrics.failed_queries_ m0 + MetricsOps.count MetricsOps.is_failure es
    ∧ DNSMetrics.total_queries_ m
      = DNSMetrics.total_queries_ m0 + MetricsOps.count MetricsOps.is_success es
        + MetricsOps.count MetricsOps.is_failure es
    ∧ DNSMetrics.cache_hits_ m
      = DNSMetrics.cache_hits_ m0 + MetricsOps.count MetricsOps.is_hit es
    ∧ DNSMetrics.cache_misses_ m
      = DNSMetrics.cache_misses_ m0 + MetricsOps.count MetricsOps.is_miss es
    ∧ DNSMetrics.total_retries_ m
      = DNSMetrics.total_retries_ m0 + MetricsOps.count MetricsOps.is_retry es).
  { induction es as [|e es IH]; intros m0.
    - unfold MetricsOps.count. simpl. repeat split; lia.
    - unfold MetricsOps.run in *. cbn [foldl].
      destruct (IH (MetricsOps.record m0 e)) as (H1 & H2 & H3 & H4 & H5 & H6).
      destruct (record_counters m0 e) as (E1 & E2 & E3 & E4 & E5 & E6).
      rewrite !(count_cons _ e es). cbv zeta. repeat split; lia. }
  destruct (Hgen DNSMetrics.new) as (H1 & H2 & H3 & H4 & H5 & H6).
  cbn [DNSMetrics.new DNSMetrics.successful_queries_ DNSMetrics.failed_queries_
       DNSMetrics.total_queries_ DNSMetrics.cache_hits_ DNSMetrics.cache_misses_
       DNSMetrics.total_retries_] in *.
  cbv zeta. repeat split; lia.
Qed.

(** The cache counters after a sequence of recordings. *)
Lemma run_cache_counters (es : list MetricsOps.recording) (m0 : DNSMetrics.t) :
  DNSMetrics.cache_hits_ (MetricsOps.run es m0)
  = DNSMetrics.cache_hits_ m0 + MetricsOps.count MetricsOps.is_hit es
  ∧ DNSMetrics.cache_misses_ (MetricsOps.run es m0)
    = DNSMetrics.cache_misses_ m0 + MetricsOps.count MetricsOps.is_miss es.
Proof.
  revert m0. induction es as [|e es IH]; intros m0.
  - unfold MetricsOps.count. simpl. lia.
  - unfold MetricsOps.run in *. cbn [foldl].
    destruct (IH (MetricsOps.record m0 e)) as [Hh Hm].
    destruct (record_counters m0 e) as (_ & _ & _ & E4 & E5 & _).
    rewrite !(count_cons _ e es). cbv zeta in *. lia.
Qed.

Lemma count_nonneg (kind : MetricsOps.recording → bool) (es : list MetricsOps.recording) :
  0 <= MetricsOps.count kind es.
Proof. unfold MetricsOps.count. lia. Qed.

(** Every recording leaves the gauge equal to the quotient of the counters
    as [double] division rounds it. *)
Lemma record_gauge (m : DNSMetrics.t) (e : MetricsOps.recording) :
  0 <= DNSMetrics.cache_hits_ m → 0 <= DNSMetrics.cache_misses_ m →
  DNSMetrics.cache_hit_rate_ m
  = (if DNSMetrics.cache_hits_ m + DNSMetrics.cache_misses_ m >? 0
     then Binary64.div (DNSMetrics.cache_hits_ m)
            (DNSMetrics.cache_hits_ m + DNSMetrics.cache_misses_ m)
     else 0%Q) →
  let m' := MetricsOps.record m e in
  0 <= DNSMetrics.cache_hits_ m' ∧ 0 <= DNSMetrics.cache_misses_ m'
  ∧ DNSMetrics.cache_hit_rate_ m'
    = (if DNSMetrics.cache_hits_ m' + DNSMetrics.cache_misses_ m' >? 0
       then Binary64.div (DNSMetrics.cache_hits_ m')
              (DNSMetrics.cache_hits_ m' + DNSMetrics.cache_misses_ m')
       else 0%Q).
Proof.
  intros Hh Hm Hg.
  destruct e as [h d ok|h|h|s l|t d|h a|]; simpl; try (by repeat split).
  - unfold DNSMetrics.recordCacheHit, DNSMetrics.updateCacheHitRate. simpl.
    destruct (Z.gtb_spec (DNSMetrics.cache_hits_ m + 1 + DNSMetrics.cache_misses_ m) 0);
      [|lia].
    simpl. destruct (Z.gtb_spec (DNSMetrics.cache_hits_ m + 1 + DNSMetrics.cache_misses_ m) 0);
      [|lia].
    repeat split; lia.
  - unfold DNSMetrics.recordCacheMiss, DNSMetrics.updateCacheHitRate. simpl.
    destruct (Z.gtb_spec (DNSMetrics.cache_hits_ m + (DNSMetrics.cache_misses_ m + 1)) 0);
      [|lia].
    simpl.
    destruct (Z.gtb_spec (DNSMetrics.cache_hits_ m + (DNSMetrics.cache_misses_ m + 1)) 0);
      [|lia].
    repeat split; lia.
Qed.

Lemma run_gauge (es : list MetricsOps.recording) (m0 : DNSMetrics.t) :
  0 <= DNSMetrics.cache_hits_ m0 → 0 <= DNSMetrics.cache_misses_ m0 →
  DNSMetrics.cache_hit_rate_ m0
  = (if DNSMetrics.cache_hits_ m0 + DNSMetrics.cache_misses_ m0 >? 0
     then Binary64.div (DNSMetrics.cache_hits_ m0)
            (DNSMetrics.cache_hits_ m0 + DNSMetrics.cache_misses_ m0)
     else 0%Q) →
  let m := MetricsOps.run es m0 in
  DNSMetrics.cache_hit_rate_ m
  = (if DNSMetrics.cache_hits_ m + DNSMetrics.cache_misses_ m >? 0
     then Binary64.div (DNSMetrics.cache_hits_ m)
            (DNSMetrics.cache_hits_ m + DNSMetrics.cache_misses_ m)
     else 0%Q).
Proof.
  revert m0. induction es as [|e es IH]; intros m0 Hh Hm Hg; [exact Hg|].
  unfold MetricsOps.run in *. cbn [foldl].
  destruct (record_gauge m0 e Hh Hm Hg) as (Hh' & Hm' & Hg').
  by apply IH.
Qed.

(** Rounding to the nearest integer moves a quotient by at most a half. *)
Lemma nearest_even_near (n d : Z) :
  0 < d → 2 * Z.abs (Binary64.nearest_even n d * d - n) <= d.
Proof.
  intros Hd. unfold Binary64.nearest_even.
  pose proof (Z.div_mod n d ltac:(lia)) as Hdm.
  pose proof (Z.mod_pos_bound n d Hd) as Hr.
  destruct (Z.compare_spec (2 * (n mod d)) d) as [He|Hl|Hg];
    [destruct (Z.even (n / d))|..]; nia.
Qed.

(** A proper fraction has a negative binary exponent. *)
Lemma ilog2_proper (x y : Z) : 0 < x < y → Binary64.ilog2 x y <= -1.
Proof.
  intros Hxy. unfold Binary64.ilog2.
  pose proof (Z.log2_le_mono x y ltac:(lia)) as Hmono.
  destruct (Z.leb_spec 0 (Z.log2 x - Z.log2 y)) as [Hk|Hk].
  - replace (Z.log2 x - Z.log2 y) with 0 by lia.
    destruct (Z.leb_spec (y * 2 ^ 0) x); lia.
  - destruct (_ <=? _); lia.
Qed.

(** [double] division of [x] by [y], for [0 <= x <= y], is within [2^-54]
    of the exact quotient. *)
Lemma Binary64_div_error (x y : Z) :
  0 <= x <= y → 0 < y →
  (Qabs (Binary64.div x y - inject_Z x / inject_Z y) <= 1 # 2 ^ 54)%Q.
Proof.
  intros Hxy Hy. unfold Binary64.div.
  destruct (Z.eqb_spec x 0) as [->|Hx0].
  { unfold Qdiv. rewrite Qmult_0_l. vm_compute. discriminate. }
  rewrite Qred_correct.
  set (scale := Binary64.precision - 1 - Binary64.ilog2 x y).
  set (m := Binary64.nearest_even (x * 2 ^ scale) y).
  pose proof (nearest_even_near (x * 2 ^ scale) y Hy) as Hnear. fold m in Hnear.
  assert (Hscale : 52 <= scale ∧ (x < y → 53 <= scale)).
  { subst scale. unfold Binary64.precision. split.
    - destruct (Z.eq_dec x y) as [->|Hne].
      + unfold Binary64.ilog2. rewrite Z.sub_diag. cbn [Z.leb Z.compare].
        rewrite Z.pow_0_r, Z.mul_1_r, Z.leb_refl. lia.
      + pose proof (ilog2_proper x y ltac:(lia)). lia.
    - intros Hlt. pose proof (ilog2_proper x y ltac:(lia)). lia. }
  destruct Hscale as [H52 H53].
  assert (Hpow : 0 < 2 ^ scale) by (apply Z.pow_pos_nonneg; lia).
  destruct y as [|py|py]; try lia.
  rewrite <- (Qmake_Qdiv x py).
  apply Qabs_Qle_condition.
  unfold Qle, Qminus, Qplus, Qopp. cbn [Qnum Qden].
  rewrite !Pos2Z.inj_mul, Z2Pos.id by lia.
  change (Z.pos (2 ^ 54)) with (2 ^ 54).
  destruct (Z.eq_dec x (Z.pos py)) as [Heq|Hne].
  - assert (Hm : m * Z.pos py = x * 2 ^ scale).
    { subst m. unfold Binary64.nearest_even. rewrite Heq.
      rewrite (Z.mul_comm (Z.pos py)), Z.mod_mul, Z.div_mul by lia. change (2 * 0 ?= Z.pos py) with Lt. lia. }
    split; nia.
  - assert (Hge : 2 ^ 53 <= 2 ^ scale).
    { apply Z.pow_le_mono_r; lia. }
    change (2 ^ 54) with (2 * 2 ^ 53).
    split; nia.
Qed.

(** X14: while fewer than [2^53] recordings have been made on a fresh
    metrics object (the counters, which are [double]s, are then exact), the
    hit-rate gauge holds the quotient hits / (hits + misses) of the
    recordings made so far, as [double] division rounds it, which is within
    [2^-54] of the exact quotient; it holds 0 while there has been neither a
    hit nor a miss. *)
Theorem gauge_is_rounded_hit_rate (es : list MetricsOps.recording) :
  Z.of_nat (length es) < 2 ^ 53 →
  let m := MetricsOps.run es DNSMetrics.new in
  let hits := MetricsOps.count MetricsOps.is_hit es in
  let total := hits + MetricsOps.count MetricsOps.is_miss es in
  DNSMetrics.cache_hit_rate_ m = (if total >? 0 then Binary64.div hits total else 0%Q)
  ∧ (0 < total →
     (Qabs (DNSMetrics.cache_hit_rate_ m - inject_Z hits / inject_Z total)
      <= 1 # 2 ^ 54)%Q).
Proof.
  intros _ m hits total.
  destruct (run_cache_counters es DNSMetrics.new) as [Hh Hm].
  cbn [DNSMetrics.new DNSMetrics.cache_hits_ DNSMetrics.cache_misses_] in Hh, Hm.
  assert (Hg : DNSMetrics.cache_hit_rate_ m
               = (if total >? 0 then Binary64.div hits total else 0%Q)).
  { pose proof (run_gauge es DNSMetrics.new) as Hrun. cbv zeta in Hrun.
    subst m hits total. rewrite Hrun by (simpl; (lia || reflexivity)).
    rewrite Hh, Hm. reflexivity. }
  split; [exact Hg|].
  intros Htotal. rewrite Hg.
  destruct (Z.gtb_spec total 0) as [_|?]; [|lia].
  pose proof (count_nonneg MetricsOps.is_hit es).
  pose proof (count_nonneg MetricsOps.is_miss es).
  apply Binary64_div_error; subst hits total; lia.
Qed.

Lemma gauge_is_rounded_hit_rate_witness :
  let es := [MetricsOps.CacheHit "a.test"; MetricsOps.CacheMiss "b.test";
             MetricsOps.CacheMiss "c.test"] in
  let m := MetricsOps.run es DNSMetrics.new in
  DNSMetrics.cache_hit_rate_ m = (6004799503160661 # 18014398509481984)%Q
  ∧ (Qabs (DNSMetrics.cache_hit_rate_ m - inject_Z 1 / inject_Z 3) <= 1 # 2 ^ 54)%Q.
Proof.
  intros es m.
  destruct (gauge_is_rounded_hit_rate es) as [Hg Herr].
  { vm_compute. reflexivity. }
  split.
  - etransitivity; [exact Hg|]. vm_compute. reflexivity.
  - apply Herr. vm_compute. reflexivity.
Defined.

(** X15: [setAlertThresholds] with an error-rate threshold outside [0,1]
    throws and changes nothing; with a threshold inside [0,1] and a positive
    latency threshold it throws nothing and stores both. *)
Theorem setAlertThresholds_rejects_or_stores (error_rate_threshold : Q)
  (latency_threshold : Z) (m : DNSMetrics.t) :
  ((error_rate_threshold < 0)%Q ∨ (1 < error_rate_threshold)%Q →
   ∃ what,
     DNSMetrics.setAlertThresholds error_rate_threshold latency_threshold m
     = (Some (invalid_argument what), m))
  ∧ ((0 <= error_rate_threshold)%Q → (error_rate_threshold <= 1)%Q →
     0 < latency_threshold →
     DNSMetrics.setAlertThresholds error_rate_threshold latency_threshold m
     = (None, DNSMetrics.set_thresholds error_rate_threshold latency_threshold m)).
Proof.
  unfold DNSMetrics.setAlertThresholds. split.
  - intros [Hlt|Hgt].
    + destruct (Qlt_le_dec error_rate_threshold 0) as [_|Hle]; [eauto|].
      exfalso. apply (Qlt_not_le _ _ Hlt Hle).
    + destruct (Qlt_le_dec error_rate_threshold 0) as [_|_]; [eauto|].
      destruct (Qlt_le_dec 1 error_rate_threshold) as [_|Hle]; [eauto|].
      exfalso. apply (Qlt_not_le _ _ Hgt Hle).
  - intros H0 H1 Hl.
    destruct (Qlt_le_dec error_rate_threshold 0) as [Hlt|_].
    { exfalso. apply (Qlt_not_le _ _ Hlt H0). }
    destruct (Qlt_le_dec 1 error_rate_threshold) as [Hgt|_].
    { exfalso. apply (Qlt_not_le _ _ Hgt H1). }
    destruct (Z.leb_spec latency_threshold 0); [lia|]. reflexivity.
Qed.

Lemma setAlertThresholds_rejects_or_stores_witness :
  (∃ what,
     DNSMetrics.setAlertThresholds 2 20 DNSMetrics.new
     = (Some (invalid_argument what), DNSMetrics.new))
  ∧ DNSMetrics.setAlertThresholds (1 # 2) 20 DNSMetrics.new
    = (None, DNSMetrics.set_thresholds (1 # 2) 20 DNSMetrics.new).
Proof.
  split.
  - apply (proj1 (setAlertThresholds_rejects_or_stores 2 20 DNSMetrics.new)).
    right. vm_compute. reflexivity.
  - apply (proj2 (setAlertThresholds_rejects_or_stores (1 # 2) 20 DNSMetrics.new));
      vm_compute; (discriminate || reflexivity).
Defined.

(** ** DNSEventManager *)

(** X16: with subscribers that return or throw an exception derived from
    [std::exception] (the subscribers of this model; an exception of another
    type is not caught and is not covered here), [notifyAddressChanged]
    invokes every registered listener and then every registered callback
    exactly once with the event, as many subscribers as [getListenerCount]
    reports.  Neither a listener's enabled flag nor the paused flag keeps a
    subscriber from being invoked, and the exception caught from one
    subscriber, which the delivery records, does not end the delivery to
    the others. *)
Theorem notify_reaches_every_subscriber (event : DNSAddressEvent.t)
  (mgr : DNSEventManager.t) :
  let deliveries := DNSEventManager.notifyAddressChanged event mgr in
  DNSEventManager.to_name <$> deliveries
  = (map_to_list (DNSEventManager.listeners_ mgr)).*1
    ++ (map_to_list (DNSEventManager.callbacks_ mgr)).*1
  ∧ Z.of_nat (length deliveries) = DNSEventManager.getListenerCount mgr
  ∧ Forall (λ d, DNSEventManager.delivered d = event) deliveries
  ∧ (∀ name listener,
       DNSEventManager.listeners_ mgr !! name = Some listener →
       DNSEventManager.mkDelivery DNSEventManager.Listener name event
         (DNSEventManager.onAddressChanged listener event) ∈ deliveries)
  ∧ (∀ name callback,
       DNSEventManager.callbacks_ mgr !! name = Some callback →
       DNSEventManager.mkDelivery DNSEventManager.Callback name event (callback event)
       ∈ deliveries).
Proof.
  intros deliveries. subst deliveries. unfold DNSEventManager.notifyAddressChanged.
  split; [|split; [|split; [|split]]].
  - rewrite fmap_app, <- !list_fmap_compose. done.
  - rewrite length_app, !length_fmap, !length_map_to_list.
    unfold DNSEventManager.getListenerCount. lia.
  - apply Forall_app. split; apply Forall_fmap, Forall_forall; done.
  - intros name listener Hl. apply elem_of_app. left.
    apply list_elem_of_fmap. exists (name, listener). split; [done|].
    by apply elem_of_map_to_list.
  - intros name callback Hc. apply elem_of_app. right.
    apply list_elem_of_fmap. exists (name, callback). split; [done|].
    by apply elem_of_map_to_list.
Qed.

(** X17: [registerListener] keeps one listener per name: the name then
    maps to the new listener, and the subscriber count grows by one exactly
    when the name was not registered before, in which case
    [unregisterListener] restores the manager. *)
Theorem registerListener_one_per_name (listener : DNSEventManager.DnsEventListener)
  (mgr : DNSEventManager.t) :
  let name := DNSEventManager.getName listener in
  let mgr' := DNSEventManager.registerListener listener mgr in
  DNSEventManager.listeners_ mgr' !! name = Some listener
  ∧ DNSEventManager.getListenerCount mgr'
    = DNSEventManager.getListenerCount mgr
      + match DNSEventManager.listeners_ mgr !! name with Some _ => 0 | None => 1 end
  ∧ (DNSEventManager.listeners_ mgr !! name = None →
     DNSEventManager.unregisterListener name mgr' = mgr).
Proof.
  intros name mgr'. subst name mgr'.
  unfold DNSEventManager.registerListener, DNSEventManager.unregisterListener,
    DNSEventManager.getListenerCount.
  cbn [DNSEventManager.listeners_ DNSEventManager.callbacks_ DNSEventManager.paused_
       DNSEventManager.event_queue_ DNSEventManager.filters_].
  split; [apply lookup_insert_eq|]. split.
  - destruct (DNSEventManager.listeners_ mgr !! DNSEventManager.getName listener) eqn:Hl.
    + rewrite map_size_insert_Some by eauto. lia.
    + rewrite map_size_insert_None by done. lia.
  - intros Hnone. rewrite delete_insert_id by done. by destruct mgr.
Qed.

(** ** DNSConfigValidator *)

Lemma has_duplicate_address_false (seen : gset string) (l : list DNSServerConfig.t) :
  DNSConfigValidator.has_duplicate_address seen l = false →
  NoDup (DNSServerConfig.address <$> l)
  ∧ ∀ a, a ∈ DNSServerConfig.address <$> l → a ∉ seen.
Proof.
  revert seen. induction l as [|server l IHl]; intros seen; simpl.
  - intros _. split; [constructor|]. intros a Ha. by apply elem_of_nil in Ha.
  - case_bool_decide as Hin; [discriminate|]. intros H.
    apply IHl in H as [Hnd Hfresh]. split.
    + constructor; [|done]. intros Ha. apply Hfresh in Ha.
      apply Ha, elem_of_union_l, elem_of_singleton. done.
    + intros a Ha. apply elem_of_cons in Ha as [->|Ha]; [done|].
      apply Hfresh in Ha. intros Hs. by apply Ha, elem_of_union_r.
Qed.

Lemma validateServerList_ok (env : Env.t) (l : list DNSServerConfig.t) :
  DNSConfigValidator.validateServerList env l = None →
  Forall (λ s, DNSConfigValidator.validateServer env s = None) l.
Proof.
  induction l as [|s l IHl]; simpl; [constructor|].
  destruct (DNSConfigValidator.validateServer env s) eqn:Hs; [discriminate|].
  intros H. constructor; [done|by apply IHl].
Qed.

Lemma validateServer_ok (env : Env.t) (s : DNSServerConfig.t) :
  DNSConfigValidator.validateServer env s = None →
  Env.inet_pton_ok env (DNSServerConfig.address s) = true
  ∧ DNSServerConfig.port s ≠ 0 ∧ DNSServerConfig.port s <= 65535
  ∧ 100 <= DNSServerConfig.timeout_ms s <= 10000
  ∧ 1 <= DNSServerConfig.weight s <= 100.
Proof.
  unfold DNSConfigValidator.validateServer, DNSConfigValidator.isValidIpAddress.
  destruct (Env.inet_pton_ok env (DNSServerConfig.address s)); [|discriminate].
  cbn [negb].
  destruct (Z.eqb_spec (DNSServerConfig.port s) 0); [discriminate|].
  destruct (Z.gtb_spec (DNSServerConfig.port s) 65535); [discriminate|].
  cbn [orb].
  destruct (Z.ltb_spec (DNSServerConfig.timeout_ms s) 100); [discriminate|].
  destruct (Z.gtb_spec (DNSServerConfig.timeout_ms s) 10000); [discriminate|].
  cbn [orb].
  destruct (Z.ltb_spec (DNSServerConfig.weight s) 1); [discriminate|].
  destruct (Z.gtb_spec (DNSServerConfig.weight s) 100); [discriminate|].
  intros _. repeat split; try lia; done.
Qed.

Lemma max_possible_delay_capped (n : nat) (delay max_delay_ms : Z) :
  delay <= max_delay_ms →
  DNSConfigValidator.max_possible_delay n delay max_delay_ms <= max_delay_ms.
Proof.
  revert delay. induction n as [|n IHn]; intros delay Hle; simpl; [done|].
  destruct (Z.gtb_spec (wrap32 (delay * 2)) max_delay_ms); [lia|].
  by apply IHn.
Qed.

Lemma validateRetry_ok (retry : RetryConfig.t) :
  DNSConfigValidator.validateRetry retry = None →
  1 <= RetryConfig.max_attempts retry <= 10
  ∧ 50 <= RetryConfig.base_delay_ms retry <= 1000
  ∧ RetryConfig.base_delay_ms retry <= RetryConfig.max_delay_ms retry <= 10000.
Proof.
  unfold DNSConfigValidator.validateRetry.
  destruct (Z.ltb_spec (RetryConfig.max_attempts retry) 1); [discriminate|].
  destruct (Z.gtb_spec (RetryConfig.max_attempts retry) 10); [discriminate|].
  cbn [orb].
  destruct (Z.ltb_spec (RetryConfig.base_delay_ms retry) 50); [discriminate|].
  destruct (Z.gtb_spec (RetryConfig.base_delay_ms retry) 1000); [discriminate|].
  cbn [orb].
  destruct (Z.ltb_spec (RetryConfig.max_delay_ms retry) (RetryConfig.base_delay_ms retry));
    [discriminate|].
  destruct (Z.gtb_spec (RetryConfig.max_delay_ms retry) 10000); [discriminate|].
  intros _. lia.
Qed.

(** X18: a configuration that [validate] accepts has an enabled server,
    pairwise distinct server addresses, every server with an address
    [inet_pton] parses, a port that is not 0, a timeout of 100 to 10000 ms
    and a weight of 1 to 100, retry bounds in range, a query timeout of 100
    to 30000 ms and 1 to 10000 concurrent queries. *)
Theorem validate_accepts_only_well_formed (env : Env.t) (config : DNSResolverConfig.t) :
  DNSConfigValidator.validate env config = None →
  let servers := DNSResolverConfig.servers config in
  let retry := DNSResolverConfig.retry config in
  (∃ s, s ∈ servers ∧ DNSServerConfig.enabled s = true)
  ∧ NoDup (DNSServerConfig.address <$> servers)
  ∧ Forall (λ s,
      Env.inet_pton_ok env (DNSServerConfig.address s) = true
      ∧ DNSServerConfig.port s ≠ 0 ∧ DNSServerConfig.port s <= 65535
      ∧ 100 <= DNSServerConfig.timeout_ms s <= 10000
      ∧ 1 <= DNSServerConfig.weight s <= 100) servers
  ∧ 1 <= RetryConfig.max_attempts retry <= 10
  ∧ 50 <= RetryConfig.base_delay_ms retry <= 1000
  ∧ RetryConfig.base_delay_ms retry <= RetryConfig.max_delay_ms retry <= 10000
  ∧ 100 <= DNSResolverConfig.query_timeout_ms config <= 30000
  ∧ 1 <= DNSResolverConfig.max_concurrent_queries config <= 10000.
Proof.
  unfold DNSConfigValidator.validate.
  destruct (DNSConfigValidator.validateServers env (DNSResolverConfig.servers config))
    eqn:Hservers; [discriminate|].
  destruct (DNSConfigValidator.validateCache env (DNSResolverConfig.cache config));
    [discriminate|].
  destruct (DNSConfigValidator.validateRetry (DNSResolverConfig.retry config))
    eqn:Hretry; [discriminate|].
  destruct (DNSConfigValidator.validateMetrics env (DNSResolverConfig.metrics config));
    [discriminate|].
  destruct (Z.ltb_spec (DNSResolverConfig.query_timeout_ms config) 100); [discriminate|].
  destruct (Z.gtb_spec (DNSResolverConfig.query_timeout_ms config) 30000); [discriminate|].
  cbn [orb].
  destruct (Z.ltb_spec (DNSResolverConfig.max_concurrent_queries config) 1);
    [discriminate|].
  destruct (Z.gtb_spec (DNSResolverConfig.max_concurrent_queries config) 10000);
    [discriminate|].
  cbn [orb].
  destruct (_ <=? 0); [discriminate|].
  destruct (DNSConfigValidator.has_duplicate_address ∅ (DNSResolverConfig.servers config))
    eqn:Hdup; [discriminate|].
  intros _. cbv zeta.
  apply has_duplicate_address_false in Hdup as [Hnd _].
  apply validateRetry_ok in Hretry.
  unfold DNSConfigValidator.validateServers in Hservers.
  destruct (DNSResolverConfig.servers config) as [|s0 l] eqn:Hl; [discriminate|].
  destruct (DNSConfigValidator.validateServerList env (s0 :: l)) eqn:Hlist; [discriminate|].
  destruct (existsb DNSServerConfig.enabled (s0 :: l)) eqn:Hen; [|discriminate].
  apply existsb_exists in Hen as (s & Hin & Hs).
  apply validateServerList_ok in Hlist.
  split; [exists s; split; [by apply list_elem_of_In|done]|].
  split; [done|]. split; [|lia].
  eapply Forall_impl; [exact Hlist|]. intros x Hx. by apply validateServer_ok.
Qed.

Lemma validate_accepts_only_well_formed_witness :
  let servers := DNSResolverConfig.servers Sample.config in
  let retry := DNSResolverConfig.retry Sample.config in
  (∃ s, s ∈ servers ∧ DNSServerConfig.enabled s = true)
  ∧ NoDup (DNSServerConfig.address <$> servers)
  ∧ Forall (λ s,
      Env.inet_pton_ok Sample.env (DNSServerConfig.address s) = true
      ∧ DNSServerConfig.port s ≠ 0 ∧ DNSServerConfig.port s <= 65535
      ∧ 100 <= DNSServerConfig.timeout_ms s <= 10000
      ∧ 1 <= DNSServerConfig.weight s <= 100) servers
  ∧ 1 <= RetryConfig.max_attempts retry <= 10
  ∧ 50 <= RetryConfig.base_delay_ms retry <= 1000
  ∧ RetryConfig.base_delay_ms retry <= RetryConfig.max_delay_ms retry <= 10000
  ∧ 100 <= DNSResolverConfig.query_timeout_ms Sample.config <= 30000
  ∧ 1 <= DNSResolverConfig.max_concurrent_queries Sample.config <= 10000.
Proof.
  apply (validate_accepts_only_well_formed Sample.env Sample.config).
  vm_compute. reflexivity.
Defined.

(** X19: [validateRetry] never throws its last error, "Retry delay
    progression exceeds max delay": once the three range checks have passed,
    the doubling loop cannot end above [max_delay_ms]. *)
Theorem validateRetry_progression_check_is_dead (retry : RetryConfig.t) :
  DNSConfigValidator.validateRetry retry
  ≠ Some (ConfigValidationError "Retry delay progression exceeds max delay").
Proof.
  unfold DNSConfigValidator.validateRetry.
  destruct (_ || _); [discriminate|].
  destruct (_ || _); [discriminate|].
  destruct (Z.ltb_spec (RetryConfig.max_delay_ms retry) (RetryConfig.base_delay_ms retry));
    [discriminate|].
  destruct (_ >? 10000); [discriminate|]. cbn [orb].
  pose proof (max_possible_delay_capped
                (Z.to_nat (RetryConfig.max_attempts retry - 1))
                (RetryConfig.base_delay_ms retry) (RetryConfig.max_delay_ms retry)
                ltac:(lia)) as Hcap.
  destruct (Z.gtb_spec
              (DNSConfigValidator.max_possible_delay
                 (Z.to_nat (RetryConfig.max_attempts retry - 1))
                 (RetryConfig.base_delay_ms retry) (RetryConfig.max_delay_ms retry))
              (RetryConfig.max_delay_ms retry)); [lia|discriminate].
Qed.

(** ** DNSResolverConfig *)

Lemma existsb_has_address (address : string) (l : list DNSServerConfig.t) :
  existsb (DNSResolverConfig.has_address address) l = true
  ↔ address ∈ DNSServerConfig.address <$> l.
Proof.
  rewrite existsb_exists. split.
  - intros (s & Hin & Hs). unfold DNSResolverConfig.has_address in Hs.
    apply String.eqb_eq in Hs. subst address.
    apply list_elem_of_fmap. exists s. split; [done|by apply list_elem_of_In].
  - intros Hin. apply list_elem_of_fmap in Hin as (s & -> & Hin).
    exists s. split; [by apply list_elem_of_In|].
    unfold DNSResolverConfig.has_address. apply String.eqb_refl.
Qed.

(** X20: [addServer] throws exactly when a server with that address is
    already configured, and then changes nothing; otherwise it appends the
    server.  Either way pairwise distinct addresses stay pairwise
    distinct. *)
Theorem addServer_keeps_addresses_distinct (server : DNSServerConfig.t)
  (cfg : DNSResolverConfig.t) :
  let before := DNSResolverConfig.servers cfg in
  let result := DNSResolverConfig.addServer server cfg in
  (DNSServerConfig.address server ∈ DNSServerConfig.address <$> before →
   (∃ what, result.1 = Some (ConfigValidationError what)) ∧ result.2 = cfg)
  ∧ (DNSServerConfig.address server ∉ DNSServerConfig.address <$> before →
     result.1 = None ∧ DNSResolverConfig.servers result.2 = before ++ [server])
  ∧ (NoDup (DNSServerConfig.address <$> before) →
     NoDup (DNSServerConfig.address <$> DNSResolverConfig.servers result.2)).
Proof.
  intros before result. subst before result. unfold DNSResolverConfig.addServer.
  pose proof (existsb_has_address (DNSServerConfig.address server)
                (DNSResolverConfig.servers cfg)) as Hex.
  destruct (existsb _ _); cbn [fst snd].
  - split; [eauto|]. split; [|done].
    intros Hnot. destruct Hnot. by apply Hex.
  - assert (Hnot : DNSServerConfig.address server
                   ∉ DNSServerConfig.address <$> DNSResolverConfig.servers cfg).
    { intros Hin. apply Hex in Hin. discriminate. }
    split; [done|]. split; [done|].
    intros Hnd. cbn [DNSResolverConfig.set_servers DNSResolverConfig.servers].
    rewrite fmap_app. apply NoDup_app. split; [done|].
    split; [|apply NoDup_singleton].
    intros a Ha Hs. apply list_elem_of_singleton in Hs. by subst a.
Qed.

Lemma addServer_keeps_addresses_distinct_witness :
  let server := DNSServerConfig.mk "8.8.8.8" 53 1 1000 true in
  let result := DNSResolverConfig.addServer server DNSResolverConfig.default in
  result.1 = None
  ∧ DNSResolverConfig.servers result.2
    = DNSResolverConfig.servers DNSResolverConfig.default ++ [server].
Proof.
  apply (proj1 (proj2 (addServer_keeps_addresses_distinct
                         (DNSServerConfig.mk "8.8.8.8" 53 1 1000 true)
                         DNSResolverConfig.default))).
  vm_compute. intros Hin. apply list_elem_of_singleton in Hin. discriminate.
Defined.

Lemma kept_addresses (address : string) (l : list DNSServerConfig.t) :
  DNSServerConfig.address
    <$> List.filter (λ server, negb (DNSResolverConfig.has_address address server)) l
  = List.filter (λ a, negb (String.eqb a address)) (DNSServerConfig.address <$> l).
Proof.
  induction l as [|s l IHl]; [done|].
  rewrite fmap_cons. cbn [List.filter]. unfold DNSResolverConfig.has_address at 1.
  destruct (String.eqb (DNSServerConfig.address s) address); cbn [negb]; [done|].
  rewrite fmap_cons. by rewrite IHl.
Qed.

(** X21: after [removeServer(address)] no server has that address, the
    other servers are kept in their order with their addresses, and if any
    server is left at least one is enabled. *)
Theorem removeServer_keeps_one_enabled (address : string) (cfg : DNSResolverConfig.t) :
  let after := DNSResolverConfig.servers (DNSResolverConfig.removeServer address cfg) in
(address ∉ DNSServerConfig.address <$> after)
  ∧ DNSServerConfig.address <$> after
    = List.filter (λ a, negb (String.eqb a address))
        (DNSServerConfig.address <$> DNSResolverConfig.servers cfg)
  ∧ (after ≠ [] → ∃ s, s ∈ after ∧ DNSServerConfig.enabled s = true).
Proof.
  intros after. subst after. unfold DNSResolverConfig.removeServer.
  cbn [DNSResolverConfig.set_servers DNSResolverConfig.servers].
  set (kept := List.filter (λ server, negb (DNSResolverConfig.has_address address server))
                 (DNSResolverConfig.servers cfg)).
  assert (Haddr : DNSServerConfig.address <$> kept
                  = List.filter (λ a, negb (String.eqb a address))
                      (DNSServerConfig.address <$> DNSResolverConfig.servers cfg)).
  { subst kept. apply kept_addresses. }
  assert (Hsame : DNSServerConfig.address
                    <$> match kept with
                        | first :: rest =>
                            if existsb DNSServerConfig.enabled kept then kept
                            else DNSResolverConfig.enable first :: rest
                        | [] => kept
                        end
                  = DNSServerConfig.address <$> kept).
  { destruct kept as [|first rest]; [done|]. by destruct (existsb _ _). }
  split; [|split].
  - rewrite Hsame, Haddr. intros Hin. apply list_elem_of_In, filter_In in Hin as [_ Hne].
    by rewrite String.eqb_refl in Hne.
  - by rewrite Hsame.
  - destruct kept as [|first rest]; [done|]. intros _.
    destruct (existsb DNSServerConfig.enabled (first :: rest)) eqn:Hen.
    + apply existsb_exists in Hen as (s & Hin & Hs).
      exists s. split; [by apply list_elem_of_In|done].
    + exists (DNSResolverConfig.enable first). split; [apply list_elem_of_here|done].
Qed.

Lemma removeServer_keeps_one_enabled_witness :
  let cfg :=
    DNSResolverConfig.set_servers
      [DNSServerConfig.mk "192.0.2.1" 53 1 1000 true;
       DNSServerConfig.mk "192.0.2.2" 53 1 1000 false] DNSResolverConfig.default in
  let after := DNSResolverConfig.servers (DNSResolverConfig.removeServer "192.0.2.1" cfg) in
  after = [DNSServerConfig.mk "192.0.2.2" 53 1 1000 true]
  ∧ ∃ s, s ∈ after ∧ DNSServerConfig.enabled s = true.
Proof.
  split; [vm_compute; reflexivity|].
  apply (proj2 (proj2 (removeServer_keeps_one_enabled "192.0.2.1"
                         (DNSResolverConfig.set_servers
                            [DNSServerConfig.mk "192.0.2.1" 53 1 1000 true;
                             DNSServerConfig.mk "192.0.2.2" 53 1 1000 false]
                            DNSResolverConfig.default)))).
  vm_compute. discriminate.
Defined.

Lemma replace_first_None (server : DNSServerConfig.t) (l : list DNSServerConfig.t) :
  DNSResolverConfig.replace_first server l = None →
  existsb (DNSResolverConfig.has_address (DNSServerConfig.address server)) l = false.
Proof.
  induction l as [|s l IHl]; simpl; [done|].
  destruct (DNSResolverConfig.has_address (DNSServerConfig.address server) s); [discriminate|].
  destruct (DNSResolverConfig.replace_first server l); [discriminate|]. auto.
Qed.

Lemma replace_first_Some (server : DNSServerConfig.t) (l l' : list DNSServerConfig.t) :
  DNSResolverConfig.replace_first server l = Some l' →
  length l' = length l ∧ server ∈ l'
  ∧ DNSServerConfig.address <$> l' = DNSServerConfig.address <$> l.
Proof.
  revert l'. induction l as [|s l IHl]; intros l'; simpl; [discriminate|].
  unfold DNSResolverConfig.has_address at 1.
  destruct (String.eqb_spec (DNSServerConfig.address s) (DNSServerConfig.address server))
    as [Heq|Hne].
  - intros [= <-]. rewrite !fmap_cons, Heq. cbn [length].
    split; [done|]. split; [apply list_elem_of_here|done].
  - destruct (DNSResolverConfig.replace_first server l) as [rest'|]; [|discriminate].
    intros [= <-]. destruct (IHl rest' eq_refl) as (Hlen & Hin & Haddr).
    rewrite !fmap_cons, Haddr. cbn [length]. rewrite Hlen.
    split; [done|]. split; [by apply list_elem_of_further|done].
Qed.

(** X22: [updateServer] never throws and always leaves the given server in
    the list: it replaces, in place, the first server with that address
    (the list of addresses is then unchanged) or, when there is none,
    appends it. *)
Theorem updateServer_never_throws (server : DNSServerConfig.t) (cfg : DNSResolverConfig.t) :
  let before := DNSResolverConfig.servers cfg in
  let result := DNSResolverConfig.updateServer server cfg in
  let after := DNSResolverConfig.servers result.2 in
  result.1 = None
  ∧ server ∈ after
  ∧ DNSServerConfig.address <$> after
    = if bool_decide (DNSServerConfig.address server ∈ DNSServerConfig.address <$> before)
      then DNSServerConfig.address <$> before
      else (DNSServerConfig.address <$> before) ++ [DNSServerConfig.address server].
Proof.
  intros before result after. subst before result after.
  unfold DNSResolverConfig.updateServer.
  destruct (DNSResolverConfig.replace_first server (DNSResolverConfig.servers cfg))
    as [l'|] eqn:Hrep.
  - apply replace_first_Some in Hrep as (Hlen & Hin & Haddr). cbn [fst snd].
    cbn [DNSResolverConfig.set_servers DNSResolverConfig.servers].
    split; [done|]. split; [done|]. rewrite Haddr.
    rewrite bool_decide_eq_true_2; [done|].
    rewrite <- Haddr. apply list_elem_of_fmap. eauto.
  - apply replace_first_None in Hrep. unfold DNSResolverConfig.addServer. rewrite Hrep.
    cbn [fst snd DNSResolverConfig.set_servers DNSResolverConfig.servers].
    split; [done|]. split; [apply elem_of_app; right; apply list_elem_of_here|].
    rewrite bool_decide_eq_false_2.
    + by rewrite fmap_app.
    + intros Hin. apply existsb_has_address in Hin. congruence.
Qed.

Lemma first_duplicate_None (seen : gset string) (l : list DNSServerConfig.t) :
  DNSResolverConfig.first_duplicate seen l = None
  ↔ NoDup (DNSServerConfig.address <$> l)
    ∧ ∀ a, a ∈ DNSServerConfig.address <$> l → a ∉ seen.
Proof.
  revert seen. induction l as [|server l IHl]; intros seen; simpl.
  - split; [|done]. intros _. split; [constructor|]. intros a Ha.
    by apply elem_of_nil in Ha.
  - case_bool_decide as Hin.
    + split; [discriminate|]. intros [_ Hfresh]. destruct (Hfresh _ (list_elem_of_here _ _)).
      done.
    + rewrite IHl. split.
      * intros [Hnd Hfresh]. split.
        -- constructor; [|done]. intros Ha. apply Hfresh in Ha.
           apply Ha, elem_of_union_l, elem_of_singleton. done.
        -- intros a Ha. apply elem_of_cons in Ha as [->|Ha]; [done|].
           apply Hfresh in Ha. intros Hs. by apply Ha, elem_of_union_r.
      * intros [Hnd Hfresh]. apply NoDup_cons in Hnd as [Hhd Hnd]. split; [done|].
        intros a Ha Hs. apply elem_of_union in Hs as [Hs|Hs].
        -- apply elem_of_singleton in Hs. by subst a.
        -- by apply (Hfresh a (list_elem_of_further _ _ _ Ha)).
Qed.

(** X23: [setServers] accepts a list exactly when its addresses are
    pairwise distinct and it is empty or has an enabled server; it then
    stores the list as given, and otherwise throws and keeps the old one. *)
Theorem setServers_accepts_iff (l : list DNSServerConfig.t) (cfg : DNSResolverConfig.t) :
  let result := DNSResolverConfig.setServers l cfg in
  (result.1 = None
   ↔ NoDup (DNSServerConfig.address <$> l)
     ∧ (l = [] ∨ ∃ s, s ∈ l ∧ DNSServerConfig.enabled s = true))
  ∧ (result.1 = None → DNSResolverConfig.servers result.2 = l)
  ∧ (result.1 ≠ None → result.2 = cfg).
Proof.
  intros result. subst result. unfold DNSResolverConfig.setServers.
  pose proof (first_duplicate_None ∅ l) as Hdup.
  destruct (DNSResolverConfig.first_duplicate ∅ l) as [address|]; cbn [fst snd].
  - split; [|split; [discriminate|done]]. split; [discriminate|].
    intros [Hnd _]. assert (Hnone : Some address = None); [|discriminate].
    apply Hdup. split; [done|]. intros a _. apply not_elem_of_empty.
  - destruct Hdup as [Hdup _]. destruct (Hdup eq_refl) as [Hnd _].
    destruct l as [|s0 l']; cbn [fst snd].
    + split; [|split; [done|done]]. split; [|done]. intros _. split; [done|by left].
    + destruct (existsb DNSServerConfig.enabled (s0 :: l')) eqn:Hen; cbn [fst snd].
      * split; [|split; [done|done]]. split; [|done]. intros _. split; [done|]. right.
        apply existsb_exists in Hen as (s & Hin & Hs).
        exists s. split; [by apply list_elem_of_In|done].
      * split; [|split; [discriminate|done]]. split; [discriminate|].
        intros [_ [Hnil|(s & Hin & Hs)]]; [discriminate|].
        assert (Htrue : existsb DNSServerConfig.enabled (s0 :: l') = true); [|congruence].
        apply existsb_exists. exists s. split; [by apply list_elem_of_In|done].
Qed.

Lemma first_duplicate_has_duplicate (seen : gset string) (l : list DNSServerConfig.t) :
  DNSResolverConfig.first_duplicate seen l = None →
  DNSConfigValidator.has_duplicate_address seen l = false.
Proof.
  revert seen. induction l as [|s l IHl]; intros seen; simpl; [done|].
  case_bool_decide; [discriminate|]. apply IHl.
Qed.

Lemma validateRetry_from_bounds (retry : RetryConfig.t) :
  1 <= RetryConfig.max_attempts retry <= 10 →
  50 <= RetryConfig.base_delay_ms retry <= 1000 →
  RetryConfig.base_delay_ms retry <= RetryConfig.max_delay_ms retry <= 10000 →
  DNSConfigValidator.validateRetry retry = None.
Proof.
  intros Ha Hb Hm. unfold DNSConfigValidator.validateRetry.
  destruct (Z.ltb_spec (RetryConfig.max_attempts retry) 1); [lia|].
  destruct (Z.gtb_spec (RetryConfig.max_attempts retry) 10); [lia|]. cbn [orb].
  destruct (Z.ltb_spec (RetryConfig.base_delay_ms retry) 50); [lia|].
  destruct (Z.gtb_spec (RetryConfig.base_delay_ms retry) 1000); [lia|]. cbn [orb].
  destruct (Z.ltb_spec (RetryConfig.max_delay_ms retry) (RetryConfig.base_delay_ms retry));
    [lia|].
  destruct (Z.gtb_spec (RetryConfig.max_delay_ms retry) 10000); [lia|]. cbn [orb].
  pose proof (max_possible_delay_capped
                (Z.to_nat (RetryConfig.max_attempts retry - 1))
                (RetryConfig.base_delay_ms retry) (RetryConfig.max_delay_ms retry)
                ltac:(lia)) as Hcap.
  destruct (Z.gtb_spec
              (DNSConfigValidator.max_possible_delay
                 (Z.to_nat (RetryConfig.max_attempts retry - 1))
                 (RetryConfig.base_delay_ms retry) (RetryConfig.max_delay_ms retry))
              (RetryConfig.max_delay_ms retry)); [lia|done].
Qed.

(** X24: a configuration returned by [build()] carries exactly the
    builder's fields; its server addresses are pairwise distinct, its cache
    TTL and size, query timeout and concurrency limit are within the
    validator's ranges, and its retry settings pass [validateRetry]. *)
Theorem build_returns_checked_fields (b : DNSResolverConfigBuilder.t)
  (cfg : DNSResolverConfig.t) :
  DNSResolverConfigBuilder.build b = inr cfg →
  cfg = DNSResolverConfig.mk (DNSResolverConfigBuilder.servers_ b)
          (DNSResolverConfigBuilder.cache_ b) (DNSResolverConfigBuilder.retry_ b)
          (DNSResolverConfigBuilder.metrics_ b)
          (DNSResolverConfigBuilder.query_timeout_ms_ b)
          (DNSResolverConfigBuilder.max_concurrent_queries_ b)
          (DNSResolverConfigBuilder.ipv6_enabled_ b)
  ∧ DNSConfigValidator.has_duplicate_address ∅ (DNSResolverConfig.servers cfg) = false
  ∧ DNSConfigValidator.validateRetry (DNSResolverConfig.retry cfg) = None
  ∧ 1 <= CacheConfig.ttl (DNSResolverConfig.cache cfg) <= 86400
  ∧ 100 <= CacheConfig.max_size (DNSResolverConfig.cache cfg) <= 1000000
  ∧ 100 <= DNSResolverConfig.query_timeout_ms cfg <= 30000
  ∧ 1 <= DNSResolverConfig.max_concurrent_queries cfg <= 10000.
Proof.
  unfold DNSResolverConfigBuilder.build.
  unfold DNSResolverConfig.setServers.
  destruct (DNSResolverConfig.first_duplicate ∅ (DNSResolverConfigBuilder.servers_ b))
    as [address|] eqn:Hdup; [discriminate|].
  apply first_duplicate_has_duplicate in Hdup.
  set (first := match DNSResolverConfigBuilder.servers_ b with
                | [] => _ | _ :: _ => _ end).
  assert (Hfirst : first = (None, DNSResolverConfig.set_servers
                                    (DNSResolverConfigBuilder.servers_ b)
                                    DNSResolverConfig.default)
                   ∨ ∃ e, first = (Some e, DNSResolverConfig.default)).
  { subst first. destruct (DNSResolverConfigBuilder.servers_ b); [by left|].
    destruct (existsb _ _); [by left|right; eauto]. }
  destruct Hfirst as [-> | [e ->]]; [|by destruct e].
  unfold DNSResolverConfigBuilder.and_then at 6. unfold DNSResolverConfig.setCacheConfig.
  destruct (Z.ltb_spec (CacheConfig.ttl (DNSResolverConfigBuilder.cache_ b)) 1);
    [cbn; discriminate|].
  destruct (Z.gtb_spec (CacheConfig.ttl (DNSResolverConfigBuilder.cache_ b)) 86400);
    [cbn; discriminate|].
  cbn [orb].
  destruct (Z.ltb_spec (CacheConfig.max_size (DNSResolverConfigBuilder.cache_ b)) 100);
    [cbn; discriminate|].
  destruct (Z.gtb_spec (CacheConfig.max_size (DNSResolverConfigBuilder.cache_ b)) 1000000);
    [cbn; discriminate|].
  cbn [orb].
  unfold DNSResolverConfigBuilder.and_then at 5. unfold DNSResolverConfig.setRetryConfig.
  destruct (Z.ltb_spec (RetryConfig.max_attempts (DNSResolverConfigBuilder.retry_ b)) 1);
    [cbn; discriminate|].
  destruct (Z.gtb_spec (RetryConfig.max_attempts (DNSResolverConfigBuilder.retry_ b)) 10);
    [cbn; discriminate|].
  cbn [orb].
  destruct (Z.ltb_spec (RetryConfig.base_delay_ms (DNSResolverConfigBuilder.retry_ b)) 50);
    [cbn; discriminate|].
  destruct (Z.gtb_spec (RetryConfig.base_delay_ms (DNSResolverConfigBuilder.retry_ b)) 1000);
    [cbn; discriminate|].
  cbn [orb].
  destruct (Z.ltb_spec (RetryConfig.max_delay_ms (DNSResolverConfigBuilder.retry_ b))
              (RetryConfig.base_delay_ms (DNSResolverConfigBuilder.retry_ b)));
    [cbn; discriminate|].
  destruct (Z.gtb_spec (RetryConfig.max_delay_ms (DNSResolverConfigBuilder.retry_ b)) 10000);
    [cbn; discriminate|].
  cbn [orb].
  unfold DNSResolverConfigBuilder.and_then at 4. unfold DNSResolverConfig.setMetricsConfig.
  destruct (_ && _); [cbn; discriminate|].
  unfold DNSResolverConfigBuilder.and_then at 3. unfold DNSResolverConfig.setQueryTimeout.
  destruct (Z.ltb_spec (DNSResolverConfigBuilder.query_timeout_ms_ b) 100);
    [cbn; discriminate|].
  destruct (Z.gtb_spec (DNSResolverConfigBuilder.query_timeout_ms_ b) 30000);
    [cbn; discriminate|].
  cbn [orb].
  unfold DNSResolverConfigBuilder.and_then at 2.
  unfold DNSResolverConfig.setMaxConcurrentQueries.
  destruct (Z.ltb_spec (DNSResolverConfigBuilder.max_concurrent_queries_ b) 1);
    [cbn; discriminate|].
  destruct (Z.gtb_spec (DNSResolverConfigBuilder.max_concurrent_queries_ b) 10000);
    [cbn; discriminate|].
  cbn [orb]. cbn. intros [= <-].
  split; [reflexivity|]. cbn.
  split; [exact Hdup|]. split; [by apply validateRetry_from_bounds|]. lia.
Qed.

Lemma build_returns_checked_fields_witness :
  let b := DNSResolverConfigBuilder.mk [DNSServerConfig.mk "8.8.8.8" 53 1 1000 true]
             (CacheConfig.mk true 300 10000 false EmptyString)
             (RetryConfig.mk 3 100 1000)
             (MetricsConfig.mk true EmptyString 60 "0.0.0.0:9091") 5000 100 true in
  ∃ cfg,
    DNSResolverConfigBuilder.build b = inr cfg
    ∧ DNSConfigValidator.validateRetry (DNSResolverConfig.retry cfg) = None
    ∧ DNSResolverConfig.servers cfg = DNSResolverConfigBuilder.servers_ b.
Proof.
  exists (DNSResolverConfig.mk [DNSServerConfig.mk "8.8.8.8" 53 1 1000 true]
            (CacheConfig.mk true 300 10000 false EmptyString)
            (RetryConfig.mk 3 100 1000)
            (MetricsConfig.mk true EmptyString 60 "0.0.0.0:9091") 5000 100 true).
  assert (Hbuild :
    DNSResolverConfigBuilder.build
      (DNSResolverConfigBuilder.mk [DNSServerConfig.mk "8.8.8.8" 53 1 1000 true]
         (CacheConfig.mk true 300 10000 false EmptyString)
         (RetryConfig.mk 3 100 1000)
         (MetricsConfig.mk true EmptyString 60 "0.0.0.0:9091") 5000 100 true)
    = inr (DNSResolverConfig.mk [DNSServerConfig.mk "8.8.8.8" 53 1 1000 true]
             (CacheConfig.mk true 300 10000 false EmptyString)
             (RetryConfig.mk 3 100 1000)
             (MetricsConfig.mk true EmptyString 60 "0.0.0.0:9091") 5000 100 true))
    by (vm_compute; reflexivity).
  split; [exact Hbuild|].
  destruct (build_returns_checked_fields _ _ Hbuild) as (_ & _ & Hretry & _).
  split; [exact Hretry|reflexivity].
Defined.

(** ** DNSResolver *)







(** X27: a result that is not a success, or that carries no address list,
    never inserts into the cache and never emits an event: the cache is
    left as the lookup of the old addresses left it, and a result delivered
    to the caller carries the status received and no address. *)
Theorem failed_query_caches_nothing (tpm : positive) (env : Env.t) (now steady_now : Z)
  (mgr : DNSEventManager.t) (context : QueryContext.t) (status : Z)
  (result : option (list Ares.addrinfo_node)) (r : DNSResolver.t) (cache : DNSCache.t)
  (p : DNSResolver.processed) :
  status ≠ Ares.ARES_SUCCESS ∨ result = None →
  DNSResolver.cache_ r = Some cache →
  DNSResolver.process_result tpm env now steady_now mgr context status result r = Some p →
  DNSResolver.emitted p = []
  ∧ DNSResolver.deliveries p = []
  ∧ DNSResolver.cache_ (DNSResolver.after p)
    = Some (DNSCache.get tpm now (QueryContext.hostname context) cache).2
  ∧ ∀ res, DNSResolver.outcome p = DNSResolver.Fulfilled res →
      ResolveResult.ip_addresses res = [] ∧ ResolveResult.status res = status.
Proof.
  intros Hfail Hcache. unfold DNSResolver.process_result. rewrite Hcache.
  destruct (DNSCache.get tpm now (QueryContext.hostname context) cache)
    as [found cache1]. cbn [fst snd].
  assert (Hnone : (if status =? Ares.ARES_SUCCESS then result else None) = None).
  { destruct Hfail as [Hne| ->]; [|by destruct (_ =? _)].
    destruct (Z.eqb_spec status Ares.ARES_SUCCESS); [done|done]. }
  rewrite Hnone.
  destruct (DNSResolver.config_ _) as [cfg|];
    [destruct (negb _ && negb _); [destruct (_ <? _)|]|];
    try rewrite recordQuery_pair; intros [= <-];
    cbn [DNSResolver.emitted DNSResolver.deliveries DNSResolver.after DNSResolver.outcome
         DNSResolver.cache_ DNSResolver.set_metrics DNSResolver.set_cache
         DNSResolver.set_retry_count mbind];
    (split; [done|]); (split; [done|]); (split; [done|]);
    intros res Hres; try discriminate; by injection Hres as <-.
Qed.

Lemma failed_query_caches_nothing_witness :
  ∃ p,
    DNSResolver.process_result Sample.tpm Sample.env (2 * Sample.sec) (2 * Sample.sec)
      Sample.quiet (QueryContext.mk "foo.test" 0) Ares.ARES_ENOTFOUND None Sample.primed
    = Some p
    ∧ DNSResolver.emitted p = []
    ∧ DNSResolver.outcome p
      = DNSResolver.Fulfilled (ResolveResult.mk "foo.test" [] Ares.ARES_ENOTFOUND 2000).
Proof.
  eexists. split; [vm_compute; reflexivity|].
  split; [|vm_compute; reflexivity].
  refine (proj1 (failed_query_caches_nothing Sample.tpm Sample.env (2 * Sample.sec)
                   (2 * Sample.sec) Sample.quiet (QueryContext.mk "foo.test" 0)
                   Ares.ARES_ENOTFOUND None Sample.primed
                   (default (DNSCache.new 0 0) (DNSResolver.cache_ Sample.primed))
                   _ _ _ _)).
  - left. discriminate.
  - vm_compute. reflexivity.
  - vm_compute. reflexivity.
Defined.

Lemma get_keeps_ttl (tpm : positive) (now : Z) (h : string) (c : DNSCache.t) :
  DNSCache.ttl_ (DNSCache.get tpm now h c).2 = DNSCache.ttl_ c.
Proof.
  unfold DNSCache.get. destruct (DNSCache.cache_ c !! h) as [record|]; [|done].
  by destruct (DNSCache.stale now record).
Qed.

(** A [get] on the record [update] has just stored, before its expiry,
    answers with the stored addresses. *)
Lemma get_updated_answers (tpm : positive) (c0 : DNSCache.t) (h : string)
  (A : list string) (t0 t : Z) :
  t < t0 + Chrono.seconds tpm (DNSCache.ttl_ c0) →
  (DNSCache.get tpm t h (DNSCache.update tpm t0 h A c0)).1 = Some A.
Proof.
  intros Hlt. unfold DNSCache.get. rewrite update_lookup.
  unfold DNSCache.stale. cbn [DNSRecord.expire_time DNSRecord.is_valid DNSRecord.ip_addresses].
  destruct (Z.geb_spec t (t0 + Chrono.seconds tpm (DNSCache.ttl_ c0))) as [?|_]; [lia|].
  reflexivity.
Qed.

(** X28: when a query succeeds with at least one address, the caller gets
    exactly the addresses collected from the result, the cache holds them
    for the hostname with a fresh TTL, and the next [resolve] of that
    hostname, made before the record expires, is answered at once from the
    cache with the same addresses. *)
Theorem successful_query_is_cached (tpm : positive) (env : Env.t) (now steady_now : Z)
  (mgr : DNSEventManager.t) (context : QueryContext.t)
  (nodes : list Ares.addrinfo_node) (r : DNSResolver.t) (cache : DNSCache.t)
  (t steady_t : Z) :
  let h := QueryContext.hostname context in
  let ips := DNSResolver.collect_addresses nodes in
  let ttl := DNSCache.ttl_ cache in
  DNSResolver.initialized_ r = true →
  DNSResolver.cache_ r = Some cache →
  ips ≠ [] →
  t < now + Chrono.seconds tpm ttl →
  ∃ p cache',
    DNSResolver.process_result tpm env now steady_now mgr context Ares.ARES_SUCCESS
      (Some nodes) r = Some p
    ∧ DNSResolver.outcome p
      = DNSResolver.Fulfilled
          (ResolveResult.mk h ips Ares.ARES_SUCCESS
             (Chrono.to_milliseconds tpm (steady_now - QueryContext.start_time context)))
    ∧ DNSResolver.cache_ (DNSResolver.after p) = Some cache'
    ∧ DNSCache.cache_ cache' !! h
      = Some (DNSRecord.mk EmptyString ips (now + Chrono.seconds tpm ttl) true)
    ∧ (DNSResolver.resolve tpm t steady_t h (DNSResolver.after p)).1
      = DNSResolver.Ready (ResolveResult.mk h ips Ares.ARES_SUCCESS 0).
Proof.
  intros h ips ttl Hinit Hcache Hips Hlt. subst h ips ttl.
  unfold DNSResolver.process_result. rewrite Hcache.
  pose proof (get_keeps_ttl tpm now (QueryContext.hostname context) cache) as Httl.
  destruct (DNSCache.get tpm now (QueryContext.hostname context) cache)
    as [found cache1]. cbn [fst snd] in *.
  change (Ares.ARES_SUCCESS =? Ares.ARES_SUCCESS) with true. cbv iota.
  destruct (DNSResolver.collect_addresses nodes) as [|ip ips] eqn:Hcollect; [done|].
  rewrite recordQuery_pair.
  eexists _, _. split; [reflexivity|].
  cbn [DNSResolver.outcome DNSResolver.after DNSResolver.set_metrics DNSResolver.set_cache
       DNSResolver.cache_].
  split; [reflexivity|]. split; [reflexivity|].
  rewrite <- Httl. split; [apply update_lookup|].
  unfold DNSResolver.resolve.
  cbn [DNSResolver.initialized_ DNSResolver.cache_ DNSResolver.set_metrics
       DNSResolver.set_cache]. rewrite Hinit. cbn [negb].
  pose proof (get_updated_answers tpm cache1 (QueryContext.hostname context) (ip :: ips)
                now t) as Hget.
  rewrite Httl in Hget. specialize (Hget Hlt).
  destruct (DNSCache.get tpm t (QueryContext.hostname context)
              (DNSCache.update tpm now (QueryContext.hostname context) (ip :: ips) cache1))
    as [answer cache2]. cbn [fst] in Hget. subst answer. reflexivity.
Qed.

Lemma successful_query_is_cached_witness :
  ∃ p cache',
    DNSResolver.process_result Sample.tpm Sample.env Sample.sec Sample.sec Sample.quiet
      (QueryContext.mk "example.test" 0) Ares.ARES_SUCCESS
      (Some [Sample.node "192.0.2.1"]) Sample.resolver = Some p
    ∧ DNSResolver.outcome p
      = DNSResolver.Fulfilled
          (ResolveResult.mk "example.test" ["192.0.2.1"] Ares.ARES_SUCCESS
             (Chrono.to_milliseconds Sample.tpm (Sample.sec - 0)))
    ∧ DNSResolver.cache_ (DNSResolver.after p) = Some cache'
    ∧ DNSCache.cache_ cache' !! "example.test"
      = Some (DNSRecord.mk EmptyString ["192.0.2.1"]
                (Sample.sec + Chrono.seconds Sample.tpm 300) true)
    ∧ (DNSResolver.resolve Sample.tpm (2 * Sample.sec) 0 "example.test"
         (DNSResolver.after p)).1
      = DNSResolver.Ready
          (ResolveResult.mk "example.test" ["192.0.2.1"] Ares.ARES_SUCCESS 0).
Proof.
  apply (successful_query_is_cached Sample.tpm Sample.env Sample.sec Sample.sec Sample.quiet
           (QueryContext.mk "example.test" 0) [Sample.node "192.0.2.1"] Sample.resolver
           (default (DNSCache.new 0 0) (DNSResolver.cache_ Sample.resolver))
           (2 * Sample.sec) 0); vm_compute; (reflexivity || discriminate).
Defined.

(** X29: under a retry configuration that [validateRetry] accepts, the
    delay before retry [k], for [k] from 1 to [max_attempts], is
    [min(base_delay_ms * 2^(k-1), max_delay_ms)] with no 32-bit wrap-around,
    and lies between [base_delay_ms] and [max_delay_ms]. *)
Theorem retry_delay_is_capped_doubling (retry : RetryConfig.t) (k : Z) :
  DNSConfigValidator.validateRetry retry = None →
  1 <= k <= RetryConfig.max_attempts retry →
  DNSResolver.retry_delay retry k
  = Z.min (RetryConfig.base_delay_ms retry * 2 ^ (k - 1)) (RetryConfig.max_delay_ms retry)
  ∧ RetryConfig.base_delay_ms retry <= DNSResolver.retry_delay retry k
    <= RetryConfig.max_delay_ms retry.
Proof.
  intros Hok Hk. apply validateRetry_ok in Hok as (Hattempts & Hbase & Hmax).
  unfold DNSResolver.retry_delay. rewrite Z.shiftl_1_l.
  assert (Hpow : 1 <= 2 ^ (k - 1) <= 2 ^ 9).
  { split.
    - pose proof (Z.pow_pos_nonneg 2 (k - 1)). lia.
    - apply Z.pow_le_mono_r; lia. }
  change (2 ^ 9) with 512 in Hpow.
  unfold wrap32. rewrite (Z.mod_small (2 ^ (k - 1))) by (change (2 ^ 32) with 4294967296; lia).
  rewrite Z.mod_small by (change (2 ^ 32) with 4294967296; nia).
  split; [reflexivity|]. nia.
Qed.

Lemma retry_delay_is_capped_doubling_witness :
  DNSResolver.retry_delay (RetryConfig.mk 3 50 1000) 2
  = Z.min (50 * 2 ^ (2 - 1)) 1000
  ∧ 50 <= DNSResolver.retry_delay (RetryConfig.mk 3 50 1000) 2 <= 1000.
Proof.
  apply (retry_delay_is_capped_doubling (RetryConfig.mk 3 50 1000) 2).
  - vm_compute. reflexivity.
  - simpl. lia.
Defined.

Lemma load_records_keeps_ttl (tpm : positive) (now : Z) (records : list Json.t)
  (c : DNSCache.t) :
  DNSCache.ttl_ (DNSCachePersistor.load_records tpm now records c).2 = DNSCache.ttl_ c.
Proof.
  revert c. induction records as [|j records IHr]; intros c; simpl; [done|].
  destruct (DNSCachePersistor.deserializeRecord tpm j) as [record|]; [|done].
  rewrite IHr. by destruct (_ && _).
Qed.

Lemma load_keeps_ttl_and_capacity (tpm : positive) (now : Z) (file : option Json.t)
  (c : DNSCache.t) :
  DNSCache.ttl_ (DNSCachePersistor.load tpm now file c).2 = DNSCache.ttl_ c
  ∧ DNSCache.max_size_ (DNSCachePersistor.load tpm now file c).2 = DNSCache.max_size_ c.
Proof.
  unfold DNSCachePersistor.load. destruct_matches; try done.
  split; [apply load_records_keeps_ttl|apply load_records_max_size].
Qed.

(** X30: after a [loadConfig] that succeeds the resolver is initialised and
    holds the snapshot; its server list is the addresses of the enabled
    servers, in order, and is not empty; its cache has the snapshot's TTL
    and a capacity of 10000 whatever [max_size] the snapshot asks for. *)
Theorem loadConfig_success_state (tpm : positive) (env : Env.t) (now : Z)
  (config : DNSResolverConfig.t) (r : DNSResolver.t) :
  (DNSResolver.loadConfig tpm env now config r).1 = true →
  let r' := (DNSResolver.loadConfig tpm env now config r).2 in
  DNSResolver.initialized_ r' = true
  ∧ DNSResolver.config_ r' = Some config
  ∧ DNSResolver.dns_server_list_ r'
    = DNSServerConfig.address
        <$> List.filter DNSServerConfig.enabled (DNSResolverConfig.servers config)
  ∧ DNSResolver.dns_server_list_ r' ≠ []
  ∧ ∃ cache,
      DNSResolver.cache_ r' = Some cache
      ∧ DNSCache.ttl_ cache = CacheConfig.ttl (DNSResolverConfig.cache config)
      ∧ DNSCache.capacity cache = 10000.
Proof.
  unfold DNSResolver.loadConfig.
  destruct (DNSConfigValidator.validate env config) as [e|] eqn:Hvalid; [discriminate|].
  assert (Hactive : List.filter DNSServerConfig.enabled (DNSResolverConfig.servers config)
                    ≠ []).
  { unfold DNSConfigValidator.validate in Hvalid.
    destruct (DNSConfigValidator.validateServers env (DNSResolverConfig.servers config))
      eqn:Hservers; [discriminate|].
    unfold DNSConfigValidator.validateServers in Hservers.
    destruct (DNSResolverConfig.servers config) as [|s0 l]; [discriminate|].
    destruct (DNSConfigValidator.validateServerList env (s0 :: l)); [discriminate|].
    destruct (existsb DNSServerConfig.enabled (s0 :: l)) eqn:Hen; [|discriminate].
    apply existsb_exists in Hen as (s & Hin & Hs).
    intros Hnil. assert (Hf : In s (List.filter DNSServerConfig.enabled (s0 :: l))).
    { apply filter_In. by split. }
    rewrite Hnil in Hf. destruct Hf. }
  unfold DNSResolver.init.
  destruct (negb (Env.ares_init_options_status env =? Ares.ARES_SUCCESS));
    [cbn [negb fst]; discriminate|].
  destruct (List.filter DNSServerConfig.enabled (DNSResolverConfig.servers config))
    as [|s0 active] eqn:Hfilter; [done|].
  rewrite fmap_cons.
  destruct (negb (_ =? Ares.ARES_SUCCESS)); [cbn [negb fst]; discriminate|].
  cbn [negb fst snd]. intros _.
  set (r2 := if MetricsConfig.enabled (DNSResolverConfig.metrics config) then _ else _).
  assert (Hr2 : DNSResolver.initialized_ r2 = true
                ∧ DNSResolver.dns_server_list_ r2
                  = DNSServerConfig.address s0 :: (DNSServerConfig.address <$> active)
                ∧ DNSResolver.cache_ r2
                  = Some (DNSCache.new now (CacheConfig.ttl (DNSResolverConfig.cache config)))).
  { subst r2. by destruct (MetricsConfig.enabled _). }
  destruct Hr2 as (Hinit & Hlist & Hc).
  destruct (CacheConfig.enabled (DNSResolverConfig.cache config)
            && CacheConfig.persistent (DNSResolverConfig.cache config)).
  - unfold DNSResolver.load_cache. rewrite Hc.
    pose proof (load_keeps_ttl_and_capacity tpm now
                  (Env.read_json_file env
                     (CacheConfig.cache_file (DNSResolverConfig.cache config)))
                  (DNSCache.new now (CacheConfig.ttl (DNSResolverConfig.cache config))))
      as [Httl Hcap].
    destruct (DNSCachePersistor.load tpm now _ _) as [ok cache'].
    cbn [fst snd DNSResolver.set_config DNSResolver.set_cache DNSResolver.initialized_
         DNSResolver.config_ DNSResolver.dns_server_list_ DNSResolver.cache_] in *.
    rewrite Hinit, Hlist. repeat split; try done.
    exists cache'. split; [done|]. by split.
  - cbn [DNSResolver.set_config DNSResolver.initialized_ DNSResolver.config_
         DNSResolver.dns_server_list_ DNSResolver.cache_].
    rewrite Hinit, Hlist, Hc. repeat split; try done.
    eexists. split; [reflexivity|]. by split.
Qed.

Lemma loadConfig_success_state_witness :
  let r' := (DNSResolver.loadConfig Sample.tpm Sample.env 0 Sample.config
               DNSResolver.new).2 in
  DNSResolver.initialized_ r' = true
  ∧ DNSResolver.config_ r' = Some Sample.config
  ∧ DNSResolver.dns_server_list_ r'
    = DNSServerConfig.address
        <$> List.filter DNSServerConfig.enabled (DNSResolverConfig.servers Sample.config)
  ∧ DNSResolver.dns_server_list_ r' ≠ []
  ∧ ∃ cache,
      DNSResolver.cache_ r' = Some cache
      ∧ DNSCache.ttl_ cache = CacheConfig.ttl (DNSResolverConfig.cache Sample.config)
      ∧ DNSCache.capacity cache = 10000.
Proof.
  apply (loadConfig_success_state Sample.tpm Sample.env 0 Sample.config DNSResolver.new).
  vm_compute. reflexivity.
Defined.
